(** * Civic-issue reporting app: a shallow embedding of its handlers

    The application is three React components ([App], [AdminHome],
    [UserHome]) over the browser's [localStorage].  Every handler is
    embedded as a function on explicit state:

    - a JavaScript value is a [jsval]; an object is a finite map from
      property names to values ([gmap string jsval]), so that object
      spread is a sequence of inserts and rest destructuring is a delete;
    - [localStorage] is a record of its three keys, each absent or holding
      the value that [JSON.parse] returns for the text stored there;
      [setItem k (JSON.stringify v)] stores [stringify_parse v];
    - component state ([useState]) is a record per component; the clock
      ([Date.now()], [new Date().toISOString()]) is an argument of the
      handler that reads it. *)

From Stdlib Require Import Floats.PrimFloat.
From stdpp Require Import gmap strings list pretty.

#[local] Set Warnings "-register-all,-inexact-float".
#[local] Open Scope string_scope.
#[local] Open Scope list_scope.

(* ===================================================================== *)
(** ** JavaScript values and JSON *)
(* ===================================================================== *)

Module JS.

Inductive jsval : Type :=
| JUndefined
| JNull
| JBool (b : bool)
| JNum (x : float)
| JStr (s : string)
| JArr (xs : list jsval)
| JObj (o : gmap string jsval).

Abbreviation obj := (gmap string jsval).

(** [o.k] on an object: [undefined] when the property is absent. *)
Definition prop (o : obj) (k : string) : jsval := default JUndefined (o !! k).

(** [v.k] on any value: a [TypeError] ([None]) on [undefined] and [null];
    the keys this program reads are not properties of strings, numbers,
    booleans or arrays, where the access gives [undefined]. *)
Definition member (v : jsval) (k : string) : option jsval :=
  match v with
  | JUndefined | JNull => None
  | JObj o => Some (prop o k)
  | _ => Some JUndefined
  end.

(** [!!v] *)
Definition truthy (v : jsval) : bool :=
  match v with
  | JUndefined | JNull => false
  | JBool b => b
  | JNum x => negb (is_zero x || is_nan x)
  | JStr s => negb (String.eqb s "")
  | JArr _ | JObj _ => true
  end.

(** [a === b].  Two arrays or objects are equal when they are the same
    reference; the values compared here come from different
    [JSON.parse] calls or literals, so they never are. *)
Definition strict_eq (a b : jsval) : bool :=
  match a, b with
  | JUndefined, JUndefined => true
  | JNull, JNull => true
  | JBool x, JBool y => Bool.eqb x y
  | JNum x, JNum y => PrimFloat.eqb x y
  | JStr x, JStr y => String.eqb x y
  | _, _ => false
  end.

Definition is_undefined (v : jsval) : bool :=
  match v with JUndefined => true | _ => false end.

(** [JSON.parse(JSON.stringify(v))]: properties whose value is
    [undefined] are dropped, [undefined] inside an array becomes [null],
    [NaN] and the infinities become [null], and [-0] becomes [0]. *)
Fixpoint stringify_parse (v : jsval) : jsval :=
  match v with
  | JNum x =>
      if (is_nan x || is_infinity x)%bool then JNull
      else if is_zero x then JNum 0 else JNum x
  | JArr xs =>
      JArr (map (fun x => match x with
                          | JUndefined => JNull
                          | _ => stringify_parse x
                          end) xs)
  | JObj o =>
      JObj (filter (fun kv => is_undefined kv.2 = false) (stringify_parse <$> o))
  | _ => v
  end.

(** The same on an object, as an object. *)
Definition stringify_parse_obj (o : obj) : obj :=
  filter (fun kv => is_undefined kv.2 = false) (stringify_parse <$> o).

(** Values that a JSON text denotes: the fixed points of the round trip. *)
Definition is_json (o : obj) : Prop := stringify_parse_obj o = o.

(** An object literal [{k1: v1, ..., kn: vn}]: the properties are set from
    left to right. *)
Definition literal (fields : list (string * jsval)) : obj :=
  foldl (fun o kv => <[kv.1 := kv.2]> o) ∅ fields.

(** An optional string argument: absent is [undefined]. *)
Definition opt_str (s : option string) : jsval :=
  match s with Some s => JStr s | None => JUndefined end.

(** Number of constructors of a value: the measure for inductions that
    go through the properties of an object. *)
Fixpoint size (v : jsval) : nat :=
  match v with
  | JArr xs => S (foldr (fun x n => size x + n) 0 xs)
  | JObj o => S (map_fold (fun _ x n => size x + n) 0 o)
  | _ => 1
  end.

(** SameValueZero, the comparison that [Set] uses: [===], except that
    [NaN] is the same value as [NaN]. *)
Definition same_value_zero (a b : jsval) : bool :=
  match a, b with
  | JNum x, JNum y => PrimFloat.eqb x y || (is_nan x && is_nan y)
  | _, _ => strict_eq a b
  end.

(** [[...new Set(values)]]: the values in the order in which each first
    occurs. *)
Definition new_Set (values : list jsval) : list jsval :=
  foldl (fun set v => if existsb (same_value_zero v) set then set else set ++ [v])
    [] values.

End JS.
Import JS.

(* ===================================================================== *)
(** ** localStorage *)
(* ===================================================================== *)

Module Storage.

(** The three keys the application uses.  A key is absent ([None]) or
    holds JSON text, kept here as the value [JSON.parse] gives for it; the
    program only ever stores an array of objects under [users] and
    [reports] and an object under [currentUser]. *)
Record LocalStorage : Type := {
  users : option (list obj);
  reports : option (list obj);
  currentUser : option obj
}.

Definition empty : LocalStorage :=
  {| users := None; reports := None; currentUser := None |}.

(** [JSON.parse(localStorage.getItem('users') || '[]')] *)
Definition getUsers (ls : LocalStorage) : list obj := default [] (users ls).

(** [JSON.parse(localStorage.getItem('reports') || '[]')] *)
Definition getReports (ls : LocalStorage) : list obj := default [] (reports ls).

(** [localStorage.setItem('users', JSON.stringify(v))] *)
Definition setUsers (v : list obj) (ls : LocalStorage) : LocalStorage :=
  {| users := Some (stringify_parse_obj <$> v);
     reports := reports ls;
     currentUser := currentUser ls |}.

(** [localStorage.setItem('reports', JSON.stringify(v))] *)
Definition setReports (v : list obj) (ls : LocalStorage) : LocalStorage :=
  {| users := users ls;
     reports := Some (stringify_parse_obj <$> v);
     currentUser := currentUser ls |}.

(** [localStorage.setItem('currentUser', JSON.stringify(v))] *)
Definition setCurrentUser (v : obj) (ls : LocalStorage) : LocalStorage :=
  {| users := users ls;
     reports := reports ls;
     currentUser := Some (stringify_parse_obj v) |}.

(** [localStorage.removeItem('currentUser')] *)
Definition removeCurrentUser (ls : LocalStorage) : LocalStorage :=
  {| users := users ls; reports := reports ls; currentUser := None |}.

(** What a browser can hold: every stored object is denoted by a JSON
    text. *)
Definition well_formed (ls : LocalStorage) : Prop :=
  Forall is_json (getUsers ls) /\ Forall is_json (getReports ls) /\
  (forall u, currentUser ls = Some u -> is_json u).

End Storage.

(** [Array.prototype.filter] with a callback that may throw: the callback
    runs on the elements in order and the first exception ([None]) ends the
    call. *)
Fixpoint filter_throwing {A : Type} (p : A -> option bool) (l : list A)
  : option (list A) :=
  match l with
  | [] => Some []
  | x :: l' =>
      match p x with
      | None => None
      | Some b =>
          match filter_throwing p l' with
          | None => None
          | Some r => Some (if b then x :: r else r)
          end
      end
  end.

(** [!s] is false exactly on the non-empty strings. *)
Definition nonempty (s : string) : bool := truthy (JStr s).

(** [Array.prototype.filter] with a callback that reads the index as
    well: [l.filter((x, i) => p(x, i))]. *)
Fixpoint filter_from {A : Type} (p : A -> nat -> bool) (i : nat) (l : list A)
  : list A :=
  match l with
  | [] => []
  | x :: l' => if p x i then x :: filter_from p (S i) l' else filter_from p (S i) l'
  end.

Definition filter_indexed {A : Type} (p : A -> nat -> bool) (l : list A) : list A :=
  filter_from p 0 l.

(* ===================================================================== *)
(** ** AdminHome *)
(* ===================================================================== *)

Module AdminHome.

(** [useState({ status: 'all', category: 'all', district: 'all' })] *)
Record Filters : Type := {
  status : string;
  category : string;
  district : string
}.

(** The [status] parameter of [updateReportStatus]:
    ['pending' | 'in-progress' | 'resolved']. *)
Inductive Status : Type := Pending | InProgress | Resolved.

Definition status_value (s : Status) : string :=
  match s with
  | Pending => "pending"
  | InProgress => "in-progress"
  | Resolved => "resolved"
  end.

Record State : Type := {
  reports : list obj;
  filteredReports : list obj;
  selectedReport : option obj;
  filters : Filters;
  activeTab : string
}.

(** The body of the second effect ("Apply filters"): the value it passes to
    [setFilteredReports], or [None] when [report.location.district] throws. *)
Definition applyFilters (reports : list obj) (filters : Filters)
  : option (list obj) :=
  let filtered := reports in
  let filtered :=
    if negb (String.eqb (status filters) "all")
    then List.filter
           (fun report => strict_eq (prop report "status") (JStr (status filters)))
           filtered
    else filtered in
  let filtered :=
    if negb (String.eqb (category filters) "all")
    then List.filter
           (fun report => strict_eq (prop report "category") (JStr (category filters)))
           filtered
    else filtered in
  if negb (String.eqb (district filters) "all")
  then filter_throwing
         (fun report =>
            match member (prop report "location") "district" with
            | Some d => Some (strict_eq d (JStr (district filters)))
            | None => None
            end)
         filtered
  else Some filtered.

(** The effect runs after every render in which [reports] or [filters]
    changed. *)
Definition runFilterEffect (st : State) : option State :=
  match applyFilters (reports st) (filters st) with
  | Some filtered =>
      Some {| reports := reports st;
              filteredReports := filtered;
              selectedReport := selectedReport st;
              filters := filters st;
              activeTab := activeTab st |}
  | None => None
  end.

(** Initial state, then the first effect ("Load all reports"), then the
    filter effect. *)
Definition mount (ls : Storage.LocalStorage) : option State :=
  let allReports := Storage.getReports ls in
  runFilterEffect
    {| reports := allReports;
       filteredReports := allReports;
       selectedReport := None;
       filters := {| status := "all"; category := "all"; district := "all" |};
       activeTab := "dashboard" |}.

(** [{ ...report, status, department, comments, assignedTo: user.name }] *)
Definition withTriage (user : obj) (status : Status)
    (department comments : option string) (report : obj) : obj :=
  <["assignedTo" := prop user "name"]>
    (<["comments" := opt_str comments]>
       (<["department" := opt_str department]>
          (<["status" := JStr (status_value status)]> report))).

(** [reports.map(report => report.id === reportId ? {...} : report)] *)
Definition updatedReports (user : obj) (reportId : jsval) (status : Status)
    (department comments : option string) (reports : list obj) : list obj :=
  (fun report =>
     if strict_eq (prop report "id") reportId
     then withTriage user status department comments report
     else report) <$> reports.

Definition updateReportStatus (user : obj) (reportId : jsval) (status : Status)
    (department comments : option string)
    (ls : Storage.LocalStorage) (st : State) : Storage.LocalStorage * State :=
  let updated := updatedReports user reportId status department comments (reports st) in
  let selectedId :=
    match selectedReport st with
    | Some selected => prop selected "id"
    | None => JUndefined
    end in
  (Storage.setReports updated ls,
   {| reports := updated;
      filteredReports := filteredReports st;
      selectedReport :=
        if strict_eq selectedId reportId
        then Some (withTriage user status department comments
                     (default ∅ (selectedReport st)))
        else selectedReport st;
      filters := filters st;
      activeTab := activeTab st |}).

Record Stats : Type := {
  total : nat;
  pending : nat;
  inProgress : nat;
  resolved : nat
}.

Definition getDashboardStats (reports : list obj) : Stats :=
  {| total := length reports;
     pending :=
       length (List.filter (fun r => strict_eq (prop r "status") (JStr "pending")) reports);
     inProgress :=
       length (List.filter (fun r => strict_eq (prop r "status") (JStr "in-progress")) reports);
     resolved :=
       length (List.filter (fun r => strict_eq (prop r "status") (JStr "resolved")) reports) |}.

(** The four [TabsTrigger]s of the page. *)
Inductive TabsTrigger : Type :=
  TriggerDashboard | TriggerReports | TriggerMap | TriggerAnalytics.

Definition trigger_value (t : TabsTrigger) : string :=
  match t with
  | TriggerDashboard => "dashboard"
  | TriggerReports => "reports"
  | TriggerMap => "map"
  | TriggerAnalytics => "analytics"
  end.

(** What the administrator can do on the page.  A [Select] reports the
    value of the chosen item; the district items are computed from the
    reports, so the value is left open.  The [Tabs] component is not part
    of the sources: the events are offered whatever tab is shown. *)
Inductive Event : Type :=
| SelectStatus (value : string)
| SelectCategory (value : string)
| SelectDistrict (value : string)
| ClickTab (t : TabsTrigger)
| ClickView (i : nat)
| ClickCard (i : nat)
| ClickMarkInProgress
| ClickMarkResolved.

Definition setFilters (f : Filters -> Filters) (st : State) : State :=
  {| reports := reports st;
     filteredReports := filteredReports st;
     selectedReport := selectedReport st;
     filters := f (filters st);
     activeTab := activeTab st |}.

Definition setSelectedReport (r : option obj) (st : State) : State :=
  {| reports := reports st;
     filteredReports := filteredReports st;
     selectedReport := r;
     filters := filters st;
     activeTab := activeTab st |}.

Definition setActiveTab (t : string) (st : State) : State :=
  {| reports := reports st;
     filteredReports := filteredReports st;
     selectedReport := selectedReport st;
     filters := filters st;
     activeTab := t |}.

(** The "Update Status" buttons are rendered for a selected report whose
    status is not ['resolved']. *)
Definition canUpdate (st : State) : option obj :=
  match selectedReport st with
  | Some selected =>
      if strict_eq (prop selected "status") (JStr "resolved") then None
      else Some selected
  | None => None
  end.

(** One event of the page: the storage after the handler, and the state
    after the render that follows, [None] when the filter effect throws. *)
Definition handle (user : obj) (e : Event)
    (ls : Storage.LocalStorage) (st : State)
  : Storage.LocalStorage * option State :=
  match e with
  | SelectStatus value =>
      (ls, runFilterEffect (setFilters (fun prev =>
        {| status := value; category := category prev; district := district prev |}) st))
  | SelectCategory value =>
      (ls, runFilterEffect (setFilters (fun prev =>
        {| status := status prev; category := value; district := district prev |}) st))
  | SelectDistrict value =>
      (ls, runFilterEffect (setFilters (fun prev =>
        {| status := status prev; category := category prev; district := value |}) st))
  | ClickTab t => (ls, Some (setActiveTab (trigger_value t) st))
  | ClickView i =>
      match take 5 (reports st) !! i with
      | Some report => (ls, Some (setActiveTab "reports" (setSelectedReport (Some report) st)))
      | None => (ls, Some st)
      end
  | ClickCard i =>
      match filteredReports st !! i with
      | Some report => (ls, Some (setSelectedReport (Some report) st))
      | None => (ls, Some st)
      end
  | ClickMarkInProgress =>
      match canUpdate st with
      | Some selected =>
          let r := updateReportStatus user (prop selected "id") InProgress
                     (Some "Public Works") None ls st in
          (r.1, runFilterEffect r.2)
      | None => (ls, Some st)
      end
  | ClickMarkResolved =>
      match canUpdate st with
      | Some selected =>
          let r := updateReportStatus user (prop selected "id") Resolved
                     (Some "Public Works") (Some "Issue resolved successfully") ls st in
          (r.1, runFilterEffect r.2)
      | None => (ls, Some st)
      end
  end.

(** [getUniqueValues(key)]: the distinct truthy values of a field, in the
    order of first occurrence; [None] when [report.location.district]
    throws.  For a [key] other than ['district'] the value read is the
    report's own property. *)
Definition getUniqueValues (key : string) (reports : list obj)
  : option (list jsval) :=
  if String.eqb key "district"
  then match mapM (fun report => member (prop report "location") "district") reports with
       | Some districts => Some (List.filter truthy (new_Set districts))
       | None => None
       end
  else Some (List.filter truthy (new_Set ((fun report => prop report key) <$> reports))).

(** The rows of "Reports by Category", and the [count] of a row. *)
Definition categories : list string :=
  ["pothole"; "streetlight"; "garbage"; "drainage"; "traffic"; "other"].

Definition categoryCount (reports : list obj) (category : string) : nat :=
  length (List.filter (fun r => strict_eq (prop r "category") (JStr category)) reports).

End AdminHome.

(* ===================================================================== *)
(** ** UserHome (the default export, which [App] imports) *)
(* ===================================================================== *)

Module UserHome.

(** [useState<'report' | 'myReports'>('report')] *)
Inductive Tab : Type := report | myReports.

Record FormData : Type := {
  title : string;
  description : string;
  category : string;
  imageUrls : list string;
  address : string;
  village : string;
  district : string;
  pincode : string;
  state : string
}.

Record Coords : Type := {
  latitude : float;
  longitude : float
}.

Inductive AlertType : Type := success | error.

Record Alert : Type := {
  type : AlertType;
  message : string
}.

(** The state the handlers below read and write; the camera stream, the
    video metrics and the debug log are left out. *)
Record State : Type := {
  activeTab : Tab;
  reports : list obj;
  formData : FormData;
  location : option Coords;
  alert : option Alert
}.

Definition emptyForm : FormData :=
  {| title := ""; description := ""; category := "pothole"; imageUrls := [];
     address := ""; village := ""; district := ""; pincode := ""; state := "" |}.

(** The effect "Load reports from localStorage". *)
Definition loadReports (user : obj) (ls : Storage.LocalStorage) : list obj :=
  let allReports := Storage.getReports ls in
  List.filter (fun report => strict_eq (prop report "userId") (prop user "id"))
    allReports.

Definition mount (user : obj) (ls : Storage.LocalStorage) : State :=
  {| activeTab := report;
     reports := loadReports user ls;
     formData := emptyForm;
     location := None;
     alert := None |}.

Definition setAlert (a : option Alert) (st : State) : State :=
  {| activeTab := activeTab st; reports := reports st; formData := formData st;
     location := location st; alert := a |}.

Definition setFormData (f : FormData -> FormData) (st : State) : State :=
  {| activeTab := activeTab st; reports := reports st; formData := f (formData st);
     location := location st; alert := alert st |}.

Definition setLocation (l : option Coords) (st : State) : State :=
  {| activeTab := activeTab st; reports := reports st; formData := formData st;
     location := l; alert := alert st |}.

Definition setActiveTab (t : Tab) (st : State) : State :=
  {| activeTab := t; reports := reports st; formData := formData st;
     location := location st; alert := alert st |}.

Definition setReports (f : list obj -> list obj) (st : State) : State :=
  {| activeTab := activeTab st; reports := f (reports st); formData := formData st;
     location := location st; alert := alert st |}.

Definition showAlert (t : AlertType) (m : string) (st : State) : State :=
  setAlert (Some {| type := t; message := m |}) st.

(** [x || 0] on a number. *)
Definition or_zero (x : float) : float :=
  if truthy (JNum x) then x else 0%float.

(** The object literal bound to [newReport]; [id] is
    [Date.now().toString()] and [timestamp] is [new Date().toISOString()]. *)
Definition newReport (user : obj) (now : Z) (iso : string)
    (formData : FormData) (location : option Coords) : obj :=
  literal [
    ("id", JStr (pretty now));
    ("userId", prop user "id");
    ("title", JStr (title formData));
    ("description", JStr (description formData));
    ("category", JStr (category formData));
    ("imageUrls", JArr (JStr <$> imageUrls formData));
    ("location", JObj (literal [
       ("latitude",
         JNum (match location with Some l => or_zero (latitude l) | None => 0%float end));
       ("longitude",
         JNum (match location with Some l => or_zero (longitude l) | None => 0%float end));
       ("address", JStr (address formData));
       ("village", JStr (village formData));
       ("district", JStr (district formData));
       ("pincode", JStr (pincode formData));
       ("state", JStr (state formData)) ]));
    ("status", JStr "pending");
    ("timestamp", JStr iso) ].

Definition submitReport (user : obj) (now : Z) (iso : string)
    (ls : Storage.LocalStorage) (st : State) : Storage.LocalStorage * State :=
  let formData := formData st in
  if (negb (nonempty (title formData)) || negb (nonempty (description formData))
      || Nat.eqb (length (imageUrls formData)) 0)%bool
  then (ls, showAlert error "Fill all fields and add image" st)
  else if (negb (bool_decide (is_Some (location st))) && negb (nonempty (address formData)))%bool
  then (ls, showAlert error "Provide location or address" st)
  else
    let newReport := newReport user now iso formData (location st) in
    let allReports := Storage.getReports ls in
    let allReports := allReports ++ [newReport] in
    let ls := Storage.setReports allReports ls in
    let st := setReports (fun prev => prev ++ [newReport]) st in
    let st := setFormData (fun _ => emptyForm) st in
    let st := setLocation None st in
    let st := showAlert success "Report submitted" st in
    let st := setActiveTab myReports st in
    (ls, st).

(** [prev.imageUrls.filter((_, i) => i !== index)] *)
Fixpoint removeAt {A : Type} (index : nat) (l : list A) : list A :=
  match l, index with
  | [], _ => []
  | _ :: l', 0 => l'
  | x :: l', S i => x :: removeAt i l'
  end.

Inductive Field : Type :=
  FAddress | FVillage | FDistrict | FPincode | FState | FTitle | FDescription.

Definition setField (f : Field) (value : string) (p : FormData) : FormData :=
  {| title := if f is FTitle then value else title p;
     description := if f is FDescription then value else description p;
     category := category p;
     imageUrls := imageUrls p;
     address := if f is FAddress then value else address p;
     village := if f is FVillage then value else village p;
     district := if f is FDistrict then value else district p;
     pincode := if f is FPincode then value else pincode p;
     state := if f is FState then value else state p |}.

(** What the citizen and the browser can do on the page: typing into an
    input, the outcome of a geolocation or camera request (the position
    callback carries the coordinates and the text of the template literal
    built from them), chosen files as their object URLs, the buttons, and
    the timer that clears the alert. *)
Inductive Event : Type :=
| Input (f : Field) (value : string)
| GeolocationUnsupported
| PositionReceived (lat long : float) (formatted : string)
| PositionError
| CameraError
| VideoNotReady
| PhotoCaptured (imageDataUrl : string)
| FilesChosen (newUrls : list string)
| ClickRemoveImage (index : nat)
| ClickSubmit (now : Z) (iso : string)
| ClickTab (t : Tab)
| AlertTimeout.

Definition handle (user : obj) (e : Event)
    (ls : Storage.LocalStorage) (st : State) : Storage.LocalStorage * State :=
  match e with
  | Input f value => (ls, setFormData (setField f value) st)
  | GeolocationUnsupported => (ls, showAlert error "Geolocation not supported" st)
  | PositionReceived lat long formatted =>
      let st := setLocation (Some {| latitude := lat; longitude := long |}) st in
      let st := showAlert success "Location captured" st in
      (ls, setFormData (fun prev =>
         {| title := title prev; description := description prev;
            category := category prev; imageUrls := imageUrls prev;
            address := formatted; village := "Sample Village";
            district := "Sample District"; pincode := "123456";
            state := "Sample State" |}) st)
  | PositionError => (ls, showAlert error "Unable to get location" st)
  | CameraError =>
      (ls, showAlert error "Unable to access camera. Please use file upload instead." st)
  | VideoNotReady => (ls, showAlert error "Video not ready" st)
  | PhotoCaptured imageDataUrl =>
      let st := setFormData (fun prev =>
         {| title := title prev; description := description prev;
            category := category prev;
            imageUrls := imageUrls prev ++ [imageDataUrl];
            address := address prev; village := village prev;
            district := district prev; pincode := pincode prev;
            state := state prev |}) st in
      (ls, showAlert success "Photo captured successfully" st)
  | FilesChosen newUrls =>
      let st := setFormData (fun prev =>
         {| title := title prev; description := description prev;
            category := category prev;
            imageUrls := imageUrls prev ++ newUrls;
            address := address prev; village := village prev;
            district := district prev; pincode := pincode prev;
            state := state prev |}) st in
      (ls, showAlert success "Image(s) uploaded" st)
  | ClickRemoveImage index =>
      (ls, setFormData (fun prev =>
         {| title := title prev; description := description prev;
            category := category prev;
            imageUrls := removeAt index (imageUrls prev);
            address := address prev; village := village prev;
            district := district prev; pincode := pincode prev;
            state := state prev |}) st)
  | ClickSubmit now iso => submitReport user now iso ls st
  | ClickTab t => (ls, setActiveTab t st)
  | AlertTimeout => (ls, setAlert None st)
  end.

(** [pushLog(msg)] on the debug log: the entry is the ISO time of the
    call, [" - "] and the message; the log keeps the 40 newest entries,
    newest first. *)
Definition pushLog (iso msg : string) (prev : list string) : list string :=
  take 40 (String.append iso (String.append " - " msg) :: prev).

End UserHome.

(* ===================================================================== *)
(** ** UserHome (the named export, with a single image) *)
(* ===================================================================== *)

Module NamedUserHome.

Record FormData : Type := {
  title : string;
  description : string;
  category : string;
  imageUrl : string;
  address : string;
  village : string;
  district : string;
  pincode : string;
  state : string
}.

Record State : Type := {
  activeTab : UserHome.Tab;
  reports : list obj;
  formData : FormData;
  location : option UserHome.Coords;
  alert : option UserHome.Alert
}.

Definition emptyForm : FormData :=
  {| title := ""; description := ""; category := "pothole"; imageUrl := "";
     address := ""; village := ""; district := ""; pincode := ""; state := "" |}.

Definition showAlert (t : UserHome.AlertType) (m : string) (st : State) : State :=
  {| activeTab := activeTab st; reports := reports st; formData := formData st;
     location := location st;
     alert := Some {| UserHome.type := t; UserHome.message := m |} |}.

Definition newReport (user : obj) (now : Z) (iso : string)
    (formData : FormData) (location : option UserHome.Coords) : obj :=
  literal [
    ("id", JStr (pretty now));
    ("userId", prop user "id");
    ("title", JStr (title formData));
    ("description", JStr (description formData));
    ("category", JStr (category formData));
    ("imageUrl", JStr (imageUrl formData));
    ("location", JObj (literal [
       ("latitude",
         JNum (match location with
               | Some l => UserHome.or_zero (UserHome.latitude l)
               | None => 0%float
               end));
       ("longitude",
         JNum (match location with
               | Some l => UserHome.or_zero (UserHome.longitude l)
               | None => 0%float
               end));
       ("address", JStr (address formData));
       ("village", JStr (village formData));
       ("district", JStr (district formData));
       ("pincode", JStr (pincode formData));
       ("state", JStr (state formData)) ]));
    ("status", JStr "pending");
    ("timestamp", JStr iso) ].

Definition submitReport (user : obj) (now : Z) (iso : string)
    (ls : Storage.LocalStorage) (st : State) : Storage.LocalStorage * State :=
  let formData := formData st in
  if (negb (nonempty (title formData)) || negb (nonempty (description formData))
      || negb (nonempty (imageUrl formData)))%bool
  then (ls, showAlert UserHome.error
              "Please fill all required fields and add an image" st)
  else if (negb (bool_decide (is_Some (location st))) && negb (nonempty (address formData)))%bool
  then (ls, showAlert UserHome.error
              "Please capture location or enter address manually" st)
  else
    let newReport := newReport user now iso formData (location st) in
    let allReports := Storage.getReports ls in
    let allReports := allReports ++ [newReport] in
    let ls := Storage.setReports allReports ls in
    (ls,
     {| activeTab := UserHome.myReports;
        reports := reports st ++ [newReport];
        formData := emptyForm;
        location := None;
        alert := Some {| UserHome.type := UserHome.success;
                         UserHome.message := "Report submitted successfully!" |} |}).

End NamedUserHome.

(* ===================================================================== *)
(** ** App *)
(* ===================================================================== *)

Module App.

(** [type AuthState = 'login' | 'register' | 'authenticated'] *)
Inductive AuthState : Type := login | register | authenticated.

Definition demoUsers : list obj := [
  literal [ ("id", JStr "1"); ("email", JStr "user@demo.com");
            ("password", JStr "password123"); ("name", JStr "Demo User");
            ("isAdmin", JBool false) ];
  literal [ ("id", JStr "2"); ("email", JStr "admin@demo.com");
            ("password", JStr "admin123"); ("name", JStr "Admin User");
            ("isAdmin", JBool true) ] ].

(** The two seeded reports; [twoDaysAgo] and [oneDayAgo] are the ISO
    strings of [Date.now()] minus two days and minus one day. *)
Definition demoReports (twoDaysAgo oneDayAgo : string) : list obj := [
  literal [
    ("id", JStr "1");
    ("userId", JStr "1");
    ("title", JStr "Large Pothole on Main Street");
    ("description",
      JStr "Deep pothole causing damage to vehicles. Located near the traffic signal.");
    ("category", JStr "pothole");
    ("imageUrl", JStr "https://images.unsplash.com/photo-1709934730506-fba12664d4e4?crop=entropy&cs=tinysrgb&fit=max&fm=jpg&ixid=M3w3Nzg4Nzd8MHwxfHNlYXJjaHwxfHxwb3Rob2xlJTIwcm9hZCUyMGRhbWFnZXxlbnwxfHx8fDE3NTc2OTYyMDd8MA&ixlib=rb-4.1.0&q=80&w=1080&utm_source=figma&utm_medium=referral");
    ("location", JObj (literal [
       ("latitude", JNum 28.6139%float);
       ("longitude", JNum 77.2090%float);
       ("address", JStr "Main Street, Near Traffic Signal");
       ("village", JStr "Central Delhi");
       ("district", JStr "New Delhi");
       ("pincode", JStr "110001");
       ("state", JStr "Delhi") ]));
    ("status", JStr "pending");
    ("timestamp", JStr twoDaysAgo) ];
  literal [
    ("id", JStr "2");
    ("userId", JStr "1");
    ("title", JStr "Streetlight Not Working");
    ("description",
      JStr "Street light has been non-functional for over a week, making the area unsafe at night.");
    ("category", JStr "streetlight");
    ("imageUrl", JStr "https://images.unsplash.com/photo-1742119193536-7d228ef7f466?crop=entropy&cs=tinysrgb&fit=max&fm=jpg&ixid=M3w3Nzg4Nzd8MHwxfHNlYXJjaHwxfHxicm9rZW4lMjBzdHJlZXRsaWdodHxlbnwxfHx8fDE3NTc2MTI0ODR8MA&ixlib=rb-4.1.0&q=80&w=1080&utm_source=figma&utm_medium=referral");
    ("location", JObj (literal [
       ("latitude", JNum 28.6129%float);
       ("longitude", JNum 77.2295%float);
       ("address", JStr "Park Road, Sector 5");
       ("village", JStr "Sector 5");
       ("district", JStr "New Delhi");
       ("pincode", JStr "110001");
       ("state", JStr "Delhi") ]));
    ("status", JStr "in-progress");
    ("timestamp", JStr oneDayAgo);
    ("assignedTo", JStr "Admin User");
    ("department", JStr "Public Works") ] ].

(** What [App] renders.  [Login] and [Register] keep no state of interest;
    [AdminHome] and [UserHome] carry theirs; [Nothing] is [return null];
    [Crashed] is the tree React unmounts after an uncaught exception. *)
Inductive View : Type :=
| LoginPage
| RegisterPage
| AdminPage (s : AdminHome.State)
| UserPage (s : UserHome.State)
| Nothing
| Crashed.

Record World : Type := {
  localStorage : Storage.LocalStorage;
  authState : AuthState;
  currentUser : option obj;
  view : View
}.

(** The [return] of [App], with the child component freshly mounted. *)
Definition render (ls : Storage.LocalStorage) (authState : AuthState)
    (currentUser : option obj) : View :=
  match authState with
  | login => LoginPage
  | register => RegisterPage
  | authenticated =>
      match currentUser with
      | Some user =>
          if truthy (prop user "isAdmin")
          then match AdminHome.mount ls with
               | Some s => AdminPage s
               | None => Crashed
               end
          else UserPage (UserHome.mount user ls)
      | None => Nothing
      end
  end.

Definition show (ls : Storage.LocalStorage) (authState : AuthState)
    (currentUser : option obj) : World :=
  {| localStorage := ls; authState := authState; currentUser := currentUser;
     view := render ls authState currentUser |}.

(** Loading the page: the initial state and the effect of [App]. *)
Definition init (twoDaysAgo oneDayAgo : string) (ls : Storage.LocalStorage) : World :=
  let ls := match Storage.users ls with
            | None => Storage.setUsers demoUsers ls
            | Some _ => ls
            end in
  let ls := match Storage.reports ls with
            | None => Storage.setReports (demoReports twoDaysAgo oneDayAgo) ls
            | Some _ => ls
            end in
  match Storage.currentUser ls with
  | Some savedUser => show ls authenticated (Some savedUser)
  | None => show ls login None
  end.

Definition handleLogin (email password : string) (w : World) : World * bool :=
  let users := Storage.getUsers (localStorage w) in
  match List.find (fun u => strict_eq (prop u "email") (JStr email)
                            && strict_eq (prop u "password") (JStr password)) users with
  | Some user =>
      let userWithoutPassword := delete "password" user in
      (show (Storage.setCurrentUser userWithoutPassword (localStorage w))
            authenticated (Some userWithoutPassword),
       true)
  | None => (w, false)
  end.

Definition handleRegister (now : Z) (email password name : string) (isAdmin : bool)
    (w : World) : World :=
  let users := Storage.getUsers (localStorage w) in
  let newUser := literal [ ("id", JStr (pretty now)); ("email", JStr email);
                           ("password", JStr password); ("name", JStr name);
                           ("isAdmin", JBool isAdmin) ] in
  let users := users ++ [newUser] in
  let ls := Storage.setUsers users (localStorage w) in
  let userWithoutPassword := delete "password" newUser in
  show (Storage.setCurrentUser userWithoutPassword ls)
       authenticated (Some userWithoutPassword).

Definition handleLogout (w : World) : World :=
  show (Storage.removeCurrentUser (localStorage w)) login None.

Definition setAuthState (a : AuthState) (w : World) : World :=
  show (localStorage w) a (currentUser w).

Definition setView (ls : Storage.LocalStorage) (v : View) (w : World) : World :=
  {| localStorage := ls; authState := authState w; currentUser := currentUser w;
     view := v |}.

(** Everything that can happen to the page. *)
Inductive Event : Type :=
| Reload (twoDaysAgo oneDayAgo : string)
| SubmitLogin (email password : string)
| SubmitRegister (now : Z) (email password name : string) (isAdmin : bool)
| SwitchToRegister
| SwitchToLogin
| ClickLogout
| AdminEvent (e : AdminHome.Event)
| UserEvent (e : UserHome.Event).

(** An event that the rendered page does not offer leaves the world as it
    is. *)
Definition step (w : World) (e : Event) : World :=
  match e, view w with
  | Reload twoDaysAgo oneDayAgo, _ => init twoDaysAgo oneDayAgo (localStorage w)
  | SubmitLogin email password, LoginPage => (handleLogin email password w).1
  | SwitchToRegister, LoginPage => setAuthState register w
  | SubmitRegister now email password name isAdmin, RegisterPage =>
      handleRegister now email password name isAdmin w
  | SwitchToLogin, RegisterPage => setAuthState login w
  | ClickLogout, (AdminPage _ | UserPage _) => handleLogout w
  | AdminEvent e, AdminPage s =>
      match AdminHome.handle (default ∅ (currentUser w)) e (localStorage w) s with
      | (ls, Some s') => setView ls (AdminPage s') w
      | (ls, None) => setView ls Crashed w
      end
  | UserEvent e, UserPage s =>
      let '(ls, s') := UserHome.handle (default ∅ (currentUser w)) e (localStorage w) s in
      setView ls (UserPage s') w
  | _, _ => w
  end.

(** The worlds a browser that starts with an empty [localStorage] can
    reach. *)
Inductive reachable : World -> Prop :=
| reachable_init twoDaysAgo oneDayAgo :
    reachable (init twoDaysAgo oneDayAgo Storage.empty)
| reachable_step w e : reachable w -> reachable (step w e).

End App.

(* ===================================================================== *)
(** ** The properties, in the words of the specification *)
(* ===================================================================== *)

(** [v] is the string [s]. *)
Definition is_string (v : jsval) (s : string) : bool :=
  match v with
  | JStr t => bool_decide (t = s)
  | _ => false
  end.

(** Number of elements of a list that pass a test. *)
Fixpoint count_if {A : Type} (p : A -> bool) (l : list A) : nat :=
  match l with
  | [] => 0
  | x :: l' => (if p x then 1 else 0) + count_if p l'
  end.

(** *** Reports *)

(** A report satisfies the filter setting: every filter whose value is not
    ['all'] matches the field it is about. *)
Definition satisfies (filters : AdminHome.Filters) (report : obj) : bool :=
  (bool_decide (AdminHome.status filters = "all")
   || is_string (prop report "status") (AdminHome.status filters))
  && (bool_decide (AdminHome.category filters = "all")
      || is_string (prop report "category") (AdminHome.category filters))
  && (bool_decide (AdminHome.district filters = "all")
      || match member (prop report "location") "district" with
         | Some d => is_string d (AdminHome.district filters)
         | None => false
         end).

(** The report has a [location] to read the district from, as the
    [Report] interface requires. *)
Definition has_location (report : obj) : Prop :=
  is_Some (member (prop report "location") "district").

(** The report's [location] is an object. *)
Definition location_object (report : obj) : Prop :=
  exists l, prop report "location" = JObj l.

(** The report's status is one of ['pending'], ['in-progress'],
    ['resolved']. *)
Definition valid_status (report : obj) : Prop :=
  exists s : AdminHome.Status, prop report "status" = JStr (AdminHome.status_value s).

(** The four triage fields that [updateReportStatus] sets. *)
Definition triage_fields : list string :=
  ["status"; "department"; "comments"; "assignedTo"].

(** *** The submission form *)

(** The form has a title, a description and an image, and a captured
    location or an address. *)
Definition passes_validation (formData : UserHome.FormData)
    (location : option UserHome.Coords) : Prop :=
  UserHome.title formData <> "" /\ UserHome.description formData <> "" /\
  UserHome.imageUrls formData <> [] /\
  (location <> None \/ UserHome.address formData <> "").

(** The two checks of [submitReport], as it evaluates them. *)
Definition missing_fields (formData : UserHome.FormData) : bool :=
  negb (nonempty (UserHome.title formData))
  || negb (nonempty (UserHome.description formData))
  || Nat.eqb (length (UserHome.imageUrls formData)) 0.

Definition missing_place (formData : UserHome.FormData)
    (location : option UserHome.Coords) : bool :=
  negb (bool_decide (is_Some location)) && negb (nonempty (UserHome.address formData)).

(** The number shown in the "My Reports" button. *)
Definition myReportsCount (st : UserHome.State) : nat :=
  length (UserHome.reports st).

(** *** Users *)

(** The fields of [User], and those of a stored user. *)
Definition user_fields : gset string :=
  {[ "id"; "email"; "name"; "isAdmin" ]}.

Definition stored_user_fields : gset string :=
  {[ "id"; "email"; "password"; "name"; "isAdmin" ]}.

(** The users store holds user records: the five fields, as JSON. *)
Definition stored_user (u : obj) : Prop :=
  dom u = stored_user_fields /\ is_json u.

(** The object's [id] is a string. *)
Definition string_id (o : obj) : Prop :=
  exists id, prop o "id" = JStr id.

(** The storage with another content under the key [users]. *)
Definition with_users (users : option (list obj)) (ls : Storage.LocalStorage)
  : Storage.LocalStorage :=
  {| Storage.users := users;
     Storage.reports := Storage.reports ls;
     Storage.currentUser := Storage.currentUser ls |}.

(** Some stored report names a user that the users store does not hold. *)
Definition dangling_report (ls : Storage.LocalStorage) : Prop :=
  exists report,
    report ∈ Storage.getReports ls /\
    forall u, u ∈ Storage.getUsers ls -> prop u "id" <> prop report "userId".

(** *** Worlds *)

(** A run of the page from a world. *)
Definition run (w : App.World) (events : list App.Event) : App.World :=
  foldl App.step w events.

(** Which page a world shows, and the reports a dashboard holds. *)
Definition showsAdminPage (w : App.World) : bool :=
  match App.view w with App.AdminPage _ => true | _ => false end.

Definition showsUserPage (w : App.World) : bool :=
  match App.view w with App.UserPage _ => true | _ => false end.

Definition dashboardReports (w : App.World) : list obj :=
  match App.view w with
  | App.AdminPage s => AdminHome.reports s
  | _ => []
  end.

(** The reports in the store and those held by the dashboard all have a
    valid status. *)
Definition statuses_valid (w : App.World) : Prop :=
  Forall valid_status (Storage.getReports (App.localStorage w)) /\
  (forall s, App.view w = App.AdminPage s -> Forall valid_status (AdminHome.reports s)).

(** The shape of the stored data: the users store holds user records with
    a string id, the reports store holds JSON objects with a location, and
    the saved user is a JSON object with a string id. *)
Definition storage_typed (ls : Storage.LocalStorage) : Prop :=
  Forall stored_user (Storage.getUsers ls)
  /\ Forall string_id (Storage.getUsers ls)
  /\ Forall is_json (Storage.getReports ls)
  /\ Forall location_object (Storage.getReports ls)
  /\ (forall u, Storage.currentUser ls = Some u -> is_json u /\ string_id u).

(** The shape of the data in a world: the storage is typed, the user that
    is logged in has a string id, the dashboard holds reports with a
    location, and no exception has unmounted the page. *)
Definition well_typed (w : App.World) : Prop :=
  storage_typed (App.localStorage w)
  /\ (forall u, App.currentUser w = Some u -> string_id u)
  /\ (forall s, App.view w = App.AdminPage s ->
                Forall location_object (AdminHome.reports s))
  /\ App.view w <> App.Crashed.

(** *** Tab selectors *)

(** The [activeTab] of a rendered dashboard is the value of one of its
    four triggers. *)
Definition admin_tab_valid (w : App.World) : Prop :=
  forall s, App.view w = App.AdminPage s ->
    exists t, AdminHome.activeTab s = AdminHome.trigger_value t.

(** [t] is the value of [activeTab] in some reachable [AdminHome]. *)
Definition admin_tab_reachable (t : string) : Prop :=
  exists w s, App.reachable w /\ App.view w = App.AdminPage s /\
              AdminHome.activeTab s = t.

(** [t] is the value of [activeTab] in some reachable [UserHome]. *)
Definition user_tab_reachable (t : UserHome.Tab) : Prop :=
  exists w s, App.reachable w /\ App.view w = App.UserPage s /\
              UserHome.activeTab s = t.

(** "In every view component and in every reachable state, [activeTab]
    takes at most three distinct values." *)
Definition at_most_three_tabs : Prop :=
  (forall tabs : list string,
     NoDup tabs -> Forall admin_tab_reachable tabs -> length tabs <= 3) /\
  (forall tabs : list UserHome.Tab,
     NoDup tabs -> Forall user_tab_reachable tabs -> length tabs <= 3).

(** *** Further properties *)

(** The user has the credentials typed into the login form. *)
Definition has_credentials (email password : string) (u : obj) : Prop :=
  prop u "email" = JStr email /\ prop u "password" = JStr password.

(** The callback of [users.find] in [handleLogin]. *)
Definition credentials_match (email password : string) (u : obj) : bool :=
  strict_eq (prop u "email") (JStr email)
  && strict_eq (prop u "password") (JStr password).

(** The object that [handleRegister] appends to the users store. *)
Definition registeredUser (now : Z) (email password name : string) (isAdmin : bool)
  : obj :=
  literal [ ("id", JStr (pretty now)); ("email", JStr email);
            ("password", JStr password); ("name", JStr name);
            ("isAdmin", JBool isAdmin) ].

(** The step of [new Set] on strings: a string is added at the end unless
    it is there already. *)
Definition add_string (set : list string) (d : string) : list string :=
  if bool_decide (d ∈ set) then set else set ++ [d].

(** The district of every report, as a string: the reports have a
    location whose [district] is a string. *)
Definition districts_are (reports : list obj) (districts : list string) : Prop :=
  Forall2 (fun r d => member (prop r "location") "district" = Some (JStr d))
    reports districts.

(** The report's category is one of the six rows of the analytics tab. *)
Definition listed_category (report : obj) : bool :=
  existsb (is_string (prop report "category")) AdminHome.categories.

(** The form of the named export has a title, a description and an image,
    and a captured location or an address. *)
Definition named_passes_validation (formData : NamedUserHome.FormData)
    (location : option UserHome.Coords) : Prop :=
  NamedUserHome.title formData <> "" /\ NamedUserHome.description formData <> "" /\
  NamedUserHome.imageUrl formData <> "" /\
  (location <> None \/ NamedUserHome.address formData <> "").

(** The page matches the role of the user that is logged in: the
    dashboard is shown to a user whose [isAdmin] is truthy, the citizen's
    page to one whose [isAdmin] is not. *)
Definition role_matches (w : App.World) : Prop :=
  (forall s, App.view w = App.AdminPage s ->
     exists u, App.currentUser w = Some u /\ truthy (prop u "isAdmin") = true)
  /\ (forall s, App.view w = App.UserPage s ->
        exists u, App.currentUser w = Some u /\ truthy (prop u "isAdmin") = false).

(** Some stored user has the id [id]. *)
Definition known_user (ls : Storage.LocalStorage) (id : jsval) : Prop :=
  exists u, u ∈ Storage.getUsers ls /\ prop u "id" = id.

(** Every [userId] and every logged-in user refers to a stored user, and
    the two stores are present. *)
Definition storage_integrity (ls : Storage.LocalStorage) : Prop :=
  is_Some (Storage.users ls) /\ is_Some (Storage.reports ls)
  /\ (forall r, r ∈ Storage.getReports ls -> known_user ls (prop r "userId"))
  /\ (forall u, Storage.currentUser ls = Some u -> known_user ls (prop u "id")).

Definition referential_integrity (w : App.World) : Prop :=
  storage_integrity (App.localStorage w)
  /\ (forall u, App.currentUser w = Some u ->
        known_user (App.localStorage w) (prop u "id"))
  /\ (forall s r, App.view w = App.AdminPage s -> r ∈ AdminHome.reports s ->
        known_user (App.localStorage w) (prop r "userId")).

(** The dashboard holds the stored reports, up to the JSON round trip. *)
Definition dashboard_in_sync (w : App.World) : Prop :=
  forall s, App.view w = App.AdminPage s ->
    stringify_parse_obj <$> AdminHome.reports s
    = Storage.getReports (App.localStorage w).

(** The ids of a list of reports, in order. *)
Definition report_ids (l : list obj) : list jsval :=
  (fun r => prop r "id") <$> l.

(** The category of the report is one of the two that the program
    writes. *)
Definition written_category (report : obj) : Prop :=
  prop report "category" = JStr "pothole"
  \/ prop report "category" = JStr "streetlight".

Definition categories_written (w : App.World) : Prop :=
  Forall written_category (Storage.getReports (App.localStorage w))
  /\ (forall s, App.view w = App.AdminPage s ->
        Forall written_category (AdminHome.reports s))
  /\ (forall s, App.view w = App.UserPage s ->
        UserHome.category (UserHome.formData s) = "pothole").

(** *** Data of the examples *)

(** A filled form and a page holding it. *)
Definition filledForm : UserHome.FormData :=
  {| UserHome.title := "Broken bench"; UserHome.description := "Seat is missing";
     UserHome.category := "pothole"; UserHome.imageUrls := ["blob:bench"];
     UserHome.address := "Park Road"; UserHome.village := "";
     UserHome.district := ""; UserHome.pincode := ""; UserHome.state := "" |}.

Definition filledPage (user : obj) (ls : Storage.LocalStorage) : UserHome.State :=
  UserHome.setFormData (fun _ => filledForm) (UserHome.mount user ls).

(** A user that the seeded users store does not hold. *)
Definition strayUser : obj :=
  literal [ ("id", JStr "99"); ("email", JStr "stray@demo.com");
            ("name", JStr "Stray User"); ("isAdmin", JBool false) ].

(** A fresh browser in which the seeded administrator, or the seeded
    citizen, has logged in. *)
Definition adminWorld : App.World :=
  App.step (App.init "" "" Storage.empty)
    (App.SubmitLogin "admin@demo.com" "admin123").

Definition citizenWorld : App.World :=
  App.step (App.init "" "" Storage.empty)
    (App.SubmitLogin "user@demo.com" "password123").

(** The seeded citizen submits a report with one image and logs out, then
    the seeded administrator logs in. *)
Definition submitThenReview : list App.Event := [
  App.SubmitLogin "user@demo.com" "password123";
  App.UserEvent (UserHome.Input UserHome.FTitle "Broken bench");
  App.UserEvent (UserHome.Input UserHome.FDescription "Seat is missing");
  App.UserEvent (UserHome.FilesChosen ["blob:bench"]);
  App.UserEvent (UserHome.Input UserHome.FAddress "Park Road");
  App.UserEvent (UserHome.ClickSubmit 1700000000000 "2023-11-14T22:13:20.000Z");
  App.ClickLogout;
  App.SubmitLogin "admin@demo.com" "admin123" ].

(** A dashboard that holds the seeded reports, the first one selected. *)
Definition sampleDashboard : AdminHome.State :=
  {| AdminHome.reports := App.demoReports "" "";
     AdminHome.filteredReports := App.demoReports "" "";
     AdminHome.selectedReport := App.demoReports "" "" !! 0%nat;
     AdminHome.filters :=
       {| AdminHome.status := "all"; AdminHome.category := "all";
          AdminHome.district := "all" |};
     AdminHome.activeTab := "reports" |}.

(** A filled form of the named export. *)
Definition namedFilledForm : NamedUserHome.FormData :=
  {| NamedUserHome.title := "Broken bench";
     NamedUserHome.description := "Seat is missing";
     NamedUserHome.category := "other"; NamedUserHome.imageUrl := "data:bench";
     NamedUserHome.address := "Park Road"; NamedUserHome.village := "";
     NamedUserHome.district := ""; NamedUserHome.pincode := "";
     NamedUserHome.state := "" |}.

Definition namedFilledPage : NamedUserHome.State :=
  {| NamedUserHome.activeTab := UserHome.report; NamedUserHome.reports := [];
     NamedUserHome.formData := namedFilledForm; NamedUserHome.location := None;
     NamedUserHome.alert := None |}.

(* ===================================================================== *)
(** ** Facts about values and the JSON round trip *)
(* ===================================================================== *)

Lemma is_string_spec (v : jsval) (s : string) : is_string v s = true <-> v = JStr s.
Proof.
  destruct v; cbn; try (split; [discriminate | intros [=]]).
  rewrite bool_decide_eq_true. split; [intros -> | intros [=]]; done.
Qed.

Lemma strict_eq_string (v : jsval) (s : string) :
  strict_eq v (JStr s) = is_string v s.
Proof.
  destruct v; try reflexivity. cbn.
  destruct (String.eqb_spec s0 s) as [->|Hne].
  - symmetry. by apply bool_decide_eq_true.
  - symmetry. by apply bool_decide_eq_false.
Qed.

Lemma nonempty_spec (s : string) : nonempty s = true <-> s <> "".
Proof.
  unfold nonempty, truthy. destruct (String.eqb_spec s "") as [->|Hne]; cbn.
  - split; [discriminate | intros H; by destruct H].
  - split; done.
Qed.

Lemma size_prop_lt (o : obj) (k : string) (v : jsval) :
  o !! k = Some v -> size v < size (JObj o).
Proof.
  intros Hk. cbn [size].
  rewrite <- (insert_delete_id o k v Hk).
  rewrite map_fold_insert_L.
  - lia.
  - intros. lia.
  - apply lookup_delete_eq.
Qed.

Lemma size_elem_lt (xs : list jsval) (v : jsval) :
  v ∈ xs -> size v < size (JArr xs).
Proof. cbn [size]. induction 1; cbn [foldr]; lia. Qed.

(** Induction on a value with the hypothesis for everything smaller, so
    for every property of an object and every element of an array. *)
Lemma jsval_size_ind (P : jsval -> Prop) :
  (forall v, (forall w, size w < size v -> P w) -> P v) -> forall v, P v.
Proof.
  intros step v. remember (size v) as n eqn:Hn.
  revert v Hn. induction (lt_wf n) as [n _ IH].
  intros v ->. apply step. intros w Hw. exact (IH _ Hw w eq_refl).
Qed.

Lemma stringify_parse_undefined (v : jsval) :
  is_undefined (stringify_parse v) = is_undefined v.
Proof.
  destruct v; cbn [stringify_parse is_undefined]; try reflexivity.
  repeat case_match; reflexivity.
Qed.

(** A property survives the round trip unless it is [undefined]. *)
Lemma lookup_stringify_parse_obj (o : obj) (k : string) :
  stringify_parse_obj o !! k =
  match o !! k with
  | Some v => if is_undefined v then None else Some (stringify_parse v)
  | None => None
  end.
Proof.
  unfold stringify_parse_obj.
  destruct (o !! k) as [v|] eqn:Hk.
  - destruct (is_undefined v) eqn:Hu.
    + apply map_lookup_filter_None. right. intros w Hw.
      rewrite lookup_fmap, Hk in Hw. cbn in Hw. injection Hw as <-.
      cbn. rewrite stringify_parse_undefined, Hu. discriminate.
    + apply map_lookup_filter_Some. split.
      * rewrite lookup_fmap, Hk. reflexivity.
      * cbn. rewrite stringify_parse_undefined. exact Hu.
  - apply map_lookup_filter_None. left. rewrite lookup_fmap, Hk. reflexivity.
Qed.

Lemma stringify_parse_JObj (o : obj) :
  stringify_parse (JObj o) = JObj (stringify_parse_obj o).
Proof. reflexivity. Qed.

(** Writing what was read writes the same text. *)
Lemma stringify_parse_idemp (v : jsval) :
  stringify_parse (stringify_parse v) = stringify_parse v.
Proof.
  induction v as [v IH] using jsval_size_ind.
  destruct v as [| |b|x|s|xs|o]; try reflexivity.
  - cbn [stringify_parse].
    destruct (is_nan x || is_infinity x)%bool eqn:E; [reflexivity|].
    destruct (is_zero x) eqn:Z; cbn [stringify_parse].
    + reflexivity.
    + rewrite E, Z. reflexivity.
  - cbn [stringify_parse]. f_equal. rewrite map_map.
    apply map_ext_in. intros a Ha. apply list_elem_of_In in Ha.
    pose proof (IH a (size_elem_lt _ _ Ha)) as IHa.
    cbv beta.
    assert (is_undefined a = false ->
            match stringify_parse a with
            | JUndefined => JNull
            | _ => stringify_parse (stringify_parse a)
            end = stringify_parse a) as Hdef.
    { intros Hu. rewrite IHa.
      pose proof (stringify_parse_undefined a) as Hu'. rewrite Hu in Hu'.
      revert Hu'. destruct (stringify_parse a); intros Hu'; try reflexivity.
      discriminate Hu'. }
    destruct a; try (apply Hdef; reflexivity). reflexivity.
  - rewrite !stringify_parse_JObj. f_equal. apply map_eq. intros k.
    rewrite !lookup_stringify_parse_obj.
    destruct (o !! k) as [v|] eqn:Hk; [|reflexivity].
    destruct (is_undefined v) eqn:Hu; [reflexivity|].
    rewrite stringify_parse_undefined, Hu.
    f_equal. apply IH. eapply size_prop_lt; eauto.
Qed.

Lemma stringify_parse_obj_is_json (o : obj) : is_json (stringify_parse_obj o).
Proof.
  unfold is_json.
  pose proof (stringify_parse_idemp (JObj o)) as H.
  rewrite !stringify_parse_JObj in H. by injection H.
Qed.

Lemma is_json_fmap (l : list obj) :
  Forall is_json l -> stringify_parse_obj <$> l = l.
Proof.
  induction 1 as [|o l Ho _ IH]; [reflexivity|].
  cbn. rewrite IH. f_equal. exact Ho.
Qed.

Lemma Forall_is_json_written (l : list obj) :
  Forall is_json (stringify_parse_obj <$> l).
Proof.
  induction l as [|o l IH]; constructor; [apply stringify_parse_obj_is_json | exact IH].
Qed.

Lemma getReports_setReports (l : list obj) (ls : Storage.LocalStorage) :
  Storage.getReports (Storage.setReports l ls) = stringify_parse_obj <$> l.
Proof. reflexivity. Qed.

(** A string property survives the round trip. *)
Lemma prop_stringify_parse_string (o : obj) (k s : string) :
  prop o k = JStr s -> prop (stringify_parse_obj o) k = JStr s.
Proof.
  unfold prop. rewrite lookup_stringify_parse_obj.
  destruct (o !! k) as [v|]; cbn; [|discriminate].
  intros ->. reflexivity.
Qed.

Lemma valid_status_written (o : obj) :
  valid_status o -> valid_status (stringify_parse_obj o).
Proof. intros [s Hs]. exists s. by apply prop_stringify_parse_string. Qed.

Lemma Forall_valid_status_written (l : list obj) :
  Forall valid_status l -> Forall valid_status (stringify_parse_obj <$> l).
Proof.
  induction 1; constructor; [by apply valid_status_written | done].
Qed.

(* ===================================================================== *)
(** ** AdminHome: filters and statistics *)
(* ===================================================================== *)

Section Filtering.

Context {A : Type}.
Implicit Types (p q : A -> bool) (l : list A).

Lemma filter_throwing_total (f : A -> option bool) q l :
  (forall x, In x l -> f x = Some (q x)) ->
  filter_throwing f l = Some (List.filter q l).
Proof.
  induction l as [|x l IH]; intros Hf; [reflexivity|].
  cbn. rewrite (Hf x (or_introl eq_refl)).
  rewrite IH by (intros y Hy; apply Hf; by right).
  by destruct (q x).
Qed.

Lemma filter_twice p q l :
  List.filter q (List.filter p l) = List.filter (fun x => p x && q x) l.
Proof.
  induction l as [|x l IH]; [reflexivity|].
  cbn. destruct (p x); cbn; [destruct (q x)|]; by rewrite IH.
Qed.

Lemma filter_all l : List.filter (fun _ => true) l = l.
Proof. induction l as [|x l IH]; [reflexivity|]. cbn. by rewrite IH. Qed.

Lemma filter_sublist p l : List.filter p l `sublist_of` l.
Proof.
  induction l as [|x l IH]; cbn; [constructor|].
  destruct (p x); by constructor.
Qed.

Lemma length_filter_count p l : length (List.filter p l) = count_if p l.
Proof.
  induction l as [|x l IH]; [reflexivity|].
  cbn. destruct (p x); cbn; by rewrite IH.
Qed.

End Filtering.

(** What the last [filter] of the effect does on a report that has a
    location. *)
Lemma district_callback (report : obj) (d : string) :
  has_location report ->
  match member (prop report "location") "district" with
  | Some v => Some (strict_eq v (JStr d))
  | None => None
  end
  = Some (match member (prop report "location") "district" with
          | Some v => is_string v d
          | None => false
          end).
Proof.
  intros [v Hv]. rewrite Hv. by rewrite strict_eq_string.
Qed.

(** The filter effect computes [List.filter (satisfies filters)]. *)
Lemma applyFilters_filter (reports : list obj) (filters : AdminHome.Filters) :
  (AdminHome.district filters <> "all" -> Forall has_location reports) ->
  AdminHome.applyFilters reports filters
    = Some (List.filter (satisfies filters) reports).
Proof.
  intros Hloc.
  unfold AdminHome.applyFilters, satisfies.
  destruct filters as [st cat dis];
    cbn [AdminHome.status AdminHome.category AdminHome.district] in *.
  set (fs := fun r : obj => bool_decide (st = "all") || is_string (prop r "status") st).
  set (fc := fun r : obj => bool_decide (cat = "all") || is_string (prop r "category") cat).
  assert ((if negb (String.eqb st "all")
           then List.filter (fun r => strict_eq (prop r "status") (JStr st)) reports
           else reports) = List.filter fs reports) as ->.
  { subst fs. destruct (String.eqb_spec st "all") as [->|Hne]; cbn.
    - by rewrite filter_all.
    - apply filter_ext. intros r. rewrite strict_eq_string.
      by rewrite (bool_decide_eq_false_2 _ Hne). }
  assert ((if negb (String.eqb cat "all")
           then List.filter (fun r => strict_eq (prop r "category") (JStr cat))
                  (List.filter fs reports)
           else List.filter fs reports)
          = List.filter (fun r => fs r && fc r) reports) as ->.
  { subst fc. destruct (String.eqb_spec cat "all") as [->|Hne]; cbn.
    - apply filter_ext. intros r. by rewrite andb_true_r.
    - rewrite filter_twice. apply filter_ext. intros r. rewrite strict_eq_string.
      by rewrite (bool_decide_eq_false_2 _ Hne). }
  destruct (String.eqb_spec dis "all") as [->|Hne]; cbn [negb].
  - f_equal. apply filter_ext. intros r. cbn. by rewrite andb_true_r.
  - rewrite (filter_throwing_total _
      (fun r => match member (prop r "location") "district" with
                | Some v => is_string v dis
                | None => false
                end)).
    + rewrite filter_twice. f_equal. apply filter_ext. intros r.
      by rewrite (bool_decide_eq_false_2 _ Hne).
    + intros r Hr. apply district_callback.
      apply filter_In in Hr as [Hr _].
      specialize (Hloc Hne). rewrite Forall_forall in Hloc.
      apply Hloc. by apply list_elem_of_In.
Qed.

(** C1.  For every list of reports and every filter setting, the filter
    effect of the dashboard yields exactly the reports that satisfy every
    filter whose value is not ['all'], each as often and in the order in
    which it occurs in the list; when the district filter is set, the
    reports are to have a location to read the district from. *)
Theorem applyFilters_correct (reports : list obj) (filters : AdminHome.Filters) :
  (AdminHome.district filters <> "all" -> Forall has_location reports) ->
  AdminHome.applyFilters reports filters
    = Some (List.filter (satisfies filters) reports)
  /\ (forall r, In r (List.filter (satisfies filters) reports)
                <-> In r reports /\ satisfies filters r = true)
  /\ List.filter (satisfies filters) reports `sublist_of` reports.
Proof.
  intros Hloc. split; [by apply applyFilters_filter|].
  split; [intros r; apply filter_In | apply filter_sublist].
Qed.

(** What [satisfies] says, clause by clause. *)
Lemma satisfies_spec (filters : AdminHome.Filters) (report : obj) :
  satisfies filters report = true <->
  (AdminHome.status filters <> "all" ->
     prop report "status" = JStr (AdminHome.status filters)) /\
  (AdminHome.category filters <> "all" ->
     prop report "category" = JStr (AdminHome.category filters)) /\
  (AdminHome.district filters <> "all" ->
     member (prop report "location") "district"
       = Some (JStr (AdminHome.district filters))).
Proof.
  unfold satisfies. rewrite !andb_true_iff, !orb_true_iff, !bool_decide_eq_true.
  rewrite !is_string_spec.
  assert (match member (prop report "location") "district" with
          | Some d => is_string d (AdminHome.district filters)
          | None => false
          end = true
          <-> member (prop report "location") "district"
                = Some (JStr (AdminHome.district filters))) as ->.
  { destruct (member _ _) as [d|]; [|split; discriminate].
    rewrite is_string_spec. split; [by intros -> | by intros [=]]. }
  destruct (decide (AdminHome.status filters = "all"));
    destruct (decide (AdminHome.category filters = "all"));
    destruct (decide (AdminHome.district filters = "all")); tauto.
Qed.

(** A setting of all three filters to ['all'] keeps every report, with or
    without a location. *)
Lemma applyFilters_all (reports : list obj) :
  AdminHome.applyFilters reports
    {| AdminHome.status := "all"; AdminHome.category := "all";
       AdminHome.district := "all" |} = Some reports.
Proof. reflexivity. Qed.

Lemma applyFilters_correct_witness :
  AdminHome.applyFilters (App.demoReports "" "")
    {| AdminHome.status := "pending"; AdminHome.category := "all";
       AdminHome.district := "New Delhi" |}
  = Some (List.filter
            (satisfies {| AdminHome.status := "pending"; AdminHome.category := "all";
                          AdminHome.district := "New Delhi" |})
            (App.demoReports "" "")).
Proof.
  apply (applyFilters_correct (App.demoReports "" "")).
  intros _. repeat constructor; vm_compute; eexists; reflexivity.
Defined.

Lemma count_if_ext {A : Type} (p q : A -> bool) (l : list A) :
  (forall x, p x = q x) -> count_if p l = count_if q l.
Proof.
  intros Hpq. induction l as [|x l IH]; [reflexivity|].
  cbn. by rewrite Hpq, IH.
Qed.

Lemma count_status (reports : list obj) (s : string) :
  length (List.filter (fun r => strict_eq (prop r "status") (JStr s)) reports)
  = count_if (fun r => is_string (prop r "status") s) reports.
Proof.
  rewrite length_filter_count. apply count_if_ext.
  intros r. apply strict_eq_string.
Qed.

(** A report with a valid status is counted by exactly one of the three
    status counters. *)
Lemma valid_status_counted_once (r : obj) :
  valid_status r ->
  (if is_string (prop r "status") "pending" then 1 else 0)
  + (if is_string (prop r "status") "in-progress" then 1 else 0)
  + (if is_string (prop r "status") "resolved" then 1 else 0) = 1.
Proof. intros [[] ->]; reflexivity. Qed.

(** C6.  On a list of reports whose statuses are all valid, the dashboard
    statistics give the length of the list as [total], the number of
    reports of each status as [pending], [inProgress] and [resolved], and
    the three add up to [total]. *)
Theorem getDashboardStats_partition (reports : list obj) :
  Forall valid_status reports ->
  let stats := AdminHome.getDashboardStats reports in
  AdminHome.total stats = length reports
  /\ AdminHome.pending stats
     = count_if (fun r => is_string (prop r "status") "pending") reports
  /\ AdminHome.inProgress stats
     = count_if (fun r => is_string (prop r "status") "in-progress") reports
  /\ AdminHome.resolved stats
     = count_if (fun r => is_string (prop r "status") "resolved") reports
  /\ AdminHome.total stats
     = AdminHome.pending stats + AdminHome.inProgress stats + AdminHome.resolved stats.
Proof.
  intros Hvalid. cbn. rewrite !count_status.
  repeat split.
  induction Hvalid as [|r l Hr _ IH]; [reflexivity|].
  cbn [length count_if].
  pose proof (valid_status_counted_once r Hr). lia.
Qed.

Lemma getDashboardStats_partition_witness :
  AdminHome.total (AdminHome.getDashboardStats (App.demoReports "" ""))
  = AdminHome.pending (AdminHome.getDashboardStats (App.demoReports "" ""))
    + AdminHome.inProgress (AdminHome.getDashboardStats (App.demoReports "" ""))
    + AdminHome.resolved (AdminHome.getDashboardStats (App.demoReports "" "")).
Proof.
  apply (getDashboardStats_partition (App.demoReports "" "")).
  constructor; [by exists AdminHome.Pending|].
  constructor; [by exists AdminHome.InProgress|]. constructor.
Defined.

(* ===================================================================== *)
(** ** AdminHome: updateReportStatus *)
(* ===================================================================== *)

Section Triage.

Variables (user : obj) (status : AdminHome.Status) (department comments : option string).

Lemma withTriage_other (report : obj) (k : string) :
  k ∉ triage_fields ->
  AdminHome.withTriage user status department comments report !! k = report !! k.
Proof.
  unfold triage_fields, AdminHome.withTriage.
  rewrite !not_elem_of_cons. intros (Hs & Hd & Hc & Ha & _).
  by rewrite !lookup_insert_ne.
Qed.

Lemma withTriage_set (report : obj) :
  let report' := AdminHome.withTriage user status department comments report in
  prop report' "status" = JStr (AdminHome.status_value status)
  /\ prop report' "department" = opt_str department
  /\ prop report' "comments" = opt_str comments
  /\ prop report' "assignedTo" = prop user "name".
Proof.
  unfold AdminHome.withTriage, prop. cbn zeta.
  split; [|split; [|split]];
    repeat (rewrite lookup_insert_ne by done); by rewrite lookup_insert_eq.
Qed.

Lemma withTriage_valid_status (report : obj) :
  valid_status (AdminHome.withTriage user status department comments report).
Proof. exists status. apply withTriage_set. Qed.

Lemma updatedReports_valid_status (reportId : jsval) (reports : list obj) :
  Forall valid_status reports ->
  Forall valid_status
    (AdminHome.updatedReports user reportId status department comments reports).
Proof.
  unfold AdminHome.updatedReports.
  induction 1 as [|r l Hr _ IH]; constructor; [|exact IH].
  destruct (strict_eq _ _); [apply withTriage_valid_status | exact Hr].
Qed.

(** C3.  [updateReportStatus] keeps the storage keys other than [reports],
    the length and order of the list, and every report whose id differs
    from [reportId] (in the component's state, and in the store when the
    report is JSON, as one read from the store is); in a report whose id
    is [reportId] it sets [status], [department], [comments] and
    [assignedTo] (to the administrator's name) and keeps every other
    property, in the component's state and in what is written to the
    store. *)
Theorem updateReportStatus_frame (reportId : jsval)
    (ls : Storage.LocalStorage) (st : AdminHome.State) :
  let r := AdminHome.updateReportStatus user reportId status department comments ls st in
  let updated := AdminHome.reports r.2 in
  Storage.reports r.1 = Some (stringify_parse_obj <$> updated)
  /\ Storage.users r.1 = Storage.users ls
  /\ Storage.currentUser r.1 = Storage.currentUser ls
  /\ length updated = length (AdminHome.reports st)
  /\ forall (i : nat) (report : obj),
       AdminHome.reports st !! i = Some report ->
       (strict_eq (prop report "id") reportId = false ->
          updated !! i = Some report
          /\ (is_json report -> Storage.getReports r.1 !! i = Some report))
       /\ (strict_eq (prop report "id") reportId = true ->
           exists report',
             updated !! i = Some report'
             /\ prop report' "status" = JStr (AdminHome.status_value status)
             /\ prop report' "department" = opt_str department
             /\ prop report' "comments" = opt_str comments
             /\ prop report' "assignedTo" = prop user "name"
             /\ (forall k, k ∉ triage_fields -> report' !! k = report !! k)
             /\ (forall k, k ∉ triage_fields ->
                   stringify_parse_obj report' !! k = stringify_parse_obj report !! k)).
Proof.
  cbn zeta. unfold AdminHome.updateReportStatus. cbn [fst snd AdminHome.reports].
  split; [reflexivity|]. split; [reflexivity|]. split; [reflexivity|].
  split; [unfold AdminHome.updatedReports; by rewrite length_fmap|].
  intros i report Hi. split; intros Hid.
  - assert (AdminHome.updatedReports user reportId status department comments
              (AdminHome.reports st) !! i = Some report) as Hsame.
    { unfold AdminHome.updatedReports.
      rewrite list_lookup_fmap, Hi. cbn. by rewrite Hid. }
    split; [exact Hsame|]. intros Hjson.
    rewrite getReports_setReports, list_lookup_fmap, Hsame. cbn. by rewrite Hjson.
  - exists (AdminHome.withTriage user status department comments report).
    split.
    { unfold AdminHome.updatedReports. rewrite list_lookup_fmap, Hi. cbn. by rewrite Hid. }
    destruct (withTriage_set report) as (Hs & Hd & Hc & Ha).
    do 4 (split; [assumption|]). split.
    + intros k Hk. by apply withTriage_other.
    + intros k Hk. rewrite !lookup_stringify_parse_obj.
      by rewrite withTriage_other.
Qed.

End Triage.

Lemma updateReportStatus_frame_witness :
  AdminHome.updatedReports ∅ (JStr "1") AdminHome.Resolved None None
    (App.demoReports "" "") !! 1
  = App.demoReports "" "" !! 1.
Proof.
  pose proof (updateReportStatus_frame ∅ AdminHome.Resolved None None (JStr "1")
                Storage.empty
                {| AdminHome.reports := App.demoReports "" "";
                   AdminHome.filteredReports := [];
                   AdminHome.selectedReport := None;
                   AdminHome.filters :=
                     {| AdminHome.status := "all"; AdminHome.category := "all";
                        AdminHome.district := "all" |};
                   AdminHome.activeTab := "reports" |}) as (_ & _ & _ & _ & H).
  destruct (H 1 _ eq_refl) as [Hother _].
  exact (proj1 (Hother eq_refl)).
Defined.

(* ===================================================================== *)
(** ** UserHome: loading and submitting reports *)
(* ===================================================================== *)

(** C10.  For every reports store and every logged-in user, whose id is a
    string, the list loaded into the My Reports view is the stored reports
    whose [userId] is that id, in the order of the store, and the count
    shown with the tab is their number. *)
Theorem loadReports_own (user : obj) (uid : string) (ls : Storage.LocalStorage) :
  prop user "id" = JStr uid ->
  let st := UserHome.mount user ls in
  UserHome.reports st
    = List.filter (fun r => is_string (prop r "userId") uid) (Storage.getReports ls)
  /\ (forall r, In r (UserHome.reports st)
                <-> In r (Storage.getReports ls) /\ prop r "userId" = JStr uid)
  /\ myReportsCount st
     = count_if (fun r => is_string (prop r "userId") uid) (Storage.getReports ls).
Proof.
  intros Hid. cbn zeta.
  assert (UserHome.reports (UserHome.mount user ls)
          = List.filter (fun r => is_string (prop r "userId") uid)
              (Storage.getReports ls)) as Hload.
  { cbn. unfold UserHome.loadReports. apply filter_ext.
    intros r. rewrite Hid. apply strict_eq_string. }
  split; [exact Hload|]. split.
  - intros r. rewrite Hload, filter_In, is_string_spec. reflexivity.
  - unfold myReportsCount. rewrite Hload. apply length_filter_count.
Qed.

Lemma loadReports_own_witness :
  UserHome.reports
    (UserHome.mount (literal [("id", JStr "1")])
       (Storage.setReports (App.demoReports "" "") Storage.empty))
  = List.filter (fun r => is_string (prop r "userId") "1")
      (Storage.getReports (Storage.setReports (App.demoReports "" "") Storage.empty)).
Proof.
  apply (loadReports_own (literal [("id", JStr "1")]) "1"). reflexivity.
Defined.

Lemma validation_checks (formData : UserHome.FormData)
    (location : option UserHome.Coords) :
  passes_validation formData location
  <-> missing_fields formData = false /\ missing_place formData location = false.
Proof.
  unfold passes_validation, missing_fields, missing_place.
  rewrite !orb_false_iff, andb_false_iff, !negb_false_iff, !nonempty_spec.
  rewrite Nat.eqb_neq, bool_decide_eq_true.
  assert (length (UserHome.imageUrls formData) <> 0
          <-> UserHome.imageUrls formData <> []) as ->.
  { destruct (UserHome.imageUrls formData); cbn; split; congruence. }
  assert (is_Some location <-> location <> None) as ->.
  { destruct location as [c|]; split; intros H;
      first [ done | by eexists | by destruct H | by destruct H as [? [=]] ]. }
  tauto.
Qed.

Lemma submitReport_rejected (user : obj) (now : Z) (iso : string)
    (ls : Storage.LocalStorage) (st : UserHome.State) :
  ~ passes_validation (UserHome.formData st) (UserHome.location st) ->
  exists m,
    UserHome.submitReport user now iso ls st
    = (ls, UserHome.showAlert UserHome.error m st).
Proof.
  rewrite validation_checks. unfold UserHome.submitReport.
  fold (missing_fields (UserHome.formData st)).
  fold (missing_place (UserHome.formData st) (UserHome.location st)).
  destruct (missing_fields _); [by eexists|].
  destruct (missing_place _ _); [by eexists|].
  intros []. done.
Qed.

Lemma submitReport_accepted (user : obj) (now : Z) (iso : string)
    (ls : Storage.LocalStorage) (st : UserHome.State) :
  passes_validation (UserHome.formData st) (UserHome.location st) ->
  let report := UserHome.newReport user now iso (UserHome.formData st)
                  (UserHome.location st) in
  UserHome.submitReport user now iso ls st
  = (Storage.setReports (Storage.getReports ls ++ [report]) ls,
     UserHome.setActiveTab UserHome.myReports
       (UserHome.showAlert UserHome.success "Report submitted"
          (UserHome.setLocation None
             (UserHome.setFormData (fun _ => UserHome.emptyForm)
                (UserHome.setReports (fun prev => prev ++ [report]) st))))).
Proof.
  rewrite validation_checks. intros [H1 H2]. unfold UserHome.submitReport.
  fold (missing_fields (UserHome.formData st)).
  fold (missing_place (UserHome.formData st) (UserHome.location st)).
  by rewrite H1, H2.
Qed.

Lemma submitReport_appends (user : obj) (now : Z) (iso : string)
    (ls : Storage.LocalStorage) (st : UserHome.State) :
  Forall is_json (Storage.getReports ls) ->
  passes_validation (UserHome.formData st) (UserHome.location st) ->
  Storage.getReports (UserHome.submitReport user now iso ls st).1
  = Storage.getReports ls
    ++ [stringify_parse_obj
          (UserHome.newReport user now iso (UserHome.formData st)
             (UserHome.location st))].
Proof.
  intros Hjson Hok. rewrite (submitReport_accepted _ _ _ _ _ Hok). cbn [fst].
  rewrite getReports_setReports, fmap_app, is_json_fmap by exact Hjson.
  reflexivity.
Qed.

(** C4.  When a check of [submitReport] fails (no title, no description,
    no image, or neither location nor address), the call only sets an
    error alert: the storage, the user's report list, the form, the
    location and the tab are as before.  When no check fails, the new
    report is appended to the store and to the user's list.  So the store
    grows exactly when the form passes validation. *)
Theorem submitReport_validation (user : obj) (now : Z) (iso : string)
    (ls : Storage.LocalStorage) (st : UserHome.State) :
  Forall is_json (Storage.getReports ls) ->
  let r := UserHome.submitReport user now iso ls st in
  let report := UserHome.newReport user now iso (UserHome.formData st)
                  (UserHome.location st) in
  (~ passes_validation (UserHome.formData st) (UserHome.location st) ->
     r.1 = ls
     /\ UserHome.reports r.2 = UserHome.reports st
     /\ UserHome.formData r.2 = UserHome.formData st
     /\ UserHome.location r.2 = UserHome.location st
     /\ UserHome.activeTab r.2 = UserHome.activeTab st
     /\ exists m, UserHome.alert r.2
                  = Some {| UserHome.type := UserHome.error; UserHome.message := m |})
  /\ (passes_validation (UserHome.formData st) (UserHome.location st) ->
        Storage.getReports r.1 = Storage.getReports ls ++ [stringify_parse_obj report]
        /\ UserHome.reports r.2 = UserHome.reports st ++ [report])
  /\ (length (Storage.getReports r.1) = S (length (Storage.getReports ls))
      <-> passes_validation (UserHome.formData st) (UserHome.location st)).
Proof.
  intros Hjson. cbn zeta.
  pose proof (submitReport_appends user now iso ls st Hjson) as Happ.
  split; [|split].
  - intros Hbad. destruct (submitReport_rejected user now iso ls st Hbad) as [m ->].
    cbn. eauto 10.
  - intros Hok. split; [by apply Happ|].
    by rewrite (submitReport_accepted _ _ _ _ _ Hok).
  - split.
    + intros Hlen.
      destruct (decide (missing_fields (UserHome.formData st) = false
                        /\ missing_place (UserHome.formData st) (UserHome.location st) = false))
        as [Hok|Hbad]; [by apply validation_checks|].
      rewrite <- validation_checks in Hbad.
      destruct (submitReport_rejected user now iso ls st Hbad) as [m Hm].
      rewrite Hm in Hlen. cbn in Hlen. lia.
    + intros Hok. rewrite (Happ Hok), length_app. cbn. lia.
Qed.

Lemma filledForm_passes (location : option UserHome.Coords) :
  passes_validation filledForm location.
Proof. repeat split; try discriminate. right. discriminate. Qed.

Lemma submitReport_validation_witness :
  length (Storage.getReports
            (UserHome.submitReport strayUser 0 "" Storage.empty
               (filledPage strayUser Storage.empty)).1)
  = S (length (Storage.getReports Storage.empty)).
Proof.
  apply (submitReport_validation strayUser 0 "" Storage.empty
           (filledPage strayUser Storage.empty)).
  - constructor.
  - apply filledForm_passes.
Defined.

Lemma submitReport_users_irrelevant (user : obj) (now : Z) (iso : string)
    (ls : Storage.LocalStorage) (st : UserHome.State) (users : option (list obj)) :
  UserHome.submitReport user now iso (with_users users ls) st
  = (with_users users (UserHome.submitReport user now iso ls st).1,
     (UserHome.submitReport user now iso ls st).2).
Proof.
  unfold UserHome.submitReport.
  destruct (_ || _ || _); [reflexivity|].
  destruct (_ && _); reflexivity.
Qed.

Lemma newReport_userId (user : obj) (now : Z) (iso : string)
    (formData : UserHome.FormData) (location : option UserHome.Coords) :
  prop (UserHome.newReport user now iso formData location) "userId" = prop user "id".
Proof.
  unfold UserHome.newReport, literal, prop. cbn [foldl fst snd].
  repeat (rewrite lookup_insert_ne by done). by rewrite lookup_insert_eq.
Qed.

(** C7.  For every user whose id is the string [u] and every form that
    passes validation, [submitReport] appends a report with [userId = u]
    to the reports store; the users store is not written, and what is
    stored and shown is the same whatever the users store holds.  A
    browser that holds the seeded users and reports can so come to hold a
    report whose [userId] is the id of no stored user. *)
Theorem submitReport_no_referential_check (user : obj) (u : string) (now : Z)
    (iso : string) (ls : Storage.LocalStorage) (st : UserHome.State) :
  prop user "id" = JStr u ->
  passes_validation (UserHome.formData st) (UserHome.location st) ->
  Forall is_json (Storage.getReports ls) ->
  let r := UserHome.submitReport user now iso ls st in
  (exists report,
     Storage.getReports r.1 = Storage.getReports ls ++ [report]
     /\ prop report "userId" = JStr u)
  /\ Storage.users r.1 = Storage.users ls
  /\ (forall users,
        UserHome.submitReport user now iso (with_users users ls) st
        = (with_users users r.1, r.2))
  /\ (exists ls0 user0 st0 now0 iso0,
        Storage.well_formed ls0
        /\ ~ dangling_report ls0
        /\ dangling_report (UserHome.submitReport user0 now0 iso0 ls0 st0).1).
Proof.
  intros Hid Hok Hjson. cbn zeta. split; [|split; [|split]].
  - exists (stringify_parse_obj
              (UserHome.newReport user now iso (UserHome.formData st)
                 (UserHome.location st))).
    split.
    + by apply submitReport_appends.
    + apply prop_stringify_parse_string. by rewrite newReport_userId.
  - by rewrite (submitReport_accepted _ _ _ _ _ Hok).
  - intros users. apply submitReport_users_irrelevant.
  - exists (Storage.setUsers App.demoUsers Storage.empty), strayUser,
      (filledPage strayUser Storage.empty), 0%Z, "".
    split; [|split].
    + split; [apply Forall_is_json_written|]. split; [constructor|]. intros ? [=].
    + intros (report & Hin & _). by apply not_elem_of_nil in Hin.
    + rewrite (submitReport_accepted strayUser 0 "" _
                 (filledPage strayUser Storage.empty) (filledForm_passes _)).
      cbn [fst].
      exists (stringify_parse_obj (UserHome.newReport strayUser 0 "" filledForm None)).
      split.
      * rewrite getReports_setReports. apply list_elem_of_fmap_2, list_elem_of_here.
      * intros usr Husr.
        change (usr ∈ stringify_parse_obj <$> App.demoUsers) in Husr.
        apply list_elem_of_fmap_1 in Husr as (y & -> & Hy).
        unfold App.demoUsers in Hy.
        apply elem_of_cons in Hy as [->|Hy];
          [|apply list_elem_of_singleton in Hy as ->];
          vm_compute; discriminate.
Qed.

Lemma submitReport_no_referential_check_witness :
  exists report,
    Storage.getReports
      (UserHome.submitReport strayUser 0 "" Storage.empty
         (filledPage strayUser Storage.empty)).1
    = Storage.getReports Storage.empty ++ [report]
    /\ prop report "userId" = JStr "99".
Proof.
  apply (submitReport_no_referential_check strayUser "99" 0 "" Storage.empty
           (filledPage strayUser Storage.empty)).
  - reflexivity.
  - apply filledForm_passes.
  - constructor.
Defined.

(* ===================================================================== *)
(** ** App: the logged-in user *)
(* ===================================================================== *)

Lemma is_json_lookup (o : obj) (k : string) :
  is_json o ->
  match o !! k with
  | Some v => if is_undefined v then None else Some (stringify_parse v)
  | None => None
  end = o !! k.
Proof. intros Ho. rewrite <- lookup_stringify_parse_obj. by rewrite Ho. Qed.

Lemma is_json_empty : is_json ∅.
Proof.
  apply map_eq. intros k. by rewrite lookup_stringify_parse_obj, lookup_empty.
Qed.

Lemma is_json_delete (o : obj) (k : string) : is_json o -> is_json (delete k o).
Proof.
  intros Ho. apply map_eq. intros i.
  rewrite lookup_stringify_parse_obj.
  destruct (decide (k = i)) as [->|Hne].
  - by rewrite lookup_delete_eq.
  - rewrite lookup_delete_ne by done. by apply is_json_lookup.
Qed.

Lemma is_json_insert (o : obj) (k : string) (v : jsval) :
  stringify_parse v = v -> is_undefined v = false ->
  is_json o -> is_json (<[k:=v]> o).
Proof.
  intros Hv Hu Ho. apply map_eq. intros i.
  rewrite lookup_stringify_parse_obj.
  destruct (decide (k = i)) as [->|Hne].
  - by rewrite lookup_insert_eq, Hu, Hv.
  - rewrite lookup_insert_ne by done. by apply is_json_lookup.
Qed.

(** The object literal that [handleRegister] builds. *)
Lemma newUser_stored_user (id email password name : string) (isAdmin : bool) :
  stored_user (literal [ ("id", JStr id); ("email", JStr email);
                         ("password", JStr password); ("name", JStr name);
                         ("isAdmin", JBool isAdmin) ]).
Proof.
  unfold literal. cbn [foldl fst snd]. split.
  - rewrite !dom_insert_L, dom_empty_L. unfold stored_user_fields. set_solver.
  - repeat (apply is_json_insert; [reflexivity | reflexivity |]). apply is_json_empty.
Qed.

Lemma without_password (u : obj) :
  stored_user u ->
  dom (stringify_parse_obj (delete "password" u)) = user_fields
  /\ dom (delete "password" u) = user_fields.
Proof.
  intros [Hdom Hjson].
  rewrite (is_json_delete u "password" Hjson).
  rewrite dom_delete_L, Hdom. unfold stored_user_fields, user_fields.
  split; set_solver.
Qed.

Lemma password_deleted (u : obj) :
  stringify_parse_obj (delete "password" u) !! "password" = None.
Proof. by rewrite lookup_stringify_parse_obj, lookup_delete_eq. Qed.

Lemma handleLogin_found (email password : string) (w : App.World) :
  (App.handleLogin email password w).2 = true ->
  exists user,
    user ∈ Storage.getUsers (App.localStorage w)
    /\ prop user "email" = JStr email
    /\ prop user "password" = JStr password
    /\ App.handleLogin email password w
       = (App.show (Storage.setCurrentUser (delete "password" user) (App.localStorage w))
            App.authenticated (Some (delete "password" user)), true).
Proof.
  unfold App.handleLogin.
  destruct (find _ _) as [user|] eqn:Hfind; [|discriminate].
  intros _. apply find_some in Hfind as [Hin Hmatch].
  apply andb_true_iff in Hmatch as [He Hp].
  rewrite strict_eq_string, is_string_spec in He, Hp.
  exists user. by rewrite list_elem_of_In.
Qed.

(** C9.  After a successful [handleLogin] and after every
    [handleRegister], the object under the key [currentUser], and the one
    in the state of [App], has no [password]; when the users store holds
    user records, its fields are exactly [id], [email], [name] and
    [isAdmin]. *)
Theorem currentUser_without_password (w : App.World) :
  (forall email password,
     (App.handleLogin email password w).2 = true ->
     exists persisted kept,
       Storage.currentUser (App.localStorage (App.handleLogin email password w).1)
         = Some persisted
       /\ App.currentUser (App.handleLogin email password w).1 = Some kept
       /\ persisted !! "password" = None
       /\ kept !! "password" = None
       /\ (Forall stored_user (Storage.getUsers (App.localStorage w)) ->
           dom persisted = user_fields /\ dom kept = user_fields))
  /\ (forall now email password name isAdmin,
        exists persisted kept,
          Storage.currentUser
            (App.localStorage (App.handleRegister now email password name isAdmin w))
            = Some persisted
          /\ App.currentUser (App.handleRegister now email password name isAdmin w)
             = Some kept
          /\ persisted !! "password" = None
          /\ kept !! "password" = None
          /\ dom persisted = user_fields /\ dom kept = user_fields).
Proof.
  split.
  - intros email password Hok.
    destruct (handleLogin_found email password w Hok) as (user & Hin & _ & _ & ->).
    exists (stringify_parse_obj (delete "password" user)), (delete "password" user).
    split; [reflexivity|]. split; [reflexivity|].
    split; [apply password_deleted|]. split; [apply lookup_delete_eq|].
    intros Husers. apply without_password.
    rewrite Forall_forall in Husers. by apply Husers.
  - intros now email password name isAdmin.
    eexists _, _. split; [reflexivity|]. split; [reflexivity|].
    split; [apply password_deleted|]. split; [apply lookup_delete_eq|].
    apply without_password, newUser_stored_user.
Qed.

Lemma currentUser_without_password_witness :
  exists persisted kept,
    Storage.currentUser
      (App.localStorage
         (App.handleLogin "admin@demo.com" "admin123" (App.init "" "" Storage.empty)).1)
      = Some persisted
    /\ App.currentUser
         (App.handleLogin "admin@demo.com" "admin123" (App.init "" "" Storage.empty)).1
       = Some kept
    /\ persisted !! "password" = None
    /\ kept !! "password" = None
    /\ (Forall stored_user
          (Storage.getUsers (App.localStorage (App.init "" "" Storage.empty))) ->
        dom persisted = user_fields /\ dom kept = user_fields).
Proof.
  refine (proj1 (currentUser_without_password (App.init "" "" Storage.empty))
            "admin@demo.com" "admin123" _).
  vm_compute. reflexivity.
Defined.

(* ===================================================================== *)
(** ** The status invariant *)
(* ===================================================================== *)

Lemma demoReports_valid_status (twoDaysAgo oneDayAgo : string) :
  Forall valid_status (App.demoReports twoDaysAgo oneDayAgo).
Proof.
  constructor; [by exists AdminHome.Pending|].
  constructor; [by exists AdminHome.InProgress|]. constructor.
Qed.

Lemma newReport_valid_status (user : obj) (now : Z) (iso : string)
    (formData : UserHome.FormData) (location : option UserHome.Coords) :
  valid_status (UserHome.newReport user now iso formData location).
Proof.
  exists AdminHome.Pending.
  unfold UserHome.newReport, literal, prop. cbn [foldl fst snd].
  repeat (rewrite lookup_insert_ne by done). by rewrite lookup_insert_eq.
Qed.

Lemma runFilterEffect_reports (st st' : AdminHome.State) :
  AdminHome.runFilterEffect st = Some st' ->
  AdminHome.reports st' = AdminHome.reports st.
Proof.
  unfold AdminHome.runFilterEffect.
  destruct (AdminHome.applyFilters _ _); [|discriminate]. by intros [= <-].
Qed.

Lemma show_statuses_valid (ls : Storage.LocalStorage) (a : App.AuthState)
    (user : option obj) :
  Forall valid_status (Storage.getReports ls) ->
  statuses_valid (App.show ls a user).
Proof.
  intros Hls. split; [exact Hls|].
  intros s. cbn [App.show App.view]. unfold App.render.
  destruct a; try discriminate.
  destruct user as [u|]; [|discriminate].
  destruct (truthy _); [|discriminate].
  destruct (AdminHome.mount ls) as [s0|] eqn:Hmount; [|discriminate].
  intros [= <-]. apply runFilterEffect_reports in Hmount.
  by rewrite Hmount.
Qed.

Lemma init_statuses_valid (twoDaysAgo oneDayAgo : string) (ls : Storage.LocalStorage) :
  Forall valid_status (Storage.getReports ls) ->
  statuses_valid (App.init twoDaysAgo oneDayAgo ls).
Proof.
  intros Hls. unfold App.init.
  set (ls1 := match Storage.users ls with
              | Some _ => ls
              | None => Storage.setUsers App.demoUsers ls
              end).
  assert (Storage.reports ls1 = Storage.reports ls) as Hsame
    by (subst ls1; by destruct (Storage.users ls)).
  set (ls2 := match Storage.reports ls1 with
              | Some _ => ls1
              | None => Storage.setReports (App.demoReports twoDaysAgo oneDayAgo) ls1
              end).
  assert (Forall valid_status (Storage.getReports ls2)) as Hls2.
  { subst ls2. destruct (Storage.reports ls1) eqn:Hr.
    - unfold Storage.getReports in *. by rewrite Hr, Hsame.
    - apply Forall_valid_status_written, demoReports_valid_status. }
  destruct (Storage.currentUser ls2); by apply show_statuses_valid.
Qed.

Lemma submitReport_statuses_valid (user : obj) (now : Z) (iso : string)
    (ls : Storage.LocalStorage) (st : UserHome.State) :
  Forall valid_status (Storage.getReports ls) ->
  Forall valid_status (Storage.getReports (UserHome.submitReport user now iso ls st).1).
Proof.
  intros Hls. unfold UserHome.submitReport.
  destruct (_ || _ || _); [exact Hls|].
  destruct (_ && _); [exact Hls|].
  cbn [fst]. rewrite getReports_setReports.
  apply Forall_valid_status_written, Forall_app. split; [exact Hls|].
  constructor; [apply newReport_valid_status | constructor].
Qed.

Lemma UserHome_handle_statuses_valid (user : obj) (e : UserHome.Event)
    (ls : Storage.LocalStorage) (st : UserHome.State) :
  Forall valid_status (Storage.getReports ls) ->
  Forall valid_status (Storage.getReports (UserHome.handle user e ls st).1).
Proof.
  intros Hls. destruct e; try exact Hls.
  by apply submitReport_statuses_valid.
Qed.

Lemma updateReportStatus_statuses_valid (user : obj) (reportId : jsval)
    (status : AdminHome.Status) (department comments : option string)
    (ls : Storage.LocalStorage) (st : AdminHome.State) :
  Forall valid_status (AdminHome.reports st) ->
  let r := AdminHome.updateReportStatus user reportId status department comments ls st in
  Forall valid_status (Storage.getReports r.1)
  /\ Forall valid_status (AdminHome.reports r.2).
Proof.
  intros Hst. cbn zeta. unfold AdminHome.updateReportStatus. cbn [fst snd AdminHome.reports].
  split.
  - rewrite getReports_setReports.
    by apply Forall_valid_status_written, updatedReports_valid_status.
  - by apply updatedReports_valid_status.
Qed.

Lemma AdminHome_handle_statuses_valid (user : obj) (e : AdminHome.Event)
    (ls : Storage.LocalStorage) (st : AdminHome.State) :
  Forall valid_status (Storage.getReports ls) ->
  Forall valid_status (AdminHome.reports st) ->
  Forall valid_status (Storage.getReports (AdminHome.handle user e ls st).1)
  /\ (forall st', (AdminHome.handle user e ls st).2 = Some st' ->
                  Forall valid_status (AdminHome.reports st')).
Proof.
  intros Hls Hst.
  assert (forall user' id status dep com,
            let r := AdminHome.updateReportStatus user' id status dep com ls st in
            Forall valid_status (Storage.getReports r.1)
            /\ (forall st', AdminHome.runFilterEffect r.2 = Some st' ->
                            Forall valid_status (AdminHome.reports st'))) as Hupd.
  { intros user' id status dep com.
    destruct (updateReportStatus_statuses_valid user' id status dep com ls st Hst)
      as [H1 H2].
    split; [exact H1|]. intros st' Hst'.
    apply runFilterEffect_reports in Hst'. by rewrite Hst'. }
  destruct e; cbn [AdminHome.handle].
  1-3: split; [exact Hls|]; intros st' Hst'; cbn [snd] in Hst';
       apply runFilterEffect_reports in Hst'; by rewrite Hst'.
  - split; [exact Hls|]. by intros st' [= <-].
  - destruct (_ !! _); (split; [exact Hls|]); by intros st' [= <-].
  - destruct (_ !! _); (split; [exact Hls|]); by intros st' [= <-].
  - destruct (AdminHome.canUpdate st); [apply Hupd|].
    split; [exact Hls|]. by intros st' [= <-].
  - destruct (AdminHome.canUpdate st); [apply Hupd|].
    split; [exact Hls|]. by intros st' [= <-].
Qed.

Lemma step_statuses_valid (w : App.World) (e : App.Event) :
  statuses_valid w -> statuses_valid (App.step w e).
Proof.
  intros Hw. pose proof Hw as [Hls Hview]. unfold App.step.
  destruct e.
  - apply init_statuses_valid, Hls.
  - destruct (App.view w); try exact Hw.
    unfold App.handleLogin. destruct (find _ _); [|exact Hw].
    by apply show_statuses_valid.
  - destruct (App.view w); try exact Hw. by apply show_statuses_valid.
  - destruct (App.view w); try exact Hw. by apply show_statuses_valid.
  - destruct (App.view w); try exact Hw. by apply show_statuses_valid.
  - destruct (App.view w); try exact Hw; by apply show_statuses_valid.
  - destruct (App.view w) as [| |s| | |] eqn:Hv; try exact Hw.
    destruct (AdminHome_handle_statuses_valid (default ∅ (App.currentUser w)) e
                (App.localStorage w) s Hls (Hview s eq_refl)) as [H1 H2].
    destruct (AdminHome.handle _ _ _ _) as [ls' [s'|]]; (split; [exact H1|]).
    + intros s0 [= <-]. by apply H2.
    + intros s0 [=].
  - destruct (App.view w) as [| | |s| |] eqn:Hv; try exact Hw.
    pose proof (UserHome_handle_statuses_valid (default ∅ (App.currentUser w)) e
                  (App.localStorage w) s Hls) as H1.
    destruct (UserHome.handle _ _ _ _) as [ls' s']. split; [exact H1|].
    intros s0 [=].
Qed.

Lemma reachable_statuses_valid (w : App.World) :
  App.reachable w -> statuses_valid w.
Proof.
  induction 1 as [twoDaysAgo oneDayAgo | w e _ IH].
  - apply init_statuses_valid. constructor.
  - by apply step_statuses_valid.
Qed.

(** C2.  In every world that the program reaches from an empty
    [localStorage], every report in the reports store has a status among
    ['pending'], ['in-progress'] and ['resolved'], and so has every report
    the dashboard holds and writes back. *)
Theorem stored_status_valid (w : App.World) (report : obj) :
  App.reachable w ->
  report ∈ Storage.getReports (App.localStorage w) ->
  prop report "status" = JStr "pending"
  \/ prop report "status" = JStr "in-progress"
  \/ prop report "status" = JStr "resolved".
Proof.
  intros Hw Hin. apply reachable_statuses_valid in Hw as [Hls _].
  rewrite Forall_forall in Hls. destruct (Hls report Hin) as [[] ->]; auto.
Qed.

Lemma stored_status_valid_witness :
  prop (stringify_parse_obj (App.demoReports "" "" !!! 0%nat)) "status" = JStr "pending"
  \/ prop (stringify_parse_obj (App.demoReports "" "" !!! 0%nat)) "status"
     = JStr "in-progress"
  \/ prop (stringify_parse_obj (App.demoReports "" "" !!! 0%nat)) "status"
     = JStr "resolved".
Proof.
  apply (stored_status_valid (App.init "" "" Storage.empty)).
  - apply App.reachable_init.
  - apply list_elem_of_here.
Defined.

(* ===================================================================== *)
(** ** The tab selectors *)
(* ===================================================================== *)

Lemma runFilterEffect_activeTab (st st' : AdminHome.State) :
  AdminHome.runFilterEffect st = Some st' ->
  AdminHome.activeTab st' = AdminHome.activeTab st.
Proof.
  unfold AdminHome.runFilterEffect.
  destruct (AdminHome.applyFilters _ _); [|discriminate]. by intros [= <-].
Qed.

Lemma show_admin_tab (ls : Storage.LocalStorage) (a : App.AuthState)
    (user : option obj) (s : AdminHome.State) :
  App.view (App.show ls a user) = App.AdminPage s ->
  AdminHome.activeTab s = AdminHome.trigger_value AdminHome.TriggerDashboard.
Proof.
  cbn [App.show App.view]. unfold App.render.
  destruct a; try discriminate.
  destruct user as [u|]; [|discriminate].
  destruct (truthy _); [|discriminate].
  destruct (AdminHome.mount ls) as [s0|] eqn:Hmount; [|discriminate].
  intros [= <-]. by apply runFilterEffect_activeTab in Hmount as ->.
Qed.

Lemma init_admin_tab (twoDaysAgo oneDayAgo : string) (ls : Storage.LocalStorage)
    (s : AdminHome.State) :
  App.view (App.init twoDaysAgo oneDayAgo ls) = App.AdminPage s ->
  AdminHome.activeTab s = AdminHome.trigger_value AdminHome.TriggerDashboard.
Proof.
  unfold App.init. destruct (Storage.currentUser _); apply show_admin_tab.
Qed.

Lemma AdminHome_handle_tab (user : obj) (e : AdminHome.Event)
    (ls : Storage.LocalStorage) (st st' : AdminHome.State) :
  (AdminHome.handle user e ls st).2 = Some st' ->
  (exists t, AdminHome.activeTab st = AdminHome.trigger_value t) ->
  exists t, AdminHome.activeTab st' = AdminHome.trigger_value t.
Proof.
  intros Hst' [t0 Ht0].
  destruct e; cbn [AdminHome.handle snd] in Hst'.
  1-3: apply runFilterEffect_activeTab in Hst'; exists t0; by rewrite Hst'.
  - injection Hst' as <-. by exists t.
  - destruct (_ !! _); injection Hst' as <-;
      [by exists AdminHome.TriggerReports | by exists t0].
  - destruct (_ !! _); injection Hst' as <-; by exists t0.
  - destruct (AdminHome.canUpdate st); [|injection Hst' as <-; by exists t0].
    cbn [snd] in Hst'. apply runFilterEffect_activeTab in Hst'.
    exists t0. by rewrite Hst'.
  - destruct (AdminHome.canUpdate st); [|injection Hst' as <-; by exists t0].
    cbn [snd] in Hst'. apply runFilterEffect_activeTab in Hst'.
    exists t0. by rewrite Hst'.
Qed.

Lemma step_admin_tab (w : App.World) (e : App.Event) :
  admin_tab_valid w -> admin_tab_valid (App.step w e).
Proof.
  intros Hw s. unfold App.step.
  destruct e.
  - intros Hs. eexists. by eapply init_admin_tab.
  - destruct (App.view w) eqn:Hv; try apply Hw.
    unfold App.handleLogin. destruct (find _ _); [|apply Hw].
    intros Hs. eexists. by eapply show_admin_tab.
  - destruct (App.view w) eqn:Hv; try apply Hw.
    intros Hs. eexists. by eapply show_admin_tab.
  - destruct (App.view w) eqn:Hv; try apply Hw.
    intros Hs. eexists. by eapply show_admin_tab.
  - destruct (App.view w) eqn:Hv; try apply Hw.
    intros Hs. eexists. by eapply show_admin_tab.
  - destruct (App.view w) eqn:Hv; try apply Hw;
      intros Hs; eexists; by eapply show_admin_tab.
  - destruct (App.view w) as [| |s0| | |] eqn:Hv; try apply Hw.
    pose proof (AdminHome_handle_tab (default ∅ (App.currentUser w)) e
                  (App.localStorage w) s0) as Hh.
    destruct (AdminHome.handle _ _ _ _) as [ls' [s'|]]; [|discriminate].
    intros [= <-]. apply Hh; [reflexivity|]. by apply Hw.
  - destruct (App.view w) as [| | |s0| |] eqn:Hv; try apply Hw.
    destruct (UserHome.handle _ _ _ _) as [ls' s']. discriminate.
Qed.

Lemma reachable_admin_tab (w : App.World) :
  App.reachable w -> admin_tab_valid w.
Proof.
  induction 1 as [twoDaysAgo oneDayAgo | w e _ IH].
  - intros s Hs. eexists. by eapply init_admin_tab.
  - by apply step_admin_tab.
Qed.

Lemma adminWorld_reachable : App.reachable adminWorld.
Proof. apply App.reachable_step, App.reachable_init. Qed.

Lemma citizenWorld_reachable : App.reachable citizenWorld.
Proof. apply App.reachable_step, App.reachable_init. Qed.

Lemma adminWorld_view : exists s, App.view adminWorld = App.AdminPage s.
Proof.
  assert (showsAdminPage adminWorld = true) as H by (vm_compute; reflexivity).
  unfold showsAdminPage in H. destruct (App.view adminWorld); try discriminate H.
  by eexists.
Qed.

Lemma citizenWorld_view : exists s, App.view citizenWorld = App.UserPage s.
Proof.
  assert (showsUserPage citizenWorld = true) as H by (vm_compute; reflexivity).
  unfold showsUserPage in H. destruct (App.view citizenWorld); try discriminate H.
  by eexists.
Qed.

Lemma trigger_reachable (t : AdminHome.TabsTrigger) :
  admin_tab_reachable (AdminHome.trigger_value t).
Proof.
  destruct adminWorld_view as [s0 Hs0].
  exists (App.step adminWorld (App.AdminEvent (AdminHome.ClickTab t))),
    (AdminHome.setActiveTab (AdminHome.trigger_value t) s0).
  split; [apply App.reachable_step, adminWorld_reachable|].
  split; [|reflexivity].
  unfold App.step. by rewrite Hs0.
Qed.

Lemma tab_reachable (t : UserHome.Tab) : user_tab_reachable t.
Proof.
  destruct citizenWorld_view as [s0 Hs0].
  exists (App.step citizenWorld (App.UserEvent (UserHome.ClickTab t))),
    (UserHome.setActiveTab t s0).
  split; [apply App.reachable_step, citizenWorld_reachable|].
  split; [|reflexivity].
  unfold App.step. by rewrite Hs0.
Qed.

Lemma trigger_values_distinct :
  NoDup (AdminHome.trigger_value <$>
           [AdminHome.TriggerDashboard; AdminHome.TriggerReports;
            AdminHome.TriggerMap; AdminHome.TriggerAnalytics]).
Proof. apply (bool_decide_unpack _). vm_compute. exact I. Qed.

Lemma trigger_values_reachable (l : list AdminHome.TabsTrigger) :
  Forall admin_tab_reachable (AdminHome.trigger_value <$> l).
Proof.
  apply Forall_fmap, Forall_forall. intros t _. apply trigger_reachable.
Qed.

(** C8, as stated, fails: the dashboard's [activeTab] takes four distinct
    values in reachable states. *)
Lemma four_admin_tabs : ~ at_most_three_tabs.
Proof.
  intros [Hadmin _].
  specialize (Hadmin _ trigger_values_distinct (trigger_values_reachable _)).
  cbn in Hadmin. lia.
Qed.

(** C8, amended.  In every reachable state the [activeTab] of the
    dashboard is one of the four values ['dashboard'], ['reports'], ['map']
    and ['analytics'], each of which is reached, and the [activeTab] of the
    citizen's page is one of ['report'] and ['myReports'], both reached: a
    tab selector takes at most four distinct values. *)
Theorem activeTab_values :
  (forall w s, App.reachable w -> App.view w = App.AdminPage s ->
     exists t, AdminHome.activeTab s = AdminHome.trigger_value t)
  /\ (forall t, admin_tab_reachable (AdminHome.trigger_value t))
  /\ (forall t, user_tab_reachable t)
  /\ (forall tabs : list string,
        NoDup tabs -> Forall admin_tab_reachable tabs -> length tabs <= 4)
  /\ (forall tabs : list UserHome.Tab,
        NoDup tabs -> Forall user_tab_reachable tabs -> length tabs <= 2).
Proof.
  split; [intros w s Hw; by apply reachable_admin_tab|].
  split; [apply trigger_reachable|]. split; [apply tab_reachable|]. split.
  - intros tabs Hnd Htabs.
    change 4 with (length (AdminHome.trigger_value <$>
                     [AdminHome.TriggerDashboard; AdminHome.TriggerReports;
                      AdminHome.TriggerMap; AdminHome.TriggerAnalytics])).
    apply submseteq_length, NoDup_submseteq; [exact Hnd|].
    intros tab Htab. rewrite Forall_forall in Htabs.
    destruct (Htabs tab Htab) as (w & s & Hw & Hv & <-).
    destruct (reachable_admin_tab w Hw s Hv) as [t ->].
    apply list_elem_of_fmap_2. destruct t; set_solver.
  - intros tabs Hnd _.
    change 2 with (length [UserHome.report; UserHome.myReports]).
    apply submseteq_length, NoDup_submseteq; [exact Hnd|].
    intros []; set_solver.
Qed.

Lemma activeTab_values_witness :
  length (AdminHome.trigger_value <$>
            [AdminHome.TriggerDashboard; AdminHome.TriggerReports;
             AdminHome.TriggerMap; AdminHome.TriggerAnalytics]) <= 4.
Proof.
  exact (proj1 (proj2 (proj2 (proj2 activeTab_values))) _
           trigger_values_distinct (trigger_values_reachable _)).
Defined.

(* ===================================================================== *)
(** ** The shape of a submitted report *)
(* ===================================================================== *)

Lemma stringify_parse_strings (l : list string) :
  stringify_parse (JArr (JStr <$> l)) = JArr (JStr <$> l).
Proof.
  cbn [stringify_parse]. f_equal.
  induction l as [|s l IH]; [reflexivity|]. cbn. by rewrite IH.
Qed.

(** Whatever the form holds, the report that [submitReport] builds and
    stores has the images under [imageUrls] and nothing under [imageUrl]. *)
Lemma newReport_images (user : obj) (now : Z) (iso : string)
    (formData : UserHome.FormData) (location : option UserHome.Coords) :
  let stored := stringify_parse_obj (UserHome.newReport user now iso formData location) in
  stored !! "imageUrl" = None
  /\ stored !! "imageUrls" = Some (JArr (JStr <$> UserHome.imageUrls formData)).
Proof.
  cbn zeta. rewrite !lookup_stringify_parse_obj.
  unfold UserHome.newReport, literal. cbn [foldl fst snd]. split.
  - repeat (rewrite lookup_insert_ne by done). by rewrite lookup_empty.
  - repeat (rewrite lookup_insert_ne by done). rewrite lookup_insert_eq.
    cbn [is_undefined]. by rewrite stringify_parse_strings.
Qed.

(** C5 fails on the code.  The citizen of the demo data submits a report
    with one image, logs out, and the administrator logs in: the dashboard
    holds the two seeded reports, which have an [imageUrl], and the new
    report, whose [imageUrl] is [undefined] and whose image is under
    [imageUrls]. *)
Theorem submitted_report_lacks_imageUrl :
  (fun report => (prop report "title",
                  is_undefined (prop report "imageUrl"),
                  prop report "imageUrls"))
    <$> dashboardReports (run (App.init "" "" Storage.empty) submitThenReview)
  = [ (JStr "Large Pothole on Main Street", false, JUndefined);
      (JStr "Streetlight Not Working", false, JUndefined);
      (JStr "Broken bench", true, JArr [JStr "blob:bench"]) ].
Proof. vm_compute. reflexivity. Qed.

(* ===================================================================== *)
(** ** Reachable worlds are well typed *)
(* ===================================================================== *)

Lemma location_object_written (o : obj) :
  location_object o -> location_object (stringify_parse_obj o).
Proof.
  unfold location_object, prop. intros [l Hl].
  exists (stringify_parse_obj l). rewrite lookup_stringify_parse_obj.
  destruct (o !! "location") as [v|]; cbn in Hl; [|discriminate]. by subst v.
Qed.

Lemma Forall_location_object_written (l : list obj) :
  Forall location_object l -> Forall location_object (stringify_parse_obj <$> l).
Proof.
  induction 1; constructor; [by apply location_object_written | done].
Qed.

Lemma location_object_has_location (o : obj) : location_object o -> has_location o.
Proof. intros [l Hl]. unfold has_location. rewrite Hl. by eexists. Qed.

Lemma string_id_written (o : obj) : string_id o -> string_id (stringify_parse_obj o).
Proof. intros [id Hid]. exists id. by apply prop_stringify_parse_string. Qed.

Lemma string_id_without_password (o : obj) :
  string_id o -> string_id (delete "password" o).
Proof.
  intros [id Hid]. exists id. unfold prop in *. by rewrite lookup_delete_ne.
Qed.

Lemma stored_user_is_json (l : list obj) : Forall stored_user l -> Forall is_json l.
Proof. intros Hl. eapply Forall_impl; [exact Hl|]. by intros u [_ Hu]. Qed.

Lemma newUser_string_id (id email password name : string) (isAdmin : bool) :
  string_id (literal [ ("id", JStr id); ("email", JStr email);
                       ("password", JStr password); ("name", JStr name);
                       ("isAdmin", JBool isAdmin) ]).
Proof.
  exists id. unfold literal, prop. cbn [foldl fst snd].
  repeat (rewrite lookup_insert_ne by done). by rewrite lookup_insert_eq.
Qed.

Lemma demoUsers_typed :
  Forall stored_user App.demoUsers /\ Forall string_id App.demoUsers.
Proof.
  split.
  - repeat (constructor; [apply newUser_stored_user|]). constructor.
  - repeat (constructor; [apply newUser_string_id|]). constructor.
Qed.

Lemma demoReports_location (twoDaysAgo oneDayAgo : string) :
  Forall location_object (App.demoReports twoDaysAgo oneDayAgo).
Proof.
  unfold App.demoReports, location_object, literal, prop.
  repeat (constructor;
          [cbn [foldl fst snd]; eexists;
           repeat (rewrite lookup_insert_ne by done); by rewrite lookup_insert_eq|]).
  constructor.
Qed.

Lemma newReport_location (user : obj) (now : Z) (iso : string)
    (formData : UserHome.FormData) (location : option UserHome.Coords) :
  location_object (UserHome.newReport user now iso formData location).
Proof.
  unfold UserHome.newReport, location_object, prop.
  unfold literal at 1. cbn [foldl fst snd]. eexists.
  repeat (rewrite lookup_insert_ne by done). by rewrite lookup_insert_eq.
Qed.

Lemma withTriage_location (user : obj) (status : AdminHome.Status)
    (department comments : option string) (report : obj) :
  location_object report ->
  location_object (AdminHome.withTriage user status department comments report).
Proof.
  intros [l Hl]. exists l. unfold prop in *.
  rewrite withTriage_other; [done|]. unfold triage_fields.
  rewrite !not_elem_of_cons. repeat split; try done. apply not_elem_of_nil.
Qed.

Lemma updatedReports_location (user : obj) (reportId : jsval)
    (status : AdminHome.Status) (department comments : option string)
    (reports : list obj) :
  Forall location_object reports ->
  Forall location_object
    (AdminHome.updatedReports user reportId status department comments reports).
Proof.
  unfold AdminHome.updatedReports.
  induction 1 as [|r l Hr _ IH]; constructor; [|exact IH].
  destruct (strict_eq _ _); [by apply withTriage_location | exact Hr].
Qed.

(** With reports that have a location, the filter effect does not throw. *)
Lemma runFilterEffect_runs (st : AdminHome.State) :
  Forall location_object (AdminHome.reports st) ->
  exists st', AdminHome.runFilterEffect st = Some st'
              /\ AdminHome.reports st' = AdminHome.reports st.
Proof.
  intros Hloc. unfold AdminHome.runFilterEffect.
  rewrite applyFilters_filter.
  - by eexists.
  - intros _. eapply Forall_impl; [exact Hloc|]. apply location_object_has_location.
Qed.

Lemma mount_runs (ls : Storage.LocalStorage) :
  exists s, AdminHome.mount ls = Some s
            /\ AdminHome.reports s = Storage.getReports ls.
Proof. by eexists. Qed.

Lemma show_well_typed (ls : Storage.LocalStorage) (a : App.AuthState)
    (user : option obj) :
  storage_typed ls ->
  (forall u, user = Some u -> string_id u) ->
  well_typed (App.show ls a user).
Proof.
  intros Hls Huser. split; [exact Hls|]. split; [exact Huser|].
  cbn [App.show App.view]. unfold App.render.
  destruct (mount_runs ls) as (s0 & Hmount & Hreports).
  destruct a; [by split|by split|].
  destruct user as [u|]; [|by split].
  destruct (truthy _); [|by split].
  rewrite Hmount. split; [|discriminate].
  intros s [= <-]. rewrite Hreports. apply Hls.
Qed.

Lemma init_well_typed (twoDaysAgo oneDayAgo : string) (ls : Storage.LocalStorage) :
  storage_typed ls -> well_typed (App.init twoDaysAgo oneDayAgo ls).
Proof.
  intros Hls. unfold App.init.
  set (ls1 := match Storage.users ls with
              | Some _ => ls
              | None => Storage.setUsers App.demoUsers ls
              end).
  assert (storage_typed ls1) as Hls1.
  { subst ls1. destruct (Storage.users ls); [exact Hls|].
    destruct Hls as (_ & _ & Hr & Hl & Hc). destruct demoUsers_typed as [Hdu Hdi].
    unfold storage_typed.
    change (Storage.getUsers (Storage.setUsers App.demoUsers ls))
      with (stringify_parse_obj <$> App.demoUsers).
    rewrite (is_json_fmap _ (stored_user_is_json _ Hdu)).
    split; [exact Hdu|]. split; [exact Hdi|]. split; [exact Hr|].
    split; [exact Hl | exact Hc]. }
  set (ls2 := match Storage.reports ls1 with
              | Some _ => ls1
              | None => Storage.setReports (App.demoReports twoDaysAgo oneDayAgo) ls1
              end).
  assert (storage_typed ls2) as Hls2.
  { subst ls2. destruct (Storage.reports ls1); [exact Hls1|].
    destruct Hls1 as (Hu & Hi & _ & _ & Hc).
    split; [exact Hu|]. split; [exact Hi|].
    split; [apply Forall_is_json_written|].
    split; [|exact Hc].
    rewrite getReports_setReports.
    apply Forall_location_object_written, demoReports_location. }
  destruct (Storage.currentUser ls2) as [saved|] eqn:Hsaved;
    apply show_well_typed; try exact Hls2.
  - intros u [= <-]. by apply Hls2.
  - intros u [=].
Qed.

Lemma setCurrentUser_typed (u : obj) (ls : Storage.LocalStorage) :
  storage_typed ls -> string_id u ->
  storage_typed (Storage.setCurrentUser u ls).
Proof.
  intros (Hu & Hi & Hr & Hl & _) Hid.
  do 4 (split; [assumption|]).
  intros u' [= <-]. split; [apply stringify_parse_obj_is_json|].
  by apply string_id_written.
Qed.

Lemma handleLogin_well_typed (email password : string) (w : App.World) :
  well_typed w -> well_typed (App.handleLogin email password w).1.
Proof.
  intros Hw. destruct (App.handleLogin email password w).2 eqn:Hok.
  - destruct (handleLogin_found email password w Hok) as (user & Hin & _ & _ & ->).
    cbn [fst].
    assert (string_id (delete "password" user)) as Hid.
    { apply string_id_without_password.
      destruct Hw as ((_ & Hi & _) & _). rewrite Forall_forall in Hi. by apply Hi. }
    apply show_well_typed.
    + apply setCurrentUser_typed; [apply Hw | exact Hid].
    + by intros u [= <-].
  - unfold App.handleLogin in *. destruct (find _ _); [discriminate|]. exact Hw.
Qed.

Lemma handleRegister_well_typed (now : Z) (email password name : string)
    (isAdmin : bool) (w : App.World) :
  well_typed w -> well_typed (App.handleRegister now email password name isAdmin w).
Proof.
  intros ((Hu & Hi & Hr & Hl & Hc) & _). unfold App.handleRegister.
  pose proof (newUser_stored_user (pretty now) email password name isAdmin) as Hnew.
  pose proof (newUser_string_id (pretty now) email password name isAdmin) as Hnewid.
  apply show_well_typed.
  - apply setCurrentUser_typed; [|by apply string_id_without_password].
    unfold storage_typed.
    change (Storage.getUsers (Storage.setUsers ?l ?ls)) with (stringify_parse_obj <$> l).
    rewrite is_json_fmap.
    + split; [apply Forall_app; split; [exact Hu | by constructor]|].
      split; [apply Forall_app; split; [exact Hi | by constructor]|].
      split; [exact Hr|]. split; [exact Hl | exact Hc].
    + apply stored_user_is_json, Forall_app. split; [exact Hu | by constructor].
  - intros u [= <-]. by apply string_id_without_password.
Qed.

Lemma handleLogout_well_typed (w : App.World) :
  well_typed w -> well_typed (App.handleLogout w).
Proof.
  intros ((Hu & Hi & Hr & Hl & _) & _). apply show_well_typed; [|intros u [=]].
  do 4 (split; [assumption|]). intros u [=].
Qed.

Lemma setReports_typed (l : list obj) (ls : Storage.LocalStorage) :
  storage_typed ls -> Forall location_object l ->
  storage_typed (Storage.setReports l ls).
Proof.
  intros (Hu & Hi & _ & _ & Hc) Hl.
  split; [exact Hu|]. split; [exact Hi|].
  split; [apply Forall_is_json_written|].
  split; [|exact Hc].
  rewrite getReports_setReports. by apply Forall_location_object_written.
Qed.

Lemma UserHome_handle_typed (user : obj) (e : UserHome.Event)
    (ls : Storage.LocalStorage) (st : UserHome.State) :
  storage_typed ls -> storage_typed (UserHome.handle user e ls st).1.
Proof.
  intros Hls. destruct e; try exact Hls.
  cbn [UserHome.handle]. unfold UserHome.submitReport.
  destruct (_ || _ || _); [exact Hls|].
  destruct (_ && _); [exact Hls|].
  cbn [fst]. apply setReports_typed; [exact Hls|].
  apply Forall_app. split; [apply Hls|].
  constructor; [apply newReport_location | constructor].
Qed.

Lemma AdminHome_handle_typed (user : obj) (e : AdminHome.Event)
    (ls : Storage.LocalStorage) (st : AdminHome.State) :
  storage_typed ls ->
  Forall location_object (AdminHome.reports st) ->
  storage_typed (AdminHome.handle user e ls st).1
  /\ exists st', (AdminHome.handle user e ls st).2 = Some st'
                 /\ Forall location_object (AdminHome.reports st').
Proof.
  intros Hls Hst.
  assert (forall st0, AdminHome.reports st0 = AdminHome.reports st ->
            exists st', AdminHome.runFilterEffect st0 = Some st'
                        /\ Forall location_object (AdminHome.reports st')) as Hrun.
  { intros st0 Hst0.
    destruct (runFilterEffect_runs st0) as (st' & Hst' & Hr); [by rewrite Hst0|].
    exists st'. split; [exact Hst'|]. by rewrite Hr, Hst0. }
  assert (forall id status dep com,
            let r := AdminHome.updateReportStatus user id status dep com ls st in
            storage_typed r.1
            /\ exists st', AdminHome.runFilterEffect r.2 = Some st'
                           /\ Forall location_object (AdminHome.reports st')) as Hupd.
  { intros id status dep com. cbn zeta.
    pose proof (updatedReports_location user id status dep com _ Hst) as Hloc.
    split; [by apply setReports_typed|].
    destruct (runFilterEffect_runs
                (AdminHome.updateReportStatus user id status dep com ls st).2)
      as (st' & Hst' & Hr); [exact Hloc|].
    exists st'. split; [exact Hst'|]. by rewrite Hr. }
  destruct e; cbn [AdminHome.handle].
  1-3: split; [exact Hls | by apply Hrun].
  - split; [exact Hls|]. by eexists.
  - destruct (_ !! _); (split; [exact Hls|]); by eexists.
  - destruct (_ !! _); (split; [exact Hls|]); by eexists.
  - destruct (AdminHome.canUpdate st); [apply Hupd|].
    split; [exact Hls|]. by eexists.
  - destruct (AdminHome.canUpdate st); [apply Hupd|].
    split; [exact Hls|]. by eexists.
Qed.

Lemma step_well_typed (w : App.World) (e : App.Event) :
  well_typed w -> well_typed (App.step w e).
Proof.
  intros Hw. pose proof Hw as (Hls & Hcu & Hview & Hcrash). unfold App.step.
  destruct e.
  - by apply init_well_typed.
  - destruct (App.view w); try exact Hw. by apply handleLogin_well_typed.
  - destruct (App.view w); try exact Hw. by apply handleRegister_well_typed.
  - destruct (App.view w); try exact Hw. by apply show_well_typed.
  - destruct (App.view w); try exact Hw. by apply show_well_typed.
  - destruct (App.view w); try exact Hw; by apply handleLogout_well_typed.
  - destruct (App.view w) as [| |s| | |] eqn:Hv; try exact Hw.
    destruct (AdminHome_handle_typed (default ∅ (App.currentUser w)) e
                (App.localStorage w) s Hls (Hview s eq_refl))
      as (H1 & s' & H2 & H3).
    destruct (AdminHome.handle _ _ _ _) as [ls' o]. cbn [fst snd] in *. subst o.
    split; [exact H1|]. split; [exact Hcu|].
    split; [by intros s0 [= <-] | discriminate].
  - destruct (App.view w) as [| | |s| |] eqn:Hv; try exact Hw.
    pose proof (UserHome_handle_typed (default ∅ (App.currentUser w)) e
                  (App.localStorage w) s Hls) as H1.
    destruct (UserHome.handle _ _ _ _) as [ls' s'].
    split; [exact H1|]. split; [exact Hcu|].
    split; [intros s0 [=] | discriminate].
Qed.

Lemma empty_typed : storage_typed Storage.empty.
Proof. do 4 (split; [apply Forall_nil_2|]). intros u [=]. Qed.

(** Every world reached from an empty [localStorage] is well typed: the
    assumptions made on the stored data hold there, and the filter effect
    never throws. *)
Lemma reachable_well_typed (w : App.World) : App.reachable w -> well_typed w.
Proof.
  induction 1 as [twoDaysAgo oneDayAgo | w e _ IH].
  - apply init_well_typed, empty_typed.
  - by apply step_well_typed.
Qed.

Lemma reachable_storage_well_formed (w : App.World) :
  App.reachable w -> Storage.well_formed (App.localStorage w).
Proof.
  intros Hw. apply reachable_well_typed in Hw as ((Hu & _ & Hr & _ & Hc) & _).
  split; [by apply stored_user_is_json|]. split; [exact Hr|].
  intros u Hu'. by apply Hc.
Qed.

Lemma reachable_dashboard_has_location (w : App.World) (s : AdminHome.State) :
  App.reachable w -> App.view w = App.AdminPage s ->
  Forall has_location (AdminHome.reports s).
Proof.
  intros Hw Hv. apply reachable_well_typed in Hw as (_ & _ & Hview & _).
  eapply Forall_impl; [by apply Hview|]. apply location_object_has_location.
Qed.

Lemma reachable_users_stored (w : App.World) :
  App.reachable w -> Forall stored_user (Storage.getUsers (App.localStorage w)).
Proof. intros Hw. by apply reachable_well_typed in Hw as ((Hu & _) & _). Qed.

Lemma reachable_user_string_id (w : App.World) (u : obj) :
  App.reachable w -> App.currentUser w = Some u -> string_id u.
Proof. intros Hw. apply reachable_well_typed in Hw as (_ & Hcu & _). apply Hcu. Qed.

Lemma reachable_never_crashed (w : App.World) :
  App.reachable w -> App.view w <> App.Crashed.
Proof. intros Hw. by apply reachable_well_typed in Hw as (_ & _ & _ & Hc). Qed.

(* ===================================================================== *)
(** ** App: logging in, registering, reloading *)
(* ===================================================================== *)

Lemma credentials_match_spec (email password : string) (u : obj) :
  credentials_match email password u = true <-> has_credentials email password u.
Proof.
  unfold credentials_match, has_credentials.
  by rewrite andb_true_iff, !strict_eq_string, !is_string_spec.
Qed.

Lemma find_first {A : Type} (p : A -> bool) (l : list A) (x : A) :
  find p l = Some x <->
  exists i, l !! i = Some x /\ p x = true
            /\ forall j y, j < i -> l !! j = Some y -> p y = false.
Proof.
  induction l as [|a l IH]; cbn.
  - split; [discriminate | by intros (i & Hi & _)].
  - destruct (p a) eqn:Ha.
    + split.
      * intros [= <-]. exists 0. split; [done|]. split; [done|]. intros j y Hj. lia.
      * intros (i & Hi & Hx & Hbefore). destruct i as [|i]; [by injection Hi as ->|].
        specialize (Hbefore 0 a (Nat.lt_0_succ i) eq_refl). congruence.
    + rewrite IH. split.
      * intros (i & Hi & Hx & Hbefore). exists (S i). split; [done|]. split; [done|].
        intros [|j] y Hj Hy; [by injection Hy as <-|].
        apply (Hbefore j); [lia | done].
      * intros (i & Hi & Hx & Hbefore). destruct i as [|i].
        { injection Hi as ->. congruence. }
        exists i. split; [done|]. split; [done|].
        intros j y Hj Hy. apply (Hbefore (S j)); [lia | done].
Qed.

Lemma find_none {A : Type} (p : A -> bool) (l : list A) :
  find p l = None <-> forall x, x ∈ l -> p x = false.
Proof.
  split.
  - intros Hnone x Hx. apply list_elem_of_In in Hx. by apply (find_none p l).
  - intros Hall. induction l as [|a l IH]; [reflexivity|]. cbn.
    rewrite (Hall a) by apply list_elem_of_here.
    apply IH. intros x Hx. apply Hall. by apply list_elem_of_further.
Qed.

Lemma handleLogin_fold (email password : string) (w : App.World) :
  App.handleLogin email password w
  = match find (credentials_match email password)
            (Storage.getUsers (App.localStorage w)) with
    | Some user =>
        (App.show (Storage.setCurrentUser (delete "password" user) (App.localStorage w))
           App.authenticated (Some (delete "password" user)), true)
    | None => (w, false)
    end.
Proof. reflexivity. Qed.

Lemma handleLogin_true_iff (email password : string) (w : App.World) :
  (App.handleLogin email password w).2 = true
  <-> exists u, u ∈ Storage.getUsers (App.localStorage w)
                /\ has_credentials email password u.
Proof.
  rewrite handleLogin_fold.
  destruct (find _ _) as [user|] eqn:Hfind; cbn [snd].
  - apply find_first in Hfind as (i & Hi & Huser & _).
    split; [intros _|done]. exists user. split.
    + apply list_elem_of_lookup. by exists i.
    + by apply credentials_match_spec.
  - rewrite find_none in Hfind. split; [discriminate|]. intros (u & Hu & Hcred).
    apply credentials_match_spec in Hcred. rewrite (Hfind u Hu) in Hcred. discriminate.
Qed.

Lemma handleLogin_false (email password : string) (w : App.World) :
  (App.handleLogin email password w).2 = false ->
  (App.handleLogin email password w).1 = w.
Proof.
  rewrite handleLogin_fold. by destruct (find _ _).
Qed.

Lemma handleLogin_first (email password : string) (w : App.World) (i : nat) (u : obj) :
  Storage.getUsers (App.localStorage w) !! i = Some u ->
  has_credentials email password u ->
  (forall j v, j < i -> Storage.getUsers (App.localStorage w) !! j = Some v ->
               ~ has_credentials email password v) ->
  App.handleLogin email password w
  = (App.show (Storage.setCurrentUser (delete "password" u) (App.localStorage w))
       App.authenticated (Some (delete "password" u)), true).
Proof.
  intros Hi Hu Hbefore. rewrite handleLogin_fold.
  assert (find (credentials_match email password)
            (Storage.getUsers (App.localStorage w)) = Some u) as ->; [|reflexivity].
  apply find_first. exists i. split; [exact Hi|].
  split; [by apply credentials_match_spec|].
  intros j v Hj Hv. specialize (Hbefore j v Hj Hv).
  destruct (credentials_match email password v) eqn:Hm; [|reflexivity].
  destruct Hbefore. by apply credentials_match_spec.
Qed.

(** X1.  [handleLogin] succeeds exactly when some stored user has the
    email and the password; it then logs in the first such user of the
    store, without its password; otherwise it leaves the world, with its
    storage, as it is. *)
Theorem handleLogin_decides (email password : string) (w : App.World) :
  ((App.handleLogin email password w).2 = true
   <-> exists u, u ∈ Storage.getUsers (App.localStorage w)
                 /\ has_credentials email password u)
  /\ ((App.handleLogin email password w).2 = false ->
      (App.handleLogin email password w).1 = w)
  /\ (forall i u,
        Storage.getUsers (App.localStorage w) !! i = Some u ->
        has_credentials email password u ->
        (forall j v, j < i -> Storage.getUsers (App.localStorage w) !! j = Some v ->
                     ~ has_credentials email password v) ->
        App.handleLogin email password w
        = (App.show (Storage.setCurrentUser (delete "password" u) (App.localStorage w))
             App.authenticated (Some (delete "password" u)), true)).
Proof.
  split; [apply handleLogin_true_iff|].
  split; [apply handleLogin_false | apply handleLogin_first].
Qed.

Lemma handleLogin_decides_witness :
  (App.handleLogin "user@demo.com" "wrong" (App.init "" "" Storage.empty)).1
  = App.init "" "" Storage.empty.
Proof.
  refine (proj1 (proj2 (handleLogin_decides "user@demo.com" "wrong"
                          (App.init "" "" Storage.empty))) _).
  vm_compute. reflexivity.
Defined.

Lemma registeredUser_props (now : Z) (email password name : string) (isAdmin : bool) :
  let u := registeredUser now email password name isAdmin in
  prop u "id" = JStr (pretty now) /\ prop u "email" = JStr email
  /\ prop u "password" = JStr password /\ prop u "name" = JStr name
  /\ prop u "isAdmin" = JBool isAdmin.
Proof.
  unfold registeredUser, literal, prop. cbn [foldl fst snd].
  repeat split; repeat (rewrite lookup_insert_ne by done); by rewrite lookup_insert_eq.
Qed.

Lemma handleRegister_unfold (now : Z) (email password name : string)
    (isAdmin : bool) (w : App.World) :
  App.handleRegister now email password name isAdmin w
  = App.show
      (Storage.setCurrentUser
         (delete "password" (registeredUser now email password name isAdmin))
         (Storage.setUsers
            (Storage.getUsers (App.localStorage w)
               ++ [registeredUser now email password name isAdmin])
            (App.localStorage w)))
      App.authenticated
      (Some (delete "password" (registeredUser now email password name isAdmin))).
Proof. reflexivity. Qed.

Lemma getUsers_setUsers (l : list obj) (ls : Storage.LocalStorage) :
  Storage.getUsers (Storage.setUsers l ls) = stringify_parse_obj <$> l.
Proof. reflexivity. Qed.

Lemma registeredUser_is_json (now : Z) (email password name : string) (isAdmin : bool) :
  is_json (registeredUser now email password name isAdmin).
Proof. apply (newUser_stored_user (pretty now) email password name isAdmin). Qed.

Lemma handleRegister_users (now : Z) (email password name : string)
    (isAdmin : bool) (w : App.World) :
  Forall is_json (Storage.getUsers (App.localStorage w)) ->
  Storage.getUsers
    (App.localStorage (App.handleRegister now email password name isAdmin w))
  = Storage.getUsers (App.localStorage w)
    ++ [registeredUser now email password name isAdmin].
Proof.
  intros Hjson. rewrite handleRegister_unfold.
  cbn [App.show App.localStorage].
  change (Storage.getUsers (Storage.setCurrentUser ?u ?ls)) with (Storage.getUsers ls).
  rewrite getUsers_setUsers, is_json_fmap; [reflexivity|].
  apply Forall_app. split; [exact Hjson|].
  constructor; [apply registeredUser_is_json | constructor].
Qed.

(** X2.  [handleRegister] checks nothing: it appends the new user, with
    the password as typed, to the users store, whatever the store holds
    (also a user with the same email), and keeps the users already there
    and the reports. *)
Theorem handleRegister_appends (now : Z) (email password name : string)
    (isAdmin : bool) (w : App.World) :
  Forall is_json (Storage.getUsers (App.localStorage w)) ->
  let w' := App.handleRegister now email password name isAdmin w in
  let u := registeredUser now email password name isAdmin in
  Storage.getUsers (App.localStorage w') = Storage.getUsers (App.localStorage w) ++ [u]
  /\ prop u "id" = JStr (pretty now)
  /\ prop u "email" = JStr email
  /\ prop u "password" = JStr password
  /\ prop u "name" = JStr name
  /\ prop u "isAdmin" = JBool isAdmin
  /\ Storage.reports (App.localStorage w') = Storage.reports (App.localStorage w).
Proof.
  intros Hjson. cbn zeta.
  split; [by apply handleRegister_users|].
  split; [|split; [|split; [|split; [|split]]]];
    try apply registeredUser_props. reflexivity.
Qed.

Lemma handleRegister_appends_witness :
  Storage.getUsers
    (App.localStorage
       (App.handleRegister 7 "a@b.c" "secret" "A" false
          (App.show Storage.empty App.register None)))
  = Storage.getUsers (App.localStorage (App.show Storage.empty App.register None))
    ++ [registeredUser 7 "a@b.c" "secret" "A" false].
Proof.
  refine (proj1 (handleRegister_appends 7 "a@b.c" "secret" "A" false
                   (App.show Storage.empty App.register None) _)).
  constructor.
Defined.

(** X3.  A user who has registered can log in: after [handleRegister] and
    [handleLogout], [handleLogin] with the same email and password
    succeeds, and the user it logs in has that email and no password. *)
Theorem register_then_login (now : Z) (email password name : string)
    (isAdmin : bool) (w : App.World) :
  let w1 := App.handleLogout (App.handleRegister now email password name isAdmin w) in
  (App.handleLogin email password w1).2 = true
  /\ exists u, App.currentUser (App.handleLogin email password w1).1 = Some u
               /\ prop u "email" = JStr email
               /\ u !! "password" = None.
Proof.
  cbn zeta.
  set (w1 := App.handleLogout (App.handleRegister now email password name isAdmin w)).
  assert ((App.handleLogin email password w1).2 = true) as Hok.
  { apply handleLogin_true_iff.
    exists (stringify_parse_obj (registeredUser now email password name isAdmin)).
    split.
    - subst w1. rewrite handleRegister_unfold.
      change (Storage.getUsers (App.localStorage (App.handleLogout (App.show ?ls ?a ?u))))
        with (Storage.getUsers ls).
      change (Storage.getUsers (Storage.setCurrentUser ?u ?ls)) with (Storage.getUsers ls).
      rewrite getUsers_setUsers. apply list_elem_of_fmap_2, elem_of_app. right.
      apply list_elem_of_here.
    - split; apply prop_stringify_parse_string, registeredUser_props. }
  split; [exact Hok|].
  destruct (handleLogin_found email password w1 Hok) as (user & _ & Hemail & _ & ->).
  exists (delete "password" user). split; [reflexivity|]. split.
  - unfold prop in *. by rewrite lookup_delete_ne.
  - apply lookup_delete_eq.
Qed.

Lemma render_mount_admin (ls : Storage.LocalStorage) (u : obj) :
  truthy (prop u "isAdmin") = true ->
  exists s, App.render ls App.authenticated (Some u) = App.AdminPage s
            /\ AdminHome.reports s = Storage.getReports ls.
Proof.
  intros Hadmin. unfold App.render. rewrite Hadmin.
  destruct (mount_runs ls) as (s & -> & Hs). by exists s.
Qed.

(** X4.  The session is the [currentUser] key.  Reloading the page right
    after a successful login gives the same world again (the users store
    holding JSON objects and the reports key being present, as after any
    page load); reloading after [handleLogout] shows the login page with
    nobody logged in. *)
Theorem session_follows_storage (email password : string) (w : App.World)
    (twoDaysAgo oneDayAgo : string) :
  Forall is_json (Storage.getUsers (App.localStorage w)) ->
  is_Some (Storage.reports (App.localStorage w)) ->
  ((App.handleLogin email password w).2 = true ->
     App.init twoDaysAgo oneDayAgo
       (App.localStorage (App.handleLogin email password w).1)
     = (App.handleLogin email password w).1)
  /\ App.authState
       (App.init twoDaysAgo oneDayAgo (App.localStorage (App.handleLogout w)))
     = App.login
  /\ App.currentUser
       (App.init twoDaysAgo oneDayAgo (App.localStorage (App.handleLogout w)))
     = None
  /\ App.view
       (App.init twoDaysAgo oneDayAgo (App.localStorage (App.handleLogout w)))
     = App.LoginPage.
Proof.
  intros Hjson [rs Hrs]. split.
  - intros Hok.
    destruct (handleLogin_found email password w Hok) as (user & Hin & _ & _ & ->).
    cbn [fst App.show App.localStorage].
    assert (is_json user) as Huser by (rewrite Forall_forall in Hjson; by apply Hjson).
    assert (exists us, Storage.users (App.localStorage w) = Some us) as [us Hus].
    { unfold Storage.getUsers in Hin.
      destruct (Storage.users (App.localStorage w)); [by eexists|].
      by apply not_elem_of_nil in Hin. }
    unfold App.init, Storage.setCurrentUser.
    cbn [Storage.users Storage.reports Storage.currentUser]. rewrite Hus, Hrs.
    cbn [Storage.users Storage.reports Storage.currentUser].
    rewrite (is_json_delete user "password" Huser). reflexivity.
  - unfold App.init, App.handleLogout.
    destruct (App.localStorage w) as [us0 rs0 cu0].
    cbn [Storage.reports] in Hrs. subst rs0.
    destruct us0;
      cbn [Storage.users Storage.reports Storage.currentUser Storage.setUsers
           Storage.removeCurrentUser App.show App.localStorage App.authState
           App.currentUser App.view App.render];
      done.
Qed.

Lemma session_follows_storage_witness :
  App.init "" "" (App.localStorage adminWorld) = adminWorld.
Proof.
  refine (proj1 (session_follows_storage "admin@demo.com" "admin123"
                   (App.init "" "" Storage.empty) "" "" _ _) _).
  - apply stored_user_is_json, reachable_users_stored, App.reachable_init.
  - by eexists.
  - vm_compute. reflexivity.
Defined.

(** X5.  Loading the page seeds the demo data only under a key that is
    absent: afterwards both keys are present, a key that was present keeps
    its content, the saved user is untouched, and loading again changes
    nothing in the storage. *)
Theorem init_seeds_once (twoDaysAgo oneDayAgo : string) (ls : Storage.LocalStorage) :
  let ls' := App.localStorage (App.init twoDaysAgo oneDayAgo ls) in
  is_Some (Storage.users ls') /\ is_Some (Storage.reports ls')
  /\ (is_Some (Storage.users ls) -> Storage.users ls' = Storage.users ls)
  /\ (is_Some (Storage.reports ls) -> Storage.reports ls' = Storage.reports ls)
  /\ Storage.currentUser ls' = Storage.currentUser ls
  /\ (forall a b, App.localStorage (App.init a b ls') = ls').
Proof.
  cbn zeta. unfold App.init.
  destruct ls as [[us|] [rs|] [cu|]];
    cbn [Storage.users Storage.reports Storage.currentUser Storage.setUsers
         Storage.setReports App.show App.localStorage];
    (split; [by eexists|]); (split; [by eexists|]);
    (split; [by intros [? [=]] || done|]); (split; [by intros [? [=]] || done|]);
    (split; [reflexivity|]); intros a b; reflexivity.
Qed.

Lemma init_seeds_once_witness :
  Storage.users
    (App.localStorage
       (App.init "" "" (Storage.setUsers [] Storage.empty)))
  = Storage.users (Storage.setUsers [] Storage.empty).
Proof.
  refine (proj1 (proj2 (proj2 (init_seeds_once "" "" (Storage.setUsers [] Storage.empty)))) _).
  by eexists.
Defined.

(* ===================================================================== *)
(** ** UserHome: images, submissions, the log *)
(* ===================================================================== *)

Lemma filter_from_past {A : Type} (index i : nat) (l : list A) :
  index < i ->
  filter_from (fun _ j => negb (Nat.eqb j index)) i l = l.
Proof.
  revert i. induction l as [|x l IH]; intros i Hi; [reflexivity|].
  cbn [filter_from]. destruct (Nat.eqb_spec i index) as [->|_]; [lia|].
  cbn [negb]. by rewrite IH by lia.
Qed.

Lemma filter_from_removeAt {A : Type} (index i : nat) (l : list A) :
  i <= index ->
  filter_from (fun _ j => negb (Nat.eqb j index)) i l = UserHome.removeAt (index - i) l.
Proof.
  revert i. induction l as [|x l IH]; intros i Hi.
  - by destruct (index - i).
  - cbn [filter_from]. destruct (Nat.eqb_spec i index) as [->|Hne]; cbn [negb].
    + rewrite Nat.sub_diag. cbn [UserHome.removeAt]. apply filter_from_past. lia.
    + replace (index - i) with (S (index - S i)) by lia.
      cbn [UserHome.removeAt]. by rewrite IH by lia.
Qed.

Lemma removeAt_lookup {A : Type} (index j : nat) (l : list A) :
  UserHome.removeAt index l !! j = if decide (j < index) then l !! j else l !! S j.
Proof.
  revert index j. induction l as [|x l IH]; intros index j.
  - destruct index; by case_decide.
  - destruct index as [|index]; cbn [UserHome.removeAt].
    + case_decide; [lia | reflexivity].
    + destruct j as [|j]; [case_decide; [reflexivity | lia]|].
      cbn [lookup list_lookup]. rewrite IH.
      repeat case_decide; try lia; reflexivity.
Qed.

Lemma removeAt_length {A : Type} (index : nat) (l : list A) :
  index < length l -> S (length (UserHome.removeAt index l)) = length l.
Proof.
  revert index. induction l as [|x l IH]; intros index Hi; cbn in *; [lia|].
  destruct index as [|index]; [reflexivity|]. cbn. rewrite IH; lia.
Qed.

Lemma removeAt_out_of_range {A : Type} (index : nat) (l : list A) :
  length l <= index -> UserHome.removeAt index l = l.
Proof.
  revert index. induction l as [|x l IH]; intros index Hi; [by destruct index|].
  destruct index as [|index]; cbn in *; [lia|]. rewrite IH; [reflexivity | lia].
Qed.

Lemma removeAt_last {A : Type} (l : list A) (x : A) :
  UserHome.removeAt (length l) (l ++ [x]) = l.
Proof. induction l as [|y l IH]; [reflexivity|]. cbn. by rewrite IH. Qed.

(** X6.  [removeImageAtIndex] removes the image at the index and nothing
    else: the list it keeps is the filter on [i !== index], the images
    before the index stay where they are and the later ones move up by
    one, an index past the end changes nothing, and removing the image
    that was just added gives the list back. *)
Theorem removeAt_spec {A : Type} (index : nat) (l : list A) :
  UserHome.removeAt index l = filter_indexed (fun _ i => negb (Nat.eqb i index)) l
  /\ (forall j, UserHome.removeAt index l !! j
                = if decide (j < index) then l !! j else l !! S j)
  /\ (index < length l -> S (length (UserHome.removeAt index l)) = length l)
  /\ (length l <= index -> UserHome.removeAt index l = l)
  /\ (forall x, UserHome.removeAt (length l) (l ++ [x]) = l).
Proof.
  split.
  { unfold filter_indexed. rewrite filter_from_removeAt by lia. by rewrite Nat.sub_0_r. }
  split; [intros j; apply removeAt_lookup|].
  split; [apply removeAt_length|].
  split; [apply removeAt_out_of_range | apply removeAt_last].
Qed.

Lemma removeAt_spec_witness :
  S (length (UserHome.removeAt 1 ["a"; "b"; "c"])) = length ["a"; "b"; "c"].
Proof.
  refine (proj1 (proj2 (proj2 (removeAt_spec 1 ["a"; "b"; "c"]))) _). cbn. lia.
Defined.

Lemma take_app_take {A : Type} (n : nat) (a b : list A) :
  take n (a ++ take n b) = take n (a ++ b).
Proof.
  rewrite !take_app, take_take. f_equal. f_equal. lia.
Qed.

Lemma pushLog_fold (entries : list (string * string)) (log : list string) :
  foldl (fun log e => UserHome.pushLog e.1 e.2 log) (take 40 log) entries
  = take 40 (reverse ((fun e => String.append e.1 (String.append " - " e.2)) <$> entries)
             ++ log).
Proof.
  revert log. induction entries as [|e entries IH]; intros log; [reflexivity|].
  cbn [foldl fmap list_fmap]. unfold UserHome.pushLog at 2.
  rewrite IH, reverse_cons, <- app_assoc. cbn [app].
  change (String.append e.1 (String.append " - " e.2) :: take 40 log)
    with ([String.append e.1 (String.append " - " e.2)] ++ take 40 log).
  rewrite app_assoc, take_app_take, <- app_assoc. reflexivity.
Qed.

(** X7.  The debug log keeps the newest entries only: after any sequence
    of [pushLog] calls on the empty log, the log is the 40 most recent
    entries, the newest first, each the time, [" - "] and the message; so
    it never holds more than 40. *)
Theorem pushLog_keeps_newest (entries : list (string * string)) :
  let log := foldl (fun log e => UserHome.pushLog e.1 e.2 log) [] entries in
  log = take 40 (reverse ((fun e => String.append e.1 (String.append " - " e.2))
                            <$> entries))
  /\ length log <= 40.
Proof.
  cbn zeta. pose proof (pushLog_fold entries []) as H.
  rewrite app_nil_r in H. cbn [take] in H. rewrite H.
  split; [reflexivity|]. rewrite length_take. lia.
Qed.

Lemma owned_written (user report : obj) (uid : string) :
  prop user "id" = JStr uid -> prop report "userId" = JStr uid ->
  strict_eq (prop (stringify_parse_obj report) "userId") (prop user "id") = true.
Proof.
  intros Hid Hr. rewrite Hid, (prop_stringify_parse_string _ _ _ Hr).
  rewrite strict_eq_string. by apply is_string_spec.
Qed.

Lemma loadReports_is_json (user : obj) (ls : Storage.LocalStorage) :
  Forall is_json (Storage.getReports ls) ->
  Forall is_json (UserHome.loadReports user ls).
Proof.
  intros Hjson. unfold UserHome.loadReports. rewrite Forall_forall in *.
  intros r Hr. apply Hjson. apply list_elem_of_In in Hr.
  apply filter_In in Hr as [Hr _]. by apply list_elem_of_In.
Qed.

(** X8.  What the citizen sees after a submission is what a reload shows:
    for a user with a string id and a form that passes validation, the
    reports loaded from the new store are those loaded before and the new
    report, and the list in the page (which started as the loaded one) is
    that list up to the JSON round trip; the count in the tab grows by
    one. *)
Theorem submit_then_reload (user : obj) (uid : string) (now : Z) (iso : string)
    (ls : Storage.LocalStorage) (st : UserHome.State) :
  prop user "id" = JStr uid ->
  passes_validation (UserHome.formData st) (UserHome.location st) ->
  Forall is_json (Storage.getReports ls) ->
  UserHome.reports st = UserHome.loadReports user ls ->
  let r := UserHome.submitReport user now iso ls st in
  let report := UserHome.newReport user now iso (UserHome.formData st)
                  (UserHome.location st) in
  UserHome.loadReports user r.1
    = UserHome.loadReports user ls ++ [stringify_parse_obj report]
  /\ stringify_parse_obj <$> UserHome.reports r.2 = UserHome.loadReports user r.1
  /\ UserHome.reports (UserHome.mount user r.1) = UserHome.loadReports user r.1
  /\ myReportsCount r.2 = S (myReportsCount st).
Proof.
  intros Hid Hok Hjson Hst. cbn zeta.
  assert (UserHome.loadReports user (UserHome.submitReport user now iso ls st).1
          = UserHome.loadReports user ls
            ++ [stringify_parse_obj
                  (UserHome.newReport user now iso (UserHome.formData st)
                     (UserHome.location st))]) as Hload.
  { unfold UserHome.loadReports.
    rewrite (submitReport_appends user now iso ls st Hjson Hok), List.filter_app.
    f_equal. cbn [List.filter].
    rewrite (owned_written user _ uid Hid); [reflexivity|].
    by rewrite newReport_userId. }
  assert (UserHome.reports (UserHome.submitReport user now iso ls st).2
          = UserHome.reports st
            ++ [UserHome.newReport user now iso (UserHome.formData st)
                  (UserHome.location st)]) as Hrep
    by (by rewrite (submitReport_accepted _ _ _ _ _ Hok)).
  split; [exact Hload|]. split; [|split; [reflexivity|]].
  - rewrite Hload, Hrep, Hst, fmap_app, is_json_fmap
      by (by apply loadReports_is_json).
    reflexivity.
  - unfold myReportsCount. rewrite Hrep, length_app. cbn. lia.
Qed.

Lemma submit_then_reload_witness :
  UserHome.loadReports strayUser
    (UserHome.submitReport strayUser 0 "" Storage.empty
       (filledPage strayUser Storage.empty)).1
  = UserHome.loadReports strayUser Storage.empty
    ++ [stringify_parse_obj (UserHome.newReport strayUser 0 "" filledForm None)].
Proof.
  refine (proj1 (submit_then_reload strayUser "99" 0 "" Storage.empty
                   (filledPage strayUser Storage.empty) _ _ _ _)).
  - reflexivity.
  - apply filledForm_passes.
  - constructor.
  - reflexivity.
Defined.

Lemma emptyForm_fails (location : option UserHome.Coords) :
  ~ passes_validation UserHome.emptyForm location.
Proof. by intros [H _]. Qed.

(** X9.  Two calls of [submitReport] in a row store at most one report:
    whatever the first call did, the second call, on the state the first
    left, only sets an error alert and leaves the storage and the user's
    list as the first call left them (a successful call empties the
    form). *)
Theorem submitReport_twice (user : obj) (now now' : Z) (iso iso' : string)
    (ls : Storage.LocalStorage) (st : UserHome.State) :
  let r1 := UserHome.submitReport user now iso ls st in
  let r2 := UserHome.submitReport user now' iso' r1.1 r1.2 in
  r2.1 = r1.1
  /\ UserHome.reports r2.2 = UserHome.reports r1.2
  /\ exists m, UserHome.alert r2.2
               = Some {| UserHome.type := UserHome.error; UserHome.message := m |}.
Proof.
  cbn zeta.
  set (r1 := UserHome.submitReport user now iso ls st).
  assert (~ passes_validation (UserHome.formData r1.2) (UserHome.location r1.2)) as Hbad.
  { subst r1.
    destruct (decide (missing_fields (UserHome.formData st) = false
                      /\ missing_place (UserHome.formData st) (UserHome.location st) = false))
      as [Hok|Hno].
    - apply validation_checks in Hok.
      rewrite (submitReport_accepted _ _ _ _ _ Hok). apply emptyForm_fails.
    - rewrite <- validation_checks in Hno.
      destruct (submitReport_rejected user now iso ls st Hno) as [m ->]. exact Hno. }
  destruct (submitReport_rejected user now' iso' r1.1 r1.2 Hbad) as [m ->].
  split; [reflexivity|]. split; [reflexivity|]. by exists m.
Qed.

(* ===================================================================== *)
(** ** AdminHome: the district options, the category rows, the buttons *)
(* ===================================================================== *)

Lemma existsb_same_string (d : string) (set : list string) :
  existsb (same_value_zero (JStr d)) (JStr <$> set) = bool_decide (d ∈ set).
Proof.
  induction set as [|x set IH]; [reflexivity|].
  cbn [fmap list_fmap existsb same_value_zero strict_eq]. rewrite IH.
  destruct (String.eqb_spec d x) as [->|Hne]; cbn [orb].
  - symmetry. apply bool_decide_eq_true. apply list_elem_of_here.
  - destruct (decide (d ∈ set)) as [Hin|Hout].
    + rewrite !bool_decide_eq_true_2; [done| by apply list_elem_of_further | done].
    + rewrite !bool_decide_eq_false_2; [done| |done].
      rewrite elem_of_cons. by intros [].
Qed.

Lemma new_Set_strings_from (set ds : list string) :
  foldl (fun set v => if existsb (same_value_zero v) set then set else set ++ [v])
    (JStr <$> set) (JStr <$> ds)
  = JStr <$> foldl add_string set ds.
Proof.
  revert set. induction ds as [|d ds IH]; intros set; [reflexivity|].
  cbn [fmap list_fmap foldl]. rewrite existsb_same_string. unfold add_string at 2.
  destruct (bool_decide (d ∈ set)); [apply IH|].
  rewrite <- IH. by rewrite fmap_app.
Qed.

Lemma new_Set_strings (ds : list string) :
  new_Set (JStr <$> ds) = JStr <$> foldl add_string [] ds.
Proof. apply (new_Set_strings_from []). Qed.

Lemma add_strings_spec (set ds : list string) :
  NoDup set ->
  NoDup (foldl add_string set ds)
  /\ forall d, d ∈ foldl add_string set ds <-> d ∈ set \/ d ∈ ds.
Proof.
  revert set. induction ds as [|x ds IH]; intros set Hset; cbn [foldl].
  - split; [exact Hset|]. intros d. rewrite elem_of_nil. tauto.
  - unfold add_string at 2 4. case_bool_decide as Hx.
    + destruct (IH set Hset) as [Hnd Hmem]. split; [exact Hnd|].
      intros d. rewrite Hmem, elem_of_cons. split; [tauto|].
      intros [?|[->|?]]; tauto.
    + destruct (IH (set ++ [x])) as [Hnd Hmem].
      { apply NoDup_app. split; [exact Hset|]. split; [|apply NoDup_singleton].
        intros y Hy ->%list_elem_of_singleton. contradiction. }
      split; [exact Hnd|].
      intros d. rewrite Hmem, elem_of_app, list_elem_of_singleton, elem_of_cons. tauto.
Qed.

Lemma filter_truthy_strings (l : list string) :
  List.filter truthy (JStr <$> l) = JStr <$> List.filter nonempty l.
Proof.
  induction l as [|s l IH]; [reflexivity|].
  cbn [fmap list_fmap List.filter]. rewrite IH. unfold nonempty.
  by destruct (truthy (JStr s)).
Qed.

Lemma getUniqueValues_district_strings (reports : list obj) (districts : list string) :
  districts_are reports districts ->
  AdminHome.getUniqueValues "district" reports
  = Some (JStr <$> List.filter nonempty (foldl add_string [] districts)).
Proof.
  intros Hds. unfold AdminHome.getUniqueValues. cbn [String.eqb Ascii.eqb Bool.eqb].
  rewrite (mapM_Some_2 _ reports (JStr <$> districts)).
  - by rewrite new_Set_strings, filter_truthy_strings.
  - by apply Forall2_fmap_r.
Qed.

(** X10.  The district options of the filter: when every report has a
    string district, [getUniqueValues('district')] lists each non-empty
    district of the reports, once; the empty district is not offered. *)
Theorem getUniqueValues_district (reports : list obj) (districts : list string) :
  districts_are reports districts ->
  exists options : list string,
    AdminHome.getUniqueValues "district" reports = Some (JStr <$> options)
    /\ NoDup options
    /\ forall d, d ∈ options <-> d ∈ districts /\ d <> "".
Proof.
  intros Hds. exists (List.filter nonempty (foldl add_string [] districts)).
  split; [by apply getUniqueValues_district_strings|].
  destruct (add_strings_spec [] districts (NoDup_nil_2)) as [Hnd Hmem].
  split.
  - eapply sublist_NoDup; [exact Hnd | apply filter_sublist].
  - intros d. rewrite list_elem_of_In, filter_In, <- list_elem_of_In, Hmem.
    rewrite nonempty_spec, elem_of_nil. tauto.
Qed.

Lemma demoReports_districts :
  districts_are (App.demoReports "" "") ["New Delhi"; "New Delhi"].
Proof. repeat constructor. Qed.

Lemma getUniqueValues_district_witness :
  exists options : list string,
    AdminHome.getUniqueValues "district" (App.demoReports "" "")
    = Some (JStr <$> options)
    /\ NoDup options
    /\ forall d, d ∈ options <-> d ∈ ["New Delhi"; "New Delhi"] /\ d <> "".
Proof.
  exact (getUniqueValues_district (App.demoReports "" "") ["New Delhi"; "New Delhi"]
           demoReports_districts).
Defined.

Lemma districts_have_location (reports : list obj) (districts : list string) :
  districts_are reports districts -> Forall has_location reports.
Proof.
  induction 1 as [|r d reports districts Hr _ IH]; constructor; [|exact IH].
  unfold has_location. rewrite Hr. by eexists.
Qed.

(** X11.  Every district that the filter offers selects something: with
    the other two filters on ['all'], choosing an offered district gives a
    non-empty list, each report of which has that district, unless the
    district is itself named ['all'], which the effect takes for "no
    filter" and answers with every report. *)
Theorem offered_district_selects (reports : list obj) (districts : list string)
    (options : list jsval) (d : string) :
  districts_are reports districts ->
  AdminHome.getUniqueValues "district" reports = Some options ->
  JStr d ∈ options ->
  exists filtered,
    AdminHome.applyFilters reports
      {| AdminHome.status := "all"; AdminHome.category := "all";
         AdminHome.district := d |} = Some filtered
    /\ filtered <> []
    /\ (d <> "all" ->
        forall r, r ∈ filtered ->
          member (prop r "location") "district" = Some (JStr d))
    /\ (d = "all" -> filtered = reports).
Proof.
  intros Hds Hopt Hd.
  rewrite (getUniqueValues_district_strings _ _ Hds) in Hopt. injection Hopt as <-.
  apply list_elem_of_fmap in Hd as (d' & [= <-] & Hd).
  apply list_elem_of_In, filter_In in Hd as [Hd _]. apply list_elem_of_In in Hd.
  apply (add_strings_spec [] districts NoDup_nil_2) in Hd as [Hd|Hd];
    [by apply not_elem_of_nil in Hd|].
  apply list_elem_of_lookup in Hd as [i Hi].
  destruct (Forall2_lookup_r _ _ _ _ _ Hds Hi) as (r & Hr & Hrd).
  set (filters := {| AdminHome.status := "all"; AdminHome.category := "all";
                     AdminHome.district := d |}).
  exists (List.filter (satisfies filters) reports).
  split; [apply applyFilters_filter; intros _; by eapply districts_have_location|].
  split; [|split].
  - assert (In r (List.filter (satisfies filters) reports)) as Hin.
    { apply filter_In. split; [apply list_elem_of_In, list_elem_of_lookup; by exists i|].
      apply satisfies_spec. split; [done|]. split; [done|]. by intros _. }
    intros Hnil. by rewrite Hnil in Hin.
  - intros Hne r' Hr'. apply list_elem_of_In, filter_In in Hr' as [_ Hsat].
    apply satisfies_spec in Hsat as (_ & _ & Hdis). by apply Hdis.
  - intros ->. rewrite <- (filter_all reports) at 2. apply filter_ext.
    intros r'. reflexivity.
Qed.

Lemma offered_district_selects_witness :
  exists filtered,
    AdminHome.applyFilters (App.demoReports "" "")
      {| AdminHome.status := "all"; AdminHome.category := "all";
         AdminHome.district := "New Delhi" |} = Some filtered
    /\ filtered <> []
    /\ ("New Delhi" <> "all" ->
        forall r, r ∈ filtered ->
          member (prop r "location") "district" = Some (JStr "New Delhi"))
    /\ ("New Delhi" = "all" -> filtered = App.demoReports "" "").
Proof.
  refine (offered_district_selects (App.demoReports "" "") ["New Delhi"; "New Delhi"]
            [JStr "New Delhi"] "New Delhi" demoReports_districts _ _).
  - vm_compute. reflexivity.
  - apply list_elem_of_here.
Defined.

Lemma categoryCount_cons (r : obj) (reports : list obj) (c : string) :
  AdminHome.categoryCount (r :: reports) c
  = (if is_string (prop r "category") c then 1 else 0)
    + AdminHome.categoryCount reports c.
Proof.
  unfold AdminHome.categoryCount. cbn [List.filter]. rewrite strict_eq_string.
  by destruct (is_string _ _).
Qed.

Lemma category_rows_of_one (v : jsval) :
  sum_list ((fun c => if is_string v c then 1 else 0) <$> AdminHome.categories)
  = if existsb (is_string v) AdminHome.categories then 1 else 0.
Proof.
  destruct v; try reflexivity.
  unfold AdminHome.categories.
  cbn [fmap list_fmap sum_list_with id existsb is_string].
  repeat case_bool_decide; subst; try discriminate; reflexivity.
Qed.

Lemma sum_list_add {A : Type} (f g : A -> nat) (l : list A) :
  sum_list ((fun x => f x + g x) <$> l) = sum_list (f <$> l) + sum_list (g <$> l).
Proof.
  induction l as [|x l IH]; [reflexivity|].
  cbn [fmap list_fmap sum_list_with id] in *. rewrite IH. lia.
Qed.

Lemma count_if_le {A : Type} (p : A -> bool) (l : list A) : count_if p l <= length l.
Proof. induction l as [|x l IH]; cbn; [lia|]. destruct (p x); lia. Qed.

Lemma count_if_all {A : Type} (p : A -> bool) (l : list A) :
  Forall (fun x => p x = true) l -> count_if p l = length l.
Proof. induction 1 as [|x l Hx _ IH]; cbn; [reflexivity|]. rewrite Hx, IH. lia. Qed.

(** X12.  The rows of "Reports by Category" count each report at most
    once: the six counts add up to the number of reports whose category is
    one of the six, so to the number of reports when every category is
    listed, and a report with another category is in no row. *)
Theorem categoryCount_partition (reports : list obj) :
  sum_list (AdminHome.categoryCount reports <$> AdminHome.categories)
  = count_if listed_category reports
  /\ count_if listed_category reports <= length reports
  /\ (Forall (fun r => listed_category r = true) reports ->
      sum_list (AdminHome.categoryCount reports <$> AdminHome.categories)
      = length reports).
Proof.
  assert (sum_list (AdminHome.categoryCount reports <$> AdminHome.categories)
          = count_if listed_category reports) as Hsum.
  { induction reports as [|r reports IH]; [reflexivity|].
    cbn [count_if]. rewrite <- IH. unfold listed_category at 1.
    rewrite <- (category_rows_of_one (prop r "category")), <- sum_list_add.
    f_equal. apply list_fmap_ext. intros _ c _. apply categoryCount_cons. }
  split; [exact Hsum|]. split; [apply count_if_le|].
  intros Hall. rewrite Hsum. by apply count_if_all.
Qed.

Lemma categoryCount_partition_witness :
  sum_list (AdminHome.categoryCount (App.demoReports "" "") <$> AdminHome.categories)
  = length (App.demoReports "" "").
Proof.
  refine (proj2 (proj2 (categoryCount_partition (App.demoReports "" ""))) _).
  repeat constructor.
Defined.

(* ===================================================================== *)
(** ** Invariants of the reachable worlds *)
(* ===================================================================== *)

(** The shapes of a step from a reachable world: to relate a world and
    its successor it is enough to relate it to each of them. *)
Lemma step_relates (R : App.World -> App.World -> Prop) :
  (forall w, App.reachable w -> R w w) ->
  (forall w a b, App.reachable w -> R w (App.init a b (App.localStorage w))) ->
  (forall w email password, App.reachable w -> App.view w = App.LoginPage ->
     R w (App.handleLogin email password w).1) ->
  (forall w now email password name isAdmin, App.reachable w ->
     App.view w = App.RegisterPage ->
     R w (App.handleRegister now email password name isAdmin w)) ->
  (forall w a, App.reachable w -> R w (App.setAuthState a w)) ->
  (forall w, App.reachable w -> R w (App.handleLogout w)) ->
  (forall w s e ls' s', App.reachable w -> App.view w = App.AdminPage s ->
     AdminHome.handle (default ∅ (App.currentUser w)) e (App.localStorage w) s
       = (ls', Some s') ->
     R w (App.setView ls' (App.AdminPage s') w)) ->
  (forall w s e, App.reachable w -> App.view w = App.UserPage s ->
     R w (App.setView
            (UserHome.handle (default ∅ (App.currentUser w)) e (App.localStorage w) s).1
            (App.UserPage
               (UserHome.handle (default ∅ (App.currentUser w)) e
                  (App.localStorage w) s).2)
            w)) ->
  forall w e, App.reachable w -> R w (App.step w e).
Proof.
  intros Hsame Hinit Hlogin Hregister Hswitch Hlogout Hadmin Huser w e Hw.
  unfold App.step. destruct e.
  - by apply Hinit.
  - destruct (App.view w) eqn:Hv; try (by apply Hsame). by apply Hlogin.
  - destruct (App.view w) eqn:Hv; try (by apply Hsame). by apply Hregister.
  - destruct (App.view w) eqn:Hv; try (by apply Hsame). by apply Hswitch.
  - destruct (App.view w) eqn:Hv; try (by apply Hsame). by apply Hswitch.
  - destruct (App.view w) eqn:Hv; try (by apply Hsame); by apply Hlogout.
  - destruct (App.view w) as [| |s| | |] eqn:Hv; try (by apply Hsame).
    pose proof (reachable_well_typed w Hw) as (Hls & _ & Hview & _).
    destruct (AdminHome_handle_typed (default ∅ (App.currentUser w)) e
                (App.localStorage w) s Hls (Hview s Hv)) as (_ & s' & Hs' & _).
    pose proof (Hadmin w s e) as Hstep.
    destruct (AdminHome.handle _ _ _ _) as [ls' o]. cbn [snd] in Hs'. subst o.
    by apply Hstep.
  - destruct (App.view w) as [| | |s| |] eqn:Hv; try (by apply Hsame).
    pose proof (Huser w s e Hw Hv) as Hstep.
    by destruct (UserHome.handle _ _ _ _) as [ls' s'].
Qed.

(** An invariant: true after the first page load, kept by every step from
    a reachable world. *)
Lemma reachable_invariant (P : App.World -> Prop) :
  (forall a b, P (App.init a b Storage.empty)) ->
  (forall w e, App.reachable w -> P w -> P (App.step w e)) ->
  forall w, App.reachable w -> P w.
Proof.
  intros Hinit Hstep w Hw. induction Hw as [a b | w e Hw IH]; [apply Hinit|].
  by apply Hstep.
Qed.

Lemma show_role (ls : Storage.LocalStorage) (a : App.AuthState) (user : option obj) :
  role_matches (App.show ls a user).
Proof.
  unfold role_matches. cbn [App.show App.view App.currentUser]. unfold App.render.
  destruct a; [by split|by split|].
  destruct user as [u|]; [|by split].
  destruct (truthy (prop u "isAdmin")) eqn:Hadmin.
  - split; [intros s _; by exists u|].
    by destruct (AdminHome.mount ls).
  - split; [discriminate | intros s _; by exists u].
Qed.

Lemma init_role (a b : string) (ls : Storage.LocalStorage) :
  role_matches (App.init a b ls).
Proof. unfold App.init. destruct (Storage.currentUser _); apply show_role. Qed.

Lemma step_role (w : App.World) (e : App.Event) :
  App.reachable w -> role_matches w -> role_matches (App.step w e).
Proof.
  intros Hw. revert w e Hw.
  apply (step_relates (fun w w' => role_matches w -> role_matches w')).
  - done.
  - intros w a b _ _. apply init_role.
  - intros w email password _ _ Hrole. rewrite handleLogin_fold.
    destruct (find _ _); [apply show_role | exact Hrole].
  - intros w now email password name isAdmin _ _ _. apply show_role.
  - intros w a _ _. apply show_role.
  - intros w _ _. apply show_role.
  - intros w s e ls' s' _ Hv _ [Hadmin _].
    split; [intros s0 _; by apply (Hadmin s) | discriminate].
  - intros w s e _ Hv [_ Huser].
    split; [discriminate | intros s0 _; by apply (Huser s)].
Qed.

Lemma reachable_role (w : App.World) : App.reachable w -> role_matches w.
Proof.
  apply reachable_invariant; [intros a b; apply init_role | apply step_role].
Qed.

(** X15.  The dashboard is shown only to an administrator: in every world
    reached from an empty [localStorage], a rendered [AdminHome] means that
    a user is logged in whose [isAdmin] is truthy, and a rendered
    [UserHome] that one is logged in whose [isAdmin] is not. *)
Theorem reachable_role_matches (w : App.World) :
  App.reachable w ->
  (forall s, App.view w = App.AdminPage s ->
     exists u, App.currentUser w = Some u /\ truthy (prop u "isAdmin") = true)
  /\ (forall s, App.view w = App.UserPage s ->
        exists u, App.currentUser w = Some u /\ truthy (prop u "isAdmin") = false).
Proof. apply reachable_role. Qed.

Lemma reachable_role_matches_witness :
  (forall s, App.view adminWorld = App.AdminPage s ->
     exists u, App.currentUser adminWorld = Some u
               /\ truthy (prop u "isAdmin") = true)
  /\ (forall s, App.view adminWorld = App.UserPage s ->
        exists u, App.currentUser adminWorld = Some u
                  /\ truthy (prop u "isAdmin") = false).
Proof. exact (reachable_role_matches adminWorld adminWorld_reachable). Defined.



Lemma init_present (a b : string) (ls : Storage.LocalStorage) :
  is_Some (Storage.users ls) -> is_Some (Storage.reports ls) ->
  App.init a b ls
  = match Storage.currentUser ls with
    | Some savedUser => App.show ls App.authenticated (Some savedUser)
    | None => App.show ls App.login None
    end.
Proof. intros [us Hus] [rs Hrs]. unfold App.init. by rewrite Hus, Hrs. Qed.

Lemma show_dashboard (ls : Storage.LocalStorage) (a : App.AuthState)
    (user : option obj) (s : AdminHome.State) :
  App.view (App.show ls a user) = App.AdminPage s ->
  AdminHome.reports s = Storage.getReports ls.
Proof.
  cbn [App.show App.view]. unfold App.render.
  destruct a; try discriminate.
  destruct user as [u|]; [|discriminate].
  destruct (truthy _); [|discriminate].
  destruct (mount_runs ls) as (s0 & -> & Hs0). by intros [= <-].
Qed.

Lemma AdminHome_handle_cases (user : obj) (e : AdminHome.Event)
    (ls ls' : Storage.LocalStorage) (st st' : AdminHome.State) :
  AdminHome.handle user e ls st = (ls', Some st') ->
  (ls' = ls /\ AdminHome.reports st' = AdminHome.reports st)
  \/ (exists id status department comments,
        ls' = Storage.setReports
                (AdminHome.updatedReports user id status department comments
                   (AdminHome.reports st)) ls
        /\ AdminHome.reports st'
           = AdminHome.updatedReports user id status department comments
               (AdminHome.reports st)).
Proof.
  destruct e; cbn [AdminHome.handle].
  1-3: intros [= <- Hst']; left; split; [reflexivity|];
       by apply runFilterEffect_reports in Hst'.
  - intros [= <- <-]. by left.
  - destruct (_ !! _); intros [= <- <-]; by left.
  - destruct (_ !! _); intros [= <- <-]; by left.
  - destruct (AdminHome.canUpdate st) as [sel|]; [|intros [= <- <-]; by left].
    cbn [fst snd]. intros [= <- Hst']. right.
    exists (prop sel "id"), AdminHome.InProgress, (Some "Public Works"), None.
    split; [reflexivity|]. by apply runFilterEffect_reports in Hst'.
  - destruct (AdminHome.canUpdate st) as [sel|]; [|intros [= <- <-]; by left].
    cbn [fst snd]. intros [= <- Hst']. right.
    exists (prop sel "id"), AdminHome.Resolved, (Some "Public Works"),
      (Some "Issue resolved successfully").
    split; [reflexivity|]. by apply runFilterEffect_reports in Hst'.
Qed.

Lemma UserHome_handle_cases (user : obj) (e : UserHome.Event)
    (ls : Storage.LocalStorage) (st : UserHome.State) :
  (UserHome.handle user e ls st).1 = ls
  \/ exists now iso,
       (UserHome.handle user e ls st).1
       = Storage.setReports
           (Storage.getReports ls
            ++ [UserHome.newReport user now iso (UserHome.formData st)
                  (UserHome.location st)]) ls.
Proof.
  destruct e; try by left.
  cbn [UserHome.handle]. unfold UserHome.submitReport.
  destruct (_ || _ || _); [by left|]. destruct (_ && _); [by left|].
  right. by exists now, iso.
Qed.

Lemma updatedReports_elem (user : obj) (id : jsval) (status : AdminHome.Status)
    (department comments : option string) (reports : list obj) (r' : obj) :
  r' ∈ AdminHome.updatedReports user id status department comments reports ->
  exists r, r ∈ reports
            /\ forall k, k ∉ triage_fields -> prop r' k = prop r k.
Proof.
  unfold AdminHome.updatedReports. intros (r & -> & Hr)%list_elem_of_fmap.
  exists r. split; [exact Hr|]. intros k Hk.
  destruct (strict_eq _ _); [|reflexivity].
  unfold prop. by rewrite withTriage_other.
Qed.

Lemma not_triage (k : string) :
  k <> "status" -> k <> "department" -> k <> "comments" -> k <> "assignedTo" ->
  k ∉ triage_fields.
Proof.
  intros. unfold triage_fields. rewrite !not_elem_of_cons.
  repeat split; try done. apply not_elem_of_nil.
Qed.

Lemma known_user_string (w : App.World) (id : jsval) :
  App.reachable w -> known_user (App.localStorage w) id -> exists s, id = JStr s.
Proof.
  intros Hw (u & Hu & <-).
  apply reachable_well_typed in Hw as ((_ & Hids & _) & _).
  rewrite Forall_forall in Hids. destruct (Hids u Hu) as [s Hs]. by exists s.
Qed.

Lemma known_user_users (ls ls' : Storage.LocalStorage) (id : jsval) :
  (forall u, u ∈ Storage.getUsers ls -> u ∈ Storage.getUsers ls') ->
  known_user ls id -> known_user ls' id.
Proof. intros Hsub (u & Hu & Hid). exists u. split; [by apply Hsub | exact Hid]. Qed.

Lemma show_integrity (ls : Storage.LocalStorage) (a : App.AuthState)
    (user : option obj) :
  storage_integrity ls ->
  (forall u, user = Some u -> known_user ls (prop u "id")) ->
  referential_integrity (App.show ls a user).
Proof.
  intros Hls Huser. split; [exact Hls|]. split; [exact Huser|].
  intros s r Hv Hr. apply show_dashboard in Hv.
  rewrite Hv in Hr. by apply Hls.
Qed.

Lemma setReports_integrity (w : App.World) (l : list obj) :
  App.reachable w ->
  storage_integrity (App.localStorage w) ->
  (forall r, r ∈ l -> known_user (App.localStorage w) (prop r "userId")) ->
  storage_integrity (Storage.setReports l (App.localStorage w)).
Proof.
  intros Hw (Hus & _ & _ & Hcu) Hl.
  split; [exact Hus|]. split; [by eexists|]. split; [|exact Hcu].
  intros r' Hr'. rewrite getReports_setReports in Hr'.
  apply list_elem_of_fmap in Hr' as (r & -> & Hr).
  specialize (Hl r Hr). destruct (known_user_string w _ Hw Hl) as [s Hs].
  rewrite (prop_stringify_parse_string _ _ _ Hs), <- Hs. exact Hl.
Qed.

Lemma init_empty_integrity (a b : string) :
  referential_integrity (App.init a b Storage.empty).
Proof.
  assert (known_user (Storage.setReports (App.demoReports a b)
                        (Storage.setUsers App.demoUsers Storage.empty)) (JStr "1"))
    as Hknown.
  { exists (stringify_parse_obj (App.demoUsers !!! 0%nat)). split.
    - apply (list_elem_of_fmap_2 stringify_parse_obj App.demoUsers), list_elem_of_here.
    - vm_compute. reflexivity. }
  change (App.init a b Storage.empty)
    with (App.show (Storage.setReports (App.demoReports a b)
                      (Storage.setUsers App.demoUsers Storage.empty))
            App.login None).
  apply show_integrity; [|intros u [=]].
  split; [by eexists|]. split; [by eexists|]. split; [|intros u [=]].
  intros r Hr. rewrite getReports_setReports in Hr.
  apply list_elem_of_fmap in Hr as (r0 & -> & Hr0).
  assert (prop r0 "userId" = JStr "1") as Hr0id.
  { unfold App.demoReports in Hr0.
    apply elem_of_cons in Hr0 as [->|Hr0];
      [|apply list_elem_of_singleton in Hr0 as ->];
      unfold literal, prop; cbn [foldl fst snd];
      repeat (rewrite lookup_insert_ne by done); by rewrite lookup_insert_eq. }
  by rewrite (prop_stringify_parse_string _ _ _ Hr0id).
Qed.

Lemma step_integrity (w : App.World) (e : App.Event) :
  App.reachable w -> referential_integrity w -> referential_integrity (App.step w e).
Proof.
  intros Hw. revert w e Hw.
  apply (step_relates (fun w w' => referential_integrity w -> referential_integrity w')).
  - done.
  - intros w a b _ (Hls & _). pose proof Hls as (Hus & Hrs & _ & Hcu).
    rewrite (init_present a b _ Hus Hrs).
    destruct (Storage.currentUser (App.localStorage w)) as [saved|] eqn:Hsaved;
      apply show_integrity; try exact Hls.
    + intros u [= <-]. by apply Hcu.
    + intros u [=].
  - intros w email password Hw _ Hint. rewrite handleLogin_fold.
    destruct (find _ _) as [user|] eqn:Hfind; [|exact Hint]. cbn [fst].
    apply find_first in Hfind as (i & Hi & _).
    assert (user ∈ Storage.getUsers (App.localStorage w)) as Hin
      by (apply list_elem_of_lookup; by exists i).
    assert (known_user (App.localStorage w) (prop (delete "password" user) "id"))
      as Hknown.
    { exists user. split; [exact Hin|]. unfold prop. by rewrite lookup_delete_ne. }
    destruct Hint as ((Hus & Hrs & Hr & _) & _).
    apply show_integrity; [|by intros u [= <-]].
    split; [exact Hus|]. split; [exact Hrs|]. split; [exact Hr|].
    intros u [= <-]. destruct (known_user_string w _ Hw Hknown) as [s Hs].
    rewrite (prop_stringify_parse_string _ _ _ Hs), <- Hs. exact Hknown.
  - intros w now email password name isAdmin Hw _ ((_ & Hrs & Hr & _) & _).
    rewrite handleRegister_unfold.
    pose proof (registeredUser_is_json now email password name isAdmin) as Hjson.
    pose proof (proj1 (registeredUser_props now email password name isAdmin)) as Hnewid.
    cbn zeta in Hnewid.
    generalize dependent (registeredUser now email password name isAdmin).
    intros new Hjson Hnewid.
    set (ls1 := Storage.setUsers (Storage.getUsers (App.localStorage w) ++ [new])
                  (App.localStorage w)).
    assert (Storage.getUsers ls1 = Storage.getUsers (App.localStorage w) ++ [new])
      as Husers.
    { subst ls1. rewrite getUsers_setUsers, is_json_fmap; [reflexivity|].
      apply Forall_app. split; [|constructor; [exact Hjson|constructor]].
      apply stored_user_is_json. by apply reachable_users_stored. }
    assert (forall id, known_user (App.localStorage w) id -> known_user ls1 id) as Hmono.
    { intros id (u & Hu & Hid). exists u. split; [|exact Hid].
      rewrite Husers. apply elem_of_app. by left. }
    assert (prop (delete "password" new) "id" = JStr (pretty now)) as Hs.
    { unfold prop in *. by rewrite lookup_delete_ne. }
    assert (known_user ls1 (prop (delete "password" new) "id")) as Hknown.
    { exists new. split; [rewrite Husers; apply elem_of_app; right; apply list_elem_of_here|].
      by rewrite Hs. }
    apply show_integrity; [|by intros u [= <-]].
    split; [by eexists|]. split; [exact Hrs|]. split; [intros r Hr'; by apply Hmono, Hr|].
    intros u [= <-].
    rewrite (prop_stringify_parse_string _ _ _ Hs), <- Hs. exact Hknown.
  - intros w a _ (Hls & Hcu & _). by apply show_integrity.
  - intros w _ ((Hus & Hrs & Hr & _) & _).
    apply show_integrity; [|intros u [=]].
    split; [exact Hus|]. split; [exact Hrs|]. split; [exact Hr|]. intros u [=].
  - intros w s e ls' s' Hw Hv Hhandle (Hls & Hcu & Hdash).
    apply AdminHome_handle_cases in Hhandle
      as [[-> Hsame] | (id & status & dep & com & -> & Hupd)].
    + split; [exact Hls|]. split; [exact Hcu|].
      intros s0 r [= <-] Hr. rewrite Hsame in Hr. by apply (Hdash s).
    + assert (forall r, r ∈ AdminHome.updatedReports
                              (default ∅ (App.currentUser w)) id status dep com
                              (AdminHome.reports s) ->
                known_user (App.localStorage w) (prop r "userId")) as Hknown.
      { intros r' (r & Hr & Hsame)%updatedReports_elem.
        rewrite (Hsame "userId") by (by apply not_triage). by apply (Hdash s). }
      split; [by apply setReports_integrity|].
      split; [exact Hcu|].
      intros s0 r [= <-] Hr. rewrite Hupd in Hr. by apply Hknown.
  - intros w s e Hw Hv (Hls & Hcu & _).
    destruct (proj2 (reachable_role w Hw) s Hv) as (u & Hu & _).
    unfold referential_integrity.
    cbn [App.setView App.localStorage App.currentUser App.view].
    destruct (UserHome_handle_cases (default ∅ (App.currentUser w)) e
                (App.localStorage w) s) as [-> | (now & iso & ->)].
    { split; [exact Hls|]. split; [exact Hcu | intros ? ? [=]]. }
    split; [|split; [exact Hcu | intros ? ? [=]]].
    apply setReports_integrity; [exact Hw | exact Hls|].
    intros r [Hr | ->%list_elem_of_singleton]%elem_of_app; [by apply Hls|].
    rewrite newReport_userId, Hu. cbn [default]. by apply Hcu.
Qed.

Lemma reachable_integrity (w : App.World) :
  App.reachable w -> referential_integrity w.
Proof.
  apply reachable_invariant; [apply init_empty_integrity | apply step_integrity].
Qed.

(** X17.  Referential integrity is kept, though never checked: in every
    world reached from an empty [localStorage], every stored report's
    [userId] is the id of a stored user, and so is the id of the user that
    is logged in; no report is dangling. *)
Theorem reachable_no_dangling_report (w : App.World) :
  App.reachable w ->
  ~ dangling_report (App.localStorage w)
  /\ (forall r, r ∈ Storage.getReports (App.localStorage w) ->
        known_user (App.localStorage w) (prop r "userId"))
  /\ (forall u, App.currentUser w = Some u ->
        known_user (App.localStorage w) (prop u "id")).
Proof.
  intros Hw. destruct (reachable_integrity w Hw) as ((_ & _ & Hr & _) & Hcu & _).
  split; [|by split].
  intros (r & Hin & Hnone). destruct (Hr r Hin) as (u & Hu & Hid).
  by apply (Hnone u Hu).
Qed.

Lemma reachable_no_dangling_report_witness :
  ~ dangling_report (App.localStorage (run (App.init "" "" Storage.empty) submitThenReview)).
Proof.
  refine (proj1 (reachable_no_dangling_report _ _)).
  unfold run, submitThenReview. cbn [foldl].
  repeat apply App.reachable_step. apply App.reachable_init.
Defined.

Lemma prop_written (o : obj) (k : string) :
  prop (stringify_parse_obj o) k = stringify_parse (prop o k).
Proof.
  unfold prop. rewrite lookup_stringify_parse_obj.
  destruct (o !! k) as [v|]; [|reflexivity]. cbn [default].
  destruct (is_undefined v) eqn:Hv; [|reflexivity].
  by destruct v.
Qed.

Lemma report_ids_written (l : list obj) :
  report_ids (stringify_parse_obj <$> l) = stringify_parse <$> report_ids l.
Proof.
  unfold report_ids. rewrite <- !list_fmap_compose. apply list_fmap_ext.
  intros _ r _. apply prop_written.
Qed.

Lemma report_ids_updated (user : obj) (id : jsval) (status : AdminHome.Status)
    (department comments : option string) (reports : list obj) :
  report_ids (AdminHome.updatedReports user id status department comments reports)
  = report_ids reports.
Proof.
  unfold report_ids, AdminHome.updatedReports. rewrite <- list_fmap_compose.
  apply list_fmap_ext. intros _ r _. cbn.
  destruct (strict_eq _ _); [|reflexivity].
  unfold prop. rewrite withTriage_other; [reflexivity | by apply not_triage].
Qed.

Lemma show_in_sync (ls : Storage.LocalStorage) (a : App.AuthState) (user : option obj) :
  Forall is_json (Storage.getReports ls) ->
  dashboard_in_sync (App.show ls a user).
Proof.
  intros Hjson s Hv. apply show_dashboard in Hv. rewrite Hv. by apply is_json_fmap.
Qed.

Lemma reachable_reports_json (w : App.World) :
  App.reachable w -> Forall is_json (Storage.getReports (App.localStorage w)).
Proof. intros Hw. by apply reachable_well_typed in Hw as ((_ & _ & Hr & _) & _). Qed.

Lemma step_in_sync (w : App.World) (e : App.Event) :
  App.reachable w -> dashboard_in_sync w -> dashboard_in_sync (App.step w e).
Proof.
  intros Hw. revert w e Hw.
  apply (step_relates (fun w w' => dashboard_in_sync w -> dashboard_in_sync w')).
  - done.
  - intros w a b Hw _.
    destruct (reachable_integrity w Hw) as ((Hus & Hrs & _) & _).
    rewrite (init_present a b _ Hus Hrs).
    destruct (Storage.currentUser _); by apply show_in_sync, reachable_reports_json.
  - intros w email password Hw _ Hsync. rewrite handleLogin_fold.
    destruct (find _ _); [|exact Hsync].
    by apply show_in_sync, (reachable_reports_json w).
  - intros w now email password name isAdmin Hw _ _.
    by apply show_in_sync, (reachable_reports_json w).
  - intros w a Hw _. by apply show_in_sync, reachable_reports_json.
  - intros w Hw _. by apply show_in_sync, (reachable_reports_json w).
  - intros w s e ls' s' Hw Hv Hhandle Hsync s0 [= <-].
    cbn [App.setView App.localStorage].
    apply AdminHome_handle_cases in Hhandle
      as [[-> Hsame] | (id & status & dep & com & -> & Hupd)].
    + rewrite Hsame. by apply Hsync.
    + by rewrite Hupd, getReports_setReports.
  - intros w s e _ _ _ s0 [=].
Qed.

Lemma reachable_in_sync (w : App.World) : App.reachable w -> dashboard_in_sync w.
Proof.
  apply reachable_invariant; [|apply step_in_sync].
  intros a b s [=].
Qed.

(** X18.  Nothing is ever deleted or reordered: over every step from a
    reachable world the users store keeps its users as a prefix, and the
    reports store keeps the ids of its reports as a prefix, in the same
    order; a step adds users or reports at the end, and a dashboard that
    writes its list back writes every stored report. *)
Theorem step_keeps_stored (w : App.World) (e : App.Event) :
  App.reachable w ->
  Storage.getUsers (App.localStorage w)
    `prefix_of` Storage.getUsers (App.localStorage (App.step w e))
  /\ report_ids (Storage.getReports (App.localStorage w))
       `prefix_of` report_ids (Storage.getReports (App.localStorage (App.step w e))).
Proof.
  revert w e.
  apply (step_relates (fun w w' =>
    Storage.getUsers (App.localStorage w)
      `prefix_of` Storage.getUsers (App.localStorage w')
    /\ report_ids (Storage.getReports (App.localStorage w))
         `prefix_of` report_ids (Storage.getReports (App.localStorage w')))).
  - done.
  - intros w a b Hw.
    destruct (reachable_integrity w Hw) as ((Hus & Hrs & _) & _).
    rewrite (init_present a b _ Hus Hrs). by destruct (Storage.currentUser _).
  - intros w email password _ _. rewrite handleLogin_fold. by destruct (find _ _).
  - intros w now email password name isAdmin Hw _.
    split; [|done].
    rewrite (handleRegister_users now email password name isAdmin w
               (stored_user_is_json _ (reachable_users_stored w Hw))).
    by apply prefix_app_r.
  - done.
  - done.
  - intros w s e ls' s' Hw Hv Hhandle. cbn [App.setView App.localStorage].
    apply AdminHome_handle_cases in Hhandle
      as [[-> _] | (id & status & dep & com & -> & _)]; [done|].
    split; [done|].
    rewrite getReports_setReports, report_ids_written, report_ids_updated.
    rewrite <- report_ids_written, (reachable_in_sync w Hw s Hv). done.
  - intros w s e Hw _. cbn [App.setView App.localStorage].
    destruct (UserHome_handle_cases (default ∅ (App.currentUser w)) e
                (App.localStorage w) s) as [-> | (now & iso & ->)]; [done|].
    split; [done|].
    rewrite getReports_setReports, fmap_app,
      (is_json_fmap _ (reachable_reports_json w Hw)).
    unfold report_ids. rewrite fmap_app. by apply prefix_app_r.
Qed.

Lemma step_keeps_stored_witness :
  Storage.getUsers (App.localStorage adminWorld)
    `prefix_of` Storage.getUsers
                  (App.localStorage (App.step adminWorld App.ClickLogout))
  /\ report_ids (Storage.getReports (App.localStorage adminWorld))
       `prefix_of` report_ids
                     (Storage.getReports
                        (App.localStorage (App.step adminWorld App.ClickLogout))).
Proof.
  exact (step_keeps_stored adminWorld App.ClickLogout adminWorld_reachable).
Defined.

Lemma written_category_written (o : obj) :
  written_category o -> written_category (stringify_parse_obj o).
Proof.
  intros [H|H]; [left|right]; by apply prop_stringify_parse_string.
Qed.

Lemma Forall_written_category_written (l : list obj) :
  Forall written_category l -> Forall written_category (stringify_parse_obj <$> l).
Proof. induction 1; constructor; [by apply written_category_written | done]. Qed.

Lemma updatedReports_category (user : obj) (id : jsval) (status : AdminHome.Status)
    (department comments : option string) (reports : list obj) :
  Forall written_category reports ->
  Forall written_category
    (AdminHome.updatedReports user id status department comments reports).
Proof.
  intros Hall. apply Forall_forall. intros r' (r & Hr & Hsame)%updatedReports_elem.
  rewrite Forall_forall in Hall. unfold written_category.
  rewrite (Hsame "category") by (by apply not_triage). by apply Hall.
Qed.

Lemma newReport_category (user : obj) (now : Z) (iso : string)
    (formData : UserHome.FormData) (location : option UserHome.Coords) :
  prop (UserHome.newReport user now iso formData location) "category"
  = JStr (UserHome.category formData).
Proof.
  unfold UserHome.newReport, literal, prop. cbn [foldl fst snd].
  repeat (rewrite lookup_insert_ne by done). by rewrite lookup_insert_eq.
Qed.

Lemma UserHome_handle_category (user : obj) (e : UserHome.Event)
    (ls : Storage.LocalStorage) (st : UserHome.State) :
  UserHome.category (UserHome.formData st) = "pothole" ->
  UserHome.category (UserHome.formData (UserHome.handle user e ls st).2) = "pothole".
Proof.
  intros Hst. destruct e; try exact Hst.
  cbn [UserHome.handle]. unfold UserHome.submitReport.
  destruct (_ || _ || _); [exact Hst|]. destruct (_ && _); [exact Hst|]. reflexivity.
Qed.

Lemma show_user_page (ls : Storage.LocalStorage) (a : App.AuthState)
    (user : option obj) (s : UserHome.State) :
  App.view (App.show ls a user) = App.UserPage s ->
  UserHome.formData s = UserHome.emptyForm.
Proof.
  cbn [App.show App.view]. unfold App.render.
  destruct a; try discriminate.
  destruct user as [u|]; [|discriminate].
  destruct (truthy _); [by destruct (AdminHome.mount ls)|].
  by intros [= <-].
Qed.

Lemma show_categories (ls : Storage.LocalStorage) (a : App.AuthState)
    (user : option obj) :
  Forall written_category (Storage.getReports ls) ->
  categories_written (App.show ls a user).
Proof.
  intros Hls. split; [exact Hls|]. split.
  - intros s Hv. apply show_dashboard in Hv. by rewrite Hv.
  - intros s Hv. apply show_user_page in Hv. by rewrite Hv.
Qed.

Lemma demoReports_categories (a b : string) :
  Forall written_category (App.demoReports a b).
Proof.
  unfold App.demoReports, written_category, literal, prop.
  constructor; [left|constructor; [right|constructor]];
    cbn [foldl fst snd]; repeat (rewrite lookup_insert_ne by done);
    by rewrite lookup_insert_eq.
Qed.

Lemma step_categories (w : App.World) (e : App.Event) :
  App.reachable w -> categories_written w -> categories_written (App.step w e).
Proof.
  intros Hw. revert w e Hw.
  apply (step_relates (fun w w' => categories_written w -> categories_written w')).
  - done.
  - intros w a b Hw (Hls & _).
    destruct (reachable_integrity w Hw) as ((Hus & Hrs & _) & _).
    rewrite (init_present a b _ Hus Hrs).
    destruct (Storage.currentUser _); by apply show_categories.
  - intros w email password _ _ Hcat. rewrite handleLogin_fold.
    destruct (find _ _); [|exact Hcat]. by apply show_categories, Hcat.
  - intros w now email password name isAdmin _ _ (Hls & _). by apply show_categories.
  - intros w a _ (Hls & _). by apply show_categories.
  - intros w _ (Hls & _). by apply show_categories.
  - intros w s e ls' s' _ Hv Hhandle (Hls & Hdash & _).
    unfold categories_written. cbn [App.setView App.localStorage App.view].
    apply AdminHome_handle_cases in Hhandle
      as [[-> Hsame] | (id & status & dep & com & -> & Hupd)].
    + split; [exact Hls|]. split; [|intros ? [=]].
      intros s0 [= <-]. rewrite Hsame. by apply Hdash.
    + pose proof (updatedReports_category (default ∅ (App.currentUser w))
                    id status dep com _ (Hdash s Hv)) as Hupdated.
      split; [rewrite getReports_setReports; by apply Forall_written_category_written|].
      split; [|intros ? [=]]. intros s0 [= <-]. by rewrite Hupd.
  - intros w s e _ Hv (Hls & _ & Hform).
    unfold categories_written. cbn [App.setView App.localStorage App.view].
    split; [|split; [intros ? [=]|]].
    + destruct (UserHome_handle_cases (default ∅ (App.currentUser w)) e
                  (App.localStorage w) s) as [-> | (now & iso & ->)]; [exact Hls|].
      rewrite getReports_setReports. apply Forall_written_category_written.
      apply Forall_app. split; [exact Hls|]. constructor; [|constructor].
      left. by rewrite newReport_category, (Hform s Hv).
    + intros s0 [= <-]. by apply UserHome_handle_category, Hform.
Qed.

Lemma categoryCount_zero (reports : list obj) (c : string) :
  Forall written_category reports -> c <> "pothole" -> c <> "streetlight" ->
  AdminHome.categoryCount reports c = 0.
Proof.
  intros Hall Hp Hs. unfold AdminHome.categoryCount.
  induction Hall as [|r l Hr _ IH]; [reflexivity|].
  cbn [List.filter]. rewrite strict_eq_string.
  destruct (is_string (prop r "category") c) eqn:Hc; [|exact IH].
  apply is_string_spec in Hc. destruct Hr as [Hr|Hr]; congruence.
Qed.

(** X19.  The citizen's page never sets the category: in every world
    reached from an empty [localStorage], the form's category is
    ['pothole'], every stored report has the category ['pothole'] or
    ['streetlight'] (the second from the seeded data), and on the
    dashboard the rows of the other four categories count no report. *)
Theorem reachable_categories (w : App.World) :
  App.reachable w ->
  (forall s, App.view w = App.UserPage s ->
     UserHome.category (UserHome.formData s) = "pothole")
  /\ Forall written_category (Storage.getReports (App.localStorage w))
  /\ (forall s c, App.view w = App.AdminPage s ->
        c ∈ ["garbage"; "drainage"; "traffic"; "other"] ->
        AdminHome.categoryCount (AdminHome.reports s) c = 0).
Proof.
  intros Hw.
  assert (categories_written w) as (Hls & Hdash & Hform).
  { revert w Hw. apply reachable_invariant; [|apply step_categories].
    intros a b.
    change (App.init a b Storage.empty)
      with (App.show (Storage.setReports (App.demoReports a b)
                        (Storage.setUsers App.demoUsers Storage.empty))
              App.login None).
    apply show_categories. rewrite getReports_setReports.
    apply Forall_written_category_written, demoReports_categories. }
  split; [exact Hform|]. split; [exact Hls|].
  intros s c Hv Hc. apply categoryCount_zero; [by apply Hdash|..];
    intros ->; repeat (apply elem_of_cons in Hc as [[=]|Hc]);
    by apply not_elem_of_nil in Hc.
Qed.

Lemma reachable_categories_witness :
  Forall written_category
    (Storage.getReports
       (App.localStorage (run (App.init "" "" Storage.empty) submitThenReview))).
Proof.
  refine (proj1 (proj2 (reachable_categories _ _))).
  unfold run, submitThenReview. cbn [foldl].
  repeat apply App.reachable_step. apply App.reachable_init.
Defined.

(* ===================================================================== *)
(** ** AdminHome: triage is final and idempotent; the named UserHome *)
(* ===================================================================== *)

Lemma runFilterEffect_selected (st st' : AdminHome.State) :
  AdminHome.runFilterEffect st = Some st' ->
  AdminHome.selectedReport st' = AdminHome.selectedReport st.
Proof.
  unfold AdminHome.runFilterEffect.
  destruct (AdminHome.applyFilters _ _); [|discriminate]. by intros [= <-].
Qed.

Lemma strict_eq_string_id (o : obj) :
  string_id o -> strict_eq (prop o "id") (prop o "id") = true.
Proof.
  intros [id ->]. rewrite strict_eq_string. by apply is_string_spec.
Qed.

Lemma canUpdate_resolved (st : AdminHome.State) (sel : obj) :
  AdminHome.selectedReport st = Some sel ->
  prop sel "status" = JStr "resolved" ->
  AdminHome.canUpdate st = None.
Proof. unfold AdminHome.canUpdate. by intros -> ->. Qed.

(** X13.  "Mark Resolved" is final.  On a dashboard whose reports have a
    location and whose selected report, if any, has a string id, the click
    leaves a state in which the selected report is resolved or absent, so
    that the two status buttons are not offered and a further click on
    either changes neither the storage nor the state. *)
Theorem mark_resolved_is_final (user : obj) (ls : Storage.LocalStorage)
    (st : AdminHome.State) :
  Forall location_object (AdminHome.reports st) ->
  (forall sel, AdminHome.selectedReport st = Some sel -> string_id sel) ->
  exists st1,
    AdminHome.handle user AdminHome.ClickMarkResolved ls st
      = ((AdminHome.handle user AdminHome.ClickMarkResolved ls st).1, Some st1)
    /\ (forall sel, AdminHome.selectedReport st = Some sel ->
          exists sel1, AdminHome.selectedReport st1 = Some sel1
                       /\ prop sel1 "status" = JStr "resolved"
                       /\ prop sel1 "id" = prop sel "id")
    /\ AdminHome.canUpdate st1 = None
    /\ (forall e ls1,
          e = AdminHome.ClickMarkInProgress \/ e = AdminHome.ClickMarkResolved ->
          AdminHome.handle user e ls1 st1 = (ls1, Some st1)).
Proof.
  intros Hloc Hsel.
  assert (forall st1, AdminHome.canUpdate st1 = None ->
            forall e ls1,
              e = AdminHome.ClickMarkInProgress \/ e = AdminHome.ClickMarkResolved ->
              AdminHome.handle user e ls1 st1 = (ls1, Some st1)) as Hnoop.
  { intros st1 Hst1 e ls1 [-> | ->]; cbn [AdminHome.handle]; by rewrite Hst1. }
  cbn [AdminHome.handle].
  destruct (AdminHome.canUpdate st) as [sel|] eqn:Hcan.
  - unfold AdminHome.canUpdate in Hcan.
    destruct (AdminHome.selectedReport st) as [sel0|] eqn:Hsel0; [|discriminate].
    destruct (strict_eq (prop sel0 "status") (JStr "resolved")) eqn:Hst; [discriminate|].
    injection Hcan as <-.
    set (r := AdminHome.updateReportStatus user (prop sel0 "id") AdminHome.Resolved
                (Some "Public Works") (Some "Issue resolved successfully") ls st).
    destruct (runFilterEffect_runs r.2) as (st1 & Hst1 & _).
    { subst r. by apply updatedReports_location. }
    exists st1. cbn [fst snd]. rewrite Hst1. split; [reflexivity|].
    assert (AdminHome.selectedReport st1
            = Some (AdminHome.withTriage user AdminHome.Resolved (Some "Public Works")
                      (Some "Issue resolved successfully") sel0)) as Hsel1.
    { rewrite (runFilterEffect_selected _ _ Hst1). subst r.
      unfold AdminHome.updateReportStatus. cbn [snd AdminHome.selectedReport].
      rewrite Hsel0. cbn [default]. by rewrite (strict_eq_string_id sel0 (Hsel sel0 eq_refl)). }
    destruct (withTriage_set user AdminHome.Resolved (Some "Public Works")
                (Some "Issue resolved successfully") sel0) as (Hstatus & _).
    split; [|split].
    + intros sel [= <-]. eexists. split; [exact Hsel1|]. split; [exact Hstatus|].
      unfold prop. rewrite withTriage_other; [reflexivity|].
      unfold triage_fields. rewrite !not_elem_of_cons.
      repeat split; try done. apply not_elem_of_nil.
    + eapply canUpdate_resolved; [exact Hsel1 | exact Hstatus].
    + apply Hnoop. eapply canUpdate_resolved; [exact Hsel1 | exact Hstatus].
  - exists st. split; [reflexivity|]. split; [|split; [exact Hcan | by apply Hnoop]].
    intros sel Hsel0. unfold AdminHome.canUpdate in Hcan. rewrite Hsel0 in Hcan.
    exists sel. split; [exact Hsel0|]. split; [|reflexivity].
    destruct (strict_eq (prop sel "status") (JStr "resolved")) eqn:Hst; [|discriminate].
    rewrite strict_eq_string in Hst. by apply is_string_spec.
Qed.

Lemma mark_resolved_is_final_witness :
  exists st1,
    AdminHome.handle strayUser AdminHome.ClickMarkResolved Storage.empty sampleDashboard
      = ((AdminHome.handle strayUser AdminHome.ClickMarkResolved Storage.empty
            sampleDashboard).1, Some st1)
    /\ (forall sel, AdminHome.selectedReport sampleDashboard = Some sel ->
          exists sel1, AdminHome.selectedReport st1 = Some sel1
                       /\ prop sel1 "status" = JStr "resolved"
                       /\ prop sel1 "id" = prop sel "id")
    /\ AdminHome.canUpdate st1 = None
    /\ (forall e ls1,
          e = AdminHome.ClickMarkInProgress \/ e = AdminHome.ClickMarkResolved ->
          AdminHome.handle strayUser e ls1 st1 = (ls1, Some st1)).
Proof.
  refine (mark_resolved_is_final strayUser Storage.empty sampleDashboard _ _).
  - apply demoReports_location.
  - intros sel Hsel. injection Hsel as <-. by exists "1".
Defined.

Lemma named_validation_checks (formData : NamedUserHome.FormData)
    (location : option UserHome.Coords) :
  named_passes_validation formData location
  <-> (negb (nonempty (NamedUserHome.title formData))
       || negb (nonempty (NamedUserHome.description formData))
       || negb (nonempty (NamedUserHome.imageUrl formData)) = false)
      /\ (negb (bool_decide (is_Some location))
          && negb (nonempty (NamedUserHome.address formData)) = false).
Proof.
  unfold named_passes_validation.
  rewrite !orb_false_iff, andb_false_iff, !negb_false_iff, !nonempty_spec.
  rewrite bool_decide_eq_true.
  assert (is_Some location <-> location <> None) as ->.
  { destruct location as [c|]; split; intros H;
      first [ done | by eexists | by destruct H | by destruct H as [? [=]] ]. }
  tauto.
Qed.

(** X14.  The named export of [UserHome], with one image per report,
    stores what the dashboard reads: when its form passes validation, the
    report appended to the store has the image as the string [imageUrl],
    which is not empty; when a check fails, the storage is left as it
    is. *)
Theorem named_submitReport_stores_imageUrl (user : obj) (now : Z) (iso : string)
    (ls : Storage.LocalStorage) (st : NamedUserHome.State) :
  Forall is_json (Storage.getReports ls) ->
  let r := NamedUserHome.submitReport user now iso ls st in
  let report := NamedUserHome.newReport user now iso (NamedUserHome.formData st)
                  (NamedUserHome.location st) in
  (named_passes_validation (NamedUserHome.formData st) (NamedUserHome.location st) ->
     Storage.getReports r.1 = Storage.getReports ls ++ [stringify_parse_obj report]
     /\ prop (stringify_parse_obj report) "imageUrl"
        = JStr (NamedUserHome.imageUrl (NamedUserHome.formData st))
     /\ truthy (prop (stringify_parse_obj report) "imageUrl") = true
     /\ stringify_parse_obj report !! "imageUrls" = None)
  /\ (~ named_passes_validation (NamedUserHome.formData st) (NamedUserHome.location st) ->
      r.1 = ls /\ NamedUserHome.reports r.2 = NamedUserHome.reports st).
Proof.
  intros Hjson. cbn zeta. rewrite named_validation_checks.
  unfold NamedUserHome.submitReport.
  destruct (_ || _ || _) eqn:H1.
  { split; [by intros [[=] _] | done]. }
  destruct (_ && _) eqn:H2.
  { split; [by intros [_ [=]] | done]. }
  split; [intros _ | by intros []].
  cbn [fst]. rewrite getReports_setReports, fmap_app, is_json_fmap by exact Hjson.
  split; [reflexivity|].
  assert (prop (NamedUserHome.newReport user now iso (NamedUserHome.formData st)
                  (NamedUserHome.location st)) "imageUrl"
          = JStr (NamedUserHome.imageUrl (NamedUserHome.formData st))) as Himg.
  { unfold NamedUserHome.newReport, literal, prop. cbn [foldl fst snd].
    repeat (rewrite lookup_insert_ne by done). by rewrite lookup_insert_eq. }
  rewrite (prop_stringify_parse_string _ _ _ Himg).
  split; [reflexivity|]. split.
  - apply orb_false_iff in H1 as [_ H1]. by apply negb_false_iff in H1.
  - rewrite lookup_stringify_parse_obj.
    unfold NamedUserHome.newReport, literal. cbn [foldl fst snd].
    repeat (rewrite lookup_insert_ne by done). by rewrite lookup_empty.
Qed.

Lemma named_submitReport_stores_imageUrl_witness :
  prop (stringify_parse_obj
          (NamedUserHome.newReport strayUser 0 "" namedFilledForm None)) "imageUrl"
  = JStr "data:bench".
Proof.
  refine (proj1 (proj2 (proj1 (named_submitReport_stores_imageUrl strayUser 0 ""
                                 Storage.empty namedFilledPage _) _))).
  - constructor.
  - repeat split; try discriminate. right. discriminate.
Defined.

Lemma withTriage_idemp (user : obj) (status : AdminHome.Status)
    (department comments : option string) (report : obj) :
  AdminHome.withTriage user status department comments
    (AdminHome.withTriage user status department comments report)
  = AdminHome.withTriage user status department comments report.
Proof.
  unfold AdminHome.withTriage. apply map_eq. intros k.
  rewrite !lookup_insert. by repeat case_decide.
Qed.

Lemma withTriage_id (user : obj) (status : AdminHome.Status)
    (department comments : option string) (report : obj) :
  prop (AdminHome.withTriage user status department comments report) "id"
  = prop report "id".
Proof. unfold prop. rewrite withTriage_other; [reflexivity | by apply not_triage]. Qed.

(** X20.  [updateReportStatus] is idempotent: calling it again with the
    same arguments on the storage and the state it left changes neither
    of them. *)
Theorem updateReportStatus_idempotent (user : obj) (reportId : jsval)
    (status : AdminHome.Status) (department comments : option string)
    (ls : Storage.LocalStorage) (st : AdminHome.State) :
  let r1 := AdminHome.updateReportStatus user reportId status department comments ls st in
  AdminHome.updateReportStatus user reportId status department comments r1.1 r1.2 = r1.
Proof.
  cbn zeta. unfold AdminHome.updateReportStatus.
  cbn [fst snd AdminHome.reports AdminHome.selectedReport AdminHome.filteredReports
       AdminHome.filters AdminHome.activeTab].
  assert (AdminHome.updatedReports user reportId status department comments
            (AdminHome.updatedReports user reportId status department comments
               (AdminHome.reports st))
          = AdminHome.updatedReports user reportId status department comments
              (AdminHome.reports st)) as ->.
  { unfold AdminHome.updatedReports. rewrite <- list_fmap_compose.
    apply list_fmap_ext. intros _ r _. cbn.
    destruct (strict_eq (prop r "id") reportId) eqn:Hid.
    - by rewrite withTriage_id, Hid, withTriage_idemp.
    - by rewrite Hid. }
  f_equal.
  destruct (AdminHome.selectedReport st) as [sel|]; cbn [default from_option id].
  - destruct (strict_eq (prop sel "id") reportId) eqn:Hid; cbn [default from_option id].
    + by rewrite withTriage_id, Hid, withTriage_idemp.
    + by rewrite Hid.
  - destruct (strict_eq JUndefined reportId) eqn:Hid; cbn [default from_option id].
    + rewrite withTriage_id, withTriage_idemp. unfold prop at 1.
      rewrite lookup_empty. cbn [default from_option]. by rewrite Hid.
    + by rewrite Hid.
Qed.
